(** * Server-side conversion event pipeline (Shopify webhooks to Meta CAPI)

    A shallow embedding of

      - [app/services/capi.server.ts]      (class [CAPIService]; it is the
        middle part of [app/services/shopify-marketing.server.ts]),
      - [app/routes/webhooks.orders.create.tsx],
      - the route of the checkout-created webhook,
      - [app/routes/webhooks.customers.create.tsx],

    together with the properties of the pipeline that the design document
    states about them.

    Conventions of the embedding.

      - A JavaScript string is a [string] of bytes: the UTF-8 encoding of
        its text, which is what [hash.update] feeds to the digest.
        [toLowerCase] and [trim] work on the characters (code points) of
        the text, with the case mappings of Unicode 14.0 and the white
        space of ECMAScript.  A string with an unpaired surrogate has no
        counterpart here.
      - An optional field of a loosely typed record is an [option]:
        [None] stands for a key that is missing, [undefined] or [null]
        (a key bound to [undefined] is dropped by [JSON.stringify], so both
        are the same on the wire).
      - A JavaScript number is a [number]: [NaN], an infinity, or a
        rational.  A product is rounded to binary64 as the engine rounds
        it.  Sums and quotients are computed exactly: they are used on
        item counts and on clock readings in milliseconds, where binary64
        is exact below 2^53.  A parsed literal is kept as the decimal that
        is written.  The sign of zero is not represented.
      - Effects ([Date.now], [Math.random], the database lookup and the HTTP
        call of axios) are threaded through a state-and-exception monad
        over a [World], which also holds what is the engine's own in
        reading a date. *)

From Stdlib Require Import ZArith QArith Qreduction Qround Qabs.
From Stdlib Require Import List String Ascii Bool Lia.
From Stdlib Require Import DecimalString DecimalPos DecimalZ.
Import ListNotations.

Local Open Scope string_scope.
Local Open Scope Z_scope.

(** ** Unicode

    What the lower-casing and the trimming of the engine need to know about
    characters: the lower-case mappings, the cased letters and the
    case-ignorable characters of the Unicode Character Database (version
    14.0), and the white space of ECMAScript.  A character is its code
    point. *)

Module Unicode.

(** The upper-case letters beyond ASCII, in runs [(first, count, step,
    delta)]: each of the [count] code points [first], [first + step], ...
    has its lower-case form [delta] further on. *)
Definition lower_runs : list (Z * Z * Z * Z) :=
  (0xC0, 23, 1, 32) :: (0xD8, 7, 1, 32) :: (0x100, 24, 2, 1) ::
  (0x132, 3, 2, 1) :: (0x139, 8, 2, 1) :: (0x14A, 23, 2, 1) ::
  (0x178, 1, 1, (-121)) :: (0x179, 3, 2, 1) :: (0x181, 1, 1, 210) ::
  (0x182, 2, 2, 1) :: (0x186, 1, 1, 206) :: (0x187, 1, 1, 1) ::
  (0x189, 2, 1, 205) :: (0x18B, 1, 1, 1) :: (0x18E, 1, 1, 79) ::
  (0x18F, 1, 1, 202) :: (0x190, 1, 1, 203) :: (0x191, 1, 1, 1) ::
  (0x193, 1, 1, 205) :: (0x194, 1, 1, 207) :: (0x196, 1, 1, 211) ::
  (0x197, 1, 1, 209) :: (0x198, 1, 1, 1) :: (0x19C, 1, 1, 211) ::
  (0x19D, 1, 1, 213) :: (0x19F, 1, 1, 214) :: (0x1A0, 3, 2, 1) ::
  (0x1A6, 1, 1, 218) :: (0x1A7, 1, 1, 1) :: (0x1A9, 1, 1, 218) ::
  (0x1AC, 1, 1, 1) :: (0x1AE, 1, 1, 218) :: (0x1AF, 1, 1, 1) ::
  (0x1B1, 2, 1, 217) :: (0x1B3, 2, 2, 1) :: (0x1B7, 1, 1, 219) ::
  (0x1B8, 1, 1, 1) :: (0x1BC, 1, 1, 1) :: (0x1C4, 1, 1, 2) ::
  (0x1C5, 1, 1, 1) :: (0x1C7, 1, 1, 2) :: (0x1C8, 1, 1, 1) ::
  (0x1CA, 1, 1, 2) :: (0x1CB, 9, 2, 1) :: (0x1DE, 9, 2, 1) ::
  (0x1F1, 1, 1, 2) :: (0x1F2, 2, 2, 1) :: (0x1F6, 1, 1, (-97)) ::
  (0x1F7, 1, 1, (-56)) :: (0x1F8, 20, 2, 1) :: (0x220, 1, 1, (-130)) ::
  (0x222, 9, 2, 1) :: (0x23A, 1, 1, 10795) :: (0x23B, 1, 1, 1) ::
  (0x23D, 1, 1, (-163)) :: (0x23E, 1, 1, 10792) :: (0x241, 1, 1, 1) ::
  (0x243, 1, 1, (-195)) :: (0x244, 1, 1, 69) :: (0x245, 1, 1, 71) ::
  (0x246, 5, 2, 1) :: (0x370, 2, 2, 1) :: (0x376, 1, 1, 1) ::
  (0x37F, 1, 1, 116) :: (0x386, 1, 1, 38) :: (0x388, 3, 1, 37) ::
  (0x38C, 1, 1, 64) :: (0x38E, 2, 1, 63) :: (0x391, 17, 1, 32) ::
  (0x3A3, 9, 1, 32) :: (0x3CF, 1, 1, 8) :: (0x3D8, 12, 2, 1) ::
  (0x3F4, 1, 1, (-60)) :: (0x3F7, 1, 1, 1) :: (0x3F9, 1, 1, (-7)) ::
  (0x3FA, 1, 1, 1) :: (0x3FD, 3, 1, (-130)) :: (0x400, 16, 1, 80) ::
  (0x410, 32, 1, 32) :: (0x460, 17, 2, 1) :: (0x48A, 27, 2, 1) ::
  (0x4C0, 1, 1, 15) :: (0x4C1, 7, 2, 1) :: (0x4D0, 48, 2, 1) ::
  (0x531, 38, 1, 48) :: (0x10A0, 38, 1, 7264) :: (0x10C7, 1, 1, 7264) ::
  (0x10CD, 1, 1, 7264) :: (0x13A0, 80, 1, 38864) :: (0x13F0, 6, 1, 8) ::
  (0x1C90, 43, 1, (-3008)) :: (0x1CBD, 3, 1, (-3008)) ::
  (0x1E00, 75, 2, 1) :: (0x1E9E, 1, 1, (-7615)) :: (0x1EA0, 48, 2, 1) ::
  (0x1F08, 8, 1, (-8)) :: (0x1F18, 6, 1, (-8)) :: (0x1F28, 8, 1, (-8)) ::
  (0x1F38, 8, 1, (-8)) :: (0x1F48, 6, 1, (-8)) :: (0x1F59, 4, 2, (-8)) ::
  (0x1F68, 8, 1, (-8)) :: (0x1F88, 8, 1, (-8)) :: (0x1F98, 8, 1, (-8)) ::
  (0x1FA8, 8, 1, (-8)) :: (0x1FB8, 2, 1, (-8)) :: (0x1FBA, 2, 1, (-74)) ::
  (0x1FBC, 1, 1, (-9)) :: (0x1FC8, 4, 1, (-86)) :: (0x1FCC, 1, 1, (-9)) ::
  (0x1FD8, 2, 1, (-8)) :: (0x1FDA, 2, 1, (-100)) :: (0x1FE8, 2, 1, (-8)) ::
  (0x1FEA, 2, 1, (-112)) :: (0x1FEC, 1, 1, (-7)) :: (0x1FF8, 2, 1, (-128)) ::
  (0x1FFA, 2, 1, (-126)) :: (0x1FFC, 1, 1, (-9)) ::
  (0x2126, 1, 1, (-7517)) :: (0x212A, 1, 1, (-8383)) ::
  (0x212B, 1, 1, (-8262)) :: (0x2132, 1, 1, 28) :: (0x2160, 16, 1, 16) ::
  (0x2183, 1, 1, 1) :: (0x24B6, 26, 1, 26) :: (0x2C00, 48, 1, 48) ::
  (0x2C60, 1, 1, 1) :: (0x2C62, 1, 1, (-10743)) :: (0x2C63, 1, 1, (-3814)) ::
  (0x2C64, 1, 1, (-10727)) :: (0x2C67, 3, 2, 1) ::
  (0x2C6D, 1, 1, (-10780)) :: (0x2C6E, 1, 1, (-10749)) ::
  (0x2C6F, 1, 1, (-10783)) :: (0x2C70, 1, 1, (-10782)) ::
  (0x2C72, 1, 1, 1) :: (0x2C75, 1, 1, 1) :: (0x2C7E, 2, 1, (-10815)) ::
  (0x2C80, 50, 2, 1) :: (0x2CEB, 2, 2, 1) :: (0x2CF2, 1, 1, 1) ::
  (0xA640, 23, 2, 1) :: (0xA680, 14, 2, 1) :: (0xA722, 7, 2, 1) ::
  (0xA732, 31, 2, 1) :: (0xA779, 2, 2, 1) :: (0xA77D, 1, 1, (-35332)) ::
  (0xA77E, 5, 2, 1) :: (0xA78B, 1, 1, 1) :: (0xA78D, 1, 1, (-42280)) ::
  (0xA790, 2, 2, 1) :: (0xA796, 10, 2, 1) :: (0xA7AA, 1, 1, (-42308)) ::
  (0xA7AB, 1, 1, (-42319)) :: (0xA7AC, 1, 1, (-42315)) ::
  (0xA7AD, 1, 1, (-42305)) :: (0xA7AE, 1, 1, (-42308)) ::
  (0xA7B0, 1, 1, (-42258)) :: (0xA7B1, 1, 1, (-42282)) ::
  (0xA7B2, 1, 1, (-42261)) :: (0xA7B3, 1, 1, 928) :: (0xA7B4, 8, 2, 1) ::
  (0xA7C4, 1, 1, (-48)) :: (0xA7C5, 1, 1, (-42307)) ::
  (0xA7C6, 1, 1, (-35384)) :: (0xA7C7, 2, 2, 1) :: (0xA7D0, 1, 1, 1) ::
  (0xA7D6, 2, 2, 1) :: (0xA7F5, 1, 1, 1) :: (0xFF21, 26, 1, 32) ::
  (0x10400, 40, 1, 40) :: (0x104B0, 36, 1, 40) :: (0x10570, 11, 1, 39) ::
  (0x1057C, 15, 1, 39) :: (0x1058C, 7, 1, 39) :: (0x10594, 2, 1, 39) ::
  (0x10C80, 51, 1, 64) :: (0x118A0, 32, 1, 32) :: (0x16E40, 32, 1, 32) ::
  (0x1E900, 34, 1, 34) :: nil.

(** The case-ignorable characters, in ranges [(first, last)]. *)
Definition ignorable_ranges : list (Z * Z) :=
  (0x27, 0x27) :: (0x2E, 0x2E) :: (0x3A, 0x3A) :: (0x5E, 0x5E) ::
  (0x60, 0x60) :: (0xA8, 0xA8) :: (0xAD, 0xAD) :: (0xAF, 0xAF) ::
  (0xB4, 0xB4) :: (0xB7, 0xB8) :: (0x2B0, 0x36F) :: (0x374, 0x375) ::
  (0x37A, 0x37A) :: (0x384, 0x385) :: (0x387, 0x387) :: (0x483, 0x489) ::
  (0x559, 0x559) :: (0x55F, 0x55F) :: (0x591, 0x5BD) :: (0x5BF, 0x5BF) ::
  (0x5C1, 0x5C2) :: (0x5C4, 0x5C5) :: (0x5C7, 0x5C7) :: (0x5F4, 0x5F4) ::
  (0x600, 0x605) :: (0x610, 0x61A) :: (0x61C, 0x61C) :: (0x640, 0x640) ::
  (0x64B, 0x65F) :: (0x670, 0x670) :: (0x6D6, 0x6DD) :: (0x6DF, 0x6E8) ::
  (0x6EA, 0x6ED) :: (0x70F, 0x70F) :: (0x711, 0x711) :: (0x730, 0x74A) ::
  (0x7A6, 0x7B0) :: (0x7EB, 0x7F5) :: (0x7FA, 0x7FA) :: (0x7FD, 0x7FD) ::
  (0x816, 0x82D) :: (0x859, 0x85B) :: (0x888, 0x888) :: (0x890, 0x891) ::
  (0x898, 0x89F) :: (0x8C9, 0x902) :: (0x93A, 0x93A) :: (0x93C, 0x93C) ::
  (0x941, 0x948) :: (0x94D, 0x94D) :: (0x951, 0x957) :: (0x962, 0x963) ::
  (0x971, 0x971) :: (0x981, 0x981) :: (0x9BC, 0x9BC) :: (0x9C1, 0x9C4) ::
  (0x9CD, 0x9CD) :: (0x9E2, 0x9E3) :: (0x9FE, 0x9FE) :: (0xA01, 0xA02) ::
  (0xA3C, 0xA3C) :: (0xA41, 0xA42) :: (0xA47, 0xA48) :: (0xA4B, 0xA4D) ::
  (0xA51, 0xA51) :: (0xA70, 0xA71) :: (0xA75, 0xA75) :: (0xA81, 0xA82) ::
  (0xABC, 0xABC) :: (0xAC1, 0xAC5) :: (0xAC7, 0xAC8) :: (0xACD, 0xACD) ::
  (0xAE2, 0xAE3) :: (0xAFA, 0xAFF) :: (0xB01, 0xB01) :: (0xB3C, 0xB3C) ::
  (0xB3F, 0xB3F) :: (0xB41, 0xB44) :: (0xB4D, 0xB4D) :: (0xB55, 0xB56) ::
  (0xB62, 0xB63) :: (0xB82, 0xB82) :: (0xBC0, 0xBC0) :: (0xBCD, 0xBCD) ::
  (0xC00, 0xC00) :: (0xC04, 0xC04) :: (0xC3C, 0xC3C) :: (0xC3E, 0xC40) ::
  (0xC46, 0xC48) :: (0xC4A, 0xC4D) :: (0xC55, 0xC56) :: (0xC62, 0xC63) ::
  (0xC81, 0xC81) :: (0xCBC, 0xCBC) :: (0xCBF, 0xCBF) :: (0xCC6, 0xCC6) ::
  (0xCCC, 0xCCD) :: (0xCE2, 0xCE3) :: (0xD00, 0xD01) :: (0xD3B, 0xD3C) ::
  (0xD41, 0xD44) :: (0xD4D, 0xD4D) :: (0xD62, 0xD63) :: (0xD81, 0xD81) ::
  (0xDCA, 0xDCA) :: (0xDD2, 0xDD4) :: (0xDD6, 0xDD6) :: (0xE31, 0xE31) ::
  (0xE34, 0xE3A) :: (0xE46, 0xE4E) :: (0xEB1, 0xEB1) :: (0xEB4, 0xEBC) ::
  (0xEC6, 0xEC6) :: (0xEC8, 0xECD) :: (0xF18, 0xF19) :: (0xF35, 0xF35) ::
  (0xF37, 0xF37) :: (0xF39, 0xF39) :: (0xF71, 0xF7E) :: (0xF80, 0xF84) ::
  (0xF86, 0xF87) :: (0xF8D, 0xF97) :: (0xF99, 0xFBC) :: (0xFC6, 0xFC6) ::
  (0x102D, 0x1030) :: (0x1032, 0x1037) :: (0x1039, 0x103A) ::
  (0x103D, 0x103E) :: (0x1058, 0x1059) :: (0x105E, 0x1060) ::
  (0x1071, 0x1074) :: (0x1082, 0x1082) :: (0x1085, 0x1086) ::
  (0x108D, 0x108D) :: (0x109D, 0x109D) :: (0x10FC, 0x10FC) ::
  (0x135D, 0x135F) :: (0x1712, 0x1714) :: (0x1732, 0x1733) ::
  (0x1752, 0x1753) :: (0x1772, 0x1773) :: (0x17B4, 0x17B5) ::
  (0x17B7, 0x17BD) :: (0x17C6, 0x17C6) :: (0x17C9, 0x17D3) ::
  (0x17D7, 0x17D7) :: (0x17DD, 0x17DD) :: (0x180B, 0x180F) ::
  (0x1843, 0x1843) :: (0x1885, 0x1886) :: (0x18A9, 0x18A9) ::
  (0x1920, 0x1922) :: (0x1927, 0x1928) :: (0x1932, 0x1932) ::
  (0x1939, 0x193B) :: (0x1A17, 0x1A18) :: (0x1A1B, 0x1A1B) ::
  (0x1A56, 0x1A56) :: (0x1A58, 0x1A5E) :: (0x1A60, 0x1A60) ::
  (0x1A62, 0x1A62) :: (0x1A65, 0x1A6C) :: (0x1A73, 0x1A7C) ::
  (0x1A7F, 0x1A7F) :: (0x1AA7, 0x1AA7) :: (0x1AB0, 0x1ACE) ::
  (0x1B00, 0x1B03) :: (0x1B34, 0x1B34) :: (0x1B36, 0x1B3A) ::
  (0x1B3C, 0x1B3C) :: (0x1B42, 0x1B42) :: (0x1B6B, 0x1B73) ::
  (0x1B80, 0x1B81) :: (0x1BA2, 0x1BA5) :: (0x1BA8, 0x1BA9) ::
  (0x1BAB, 0x1BAD) :: (0x1BE6, 0x1BE6) :: (0x1BE8, 0x1BE9) ::
  (0x1BED, 0x1BED) :: (0x1BEF, 0x1BF1) :: (0x1C2C, 0x1C33) ::
  (0x1C36, 0x1C37) :: (0x1C78, 0x1C7D) :: (0x1CD0, 0x1CD2) ::
  (0x1CD4, 0x1CE0) :: (0x1CE2, 0x1CE8) :: (0x1CED, 0x1CED) ::
  (0x1CF4, 0x1CF4) :: (0x1CF8, 0x1CF9) :: (0x1D2C, 0x1D6A) ::
  (0x1D78, 0x1D78) :: (0x1D9B, 0x1DFF) :: (0x1FBD, 0x1FBD) ::
  (0x1FBF, 0x1FC1) :: (0x1FCD, 0x1FCF) :: (0x1FDD, 0x1FDF) ::
  (0x1FED, 0x1FEF) :: (0x1FFD, 0x1FFE) :: (0x200B, 0x200F) ::
  (0x2018, 0x2019) :: (0x2024, 0x2024) :: (0x2027, 0x2027) ::
  (0x202A, 0x202E) :: (0x2060, 0x2064) :: (0x2066, 0x206F) ::
  (0x2071, 0x2071) :: (0x207F, 0x207F) :: (0x2090, 0x209C) ::
  (0x20D0, 0x20F0) :: (0x2C7C, 0x2C7D) :: (0x2CEF, 0x2CF1) ::
  (0x2D6F, 0x2D6F) :: (0x2D7F, 0x2D7F) :: (0x2DE0, 0x2DFF) ::
  (0x2E2F, 0x2E2F) :: (0x3005, 0x3005) :: (0x302A, 0x302D) ::
  (0x3031, 0x3035) :: (0x303B, 0x303B) :: (0x3099, 0x309E) ::
  (0x30FC, 0x30FE) :: (0xA015, 0xA015) :: (0xA4F8, 0xA4FD) ::
  (0xA60C, 0xA60C) :: (0xA66F, 0xA672) :: (0xA674, 0xA67D) ::
  (0xA67F, 0xA67F) :: (0xA69C, 0xA69F) :: (0xA6F0, 0xA6F1) ::
  (0xA700, 0xA721) :: (0xA770, 0xA770) :: (0xA788, 0xA78A) ::
  (0xA7F2, 0xA7F4) :: (0xA7F8, 0xA7F9) :: (0xA802, 0xA802) ::
  (0xA806, 0xA806) :: (0xA80B, 0xA80B) :: (0xA825, 0xA826) ::
  (0xA82C, 0xA82C) :: (0xA8C4, 0xA8C5) :: (0xA8E0, 0xA8F1) ::
  (0xA8FF, 0xA8FF) :: (0xA926, 0xA92D) :: (0xA947, 0xA951) ::
  (0xA980, 0xA982) :: (0xA9B3, 0xA9B3) :: (0xA9B6, 0xA9B9) ::
  (0xA9BC, 0xA9BD) :: (0xA9CF, 0xA9CF) :: (0xA9E5, 0xA9E6) ::
  (0xAA29, 0xAA2E) :: (0xAA31, 0xAA32) :: (0xAA35, 0xAA36) ::
  (0xAA43, 0xAA43) :: (0xAA4C, 0xAA4C) :: (0xAA70, 0xAA70) ::
  (0xAA7C, 0xAA7C) :: (0xAAB0, 0xAAB0) :: (0xAAB2, 0xAAB4) ::
  (0xAAB7, 0xAAB8) :: (0xAABE, 0xAABF) :: (0xAAC1, 0xAAC1) ::
  (0xAADD, 0xAADD) :: (0xAAEC, 0xAAED) :: (0xAAF3, 0xAAF4) ::
  (0xAAF6, 0xAAF6) :: (0xAB5B, 0xAB5F) :: (0xAB69, 0xAB6B) ::
  (0xABE5, 0xABE5) :: (0xABE8, 0xABE8) :: (0xABED, 0xABED) ::
  (0xFB1E, 0xFB1E) :: (0xFBB2, 0xFBC2) :: (0xFE00, 0xFE0F) ::
  (0xFE13, 0xFE13) :: (0xFE20, 0xFE2F) :: (0xFE52, 0xFE52) ::
  (0xFE55, 0xFE55) :: (0xFEFF, 0xFEFF) :: (0xFF07, 0xFF07) ::
  (0xFF0E, 0xFF0E) :: (0xFF1A, 0xFF1A) :: (0xFF3E, 0xFF3E) ::
  (0xFF40, 0xFF40) :: (0xFF70, 0xFF70) :: (0xFF9E, 0xFF9F) ::
  (0xFFE3, 0xFFE3) :: (0xFFF9, 0xFFFB) :: (0x101FD, 0x101FD) ::
  (0x102E0, 0x102E0) :: (0x10376, 0x1037A) :: (0x10780, 0x10785) ::
  (0x10787, 0x107B0) :: (0x107B2, 0x107BA) :: (0x10A01, 0x10A03) ::
  (0x10A05, 0x10A06) :: (0x10A0C, 0x10A0F) :: (0x10A38, 0x10A3A) ::
  (0x10A3F, 0x10A3F) :: (0x10AE5, 0x10AE6) :: (0x10D24, 0x10D27) ::
  (0x10EAB, 0x10EAC) :: (0x10F46, 0x10F50) :: (0x10F82, 0x10F85) ::
  (0x11001, 0x11001) :: (0x11038, 0x11046) :: (0x11070, 0x11070) ::
  (0x11073, 0x11074) :: (0x1107F, 0x11081) :: (0x110B3, 0x110B6) ::
  (0x110B9, 0x110BA) :: (0x110BD, 0x110BD) :: (0x110C2, 0x110C2) ::
  (0x110CD, 0x110CD) :: (0x11100, 0x11102) :: (0x11127, 0x1112B) ::
  (0x1112D, 0x11134) :: (0x11173, 0x11173) :: (0x11180, 0x11181) ::
  (0x111B6, 0x111BE) :: (0x111C9, 0x111CC) :: (0x111CF, 0x111CF) ::
  (0x1122F, 0x11231) :: (0x11234, 0x11234) :: (0x11236, 0x11237) ::
  (0x1123E, 0x1123E) :: (0x112DF, 0x112DF) :: (0x112E3, 0x112EA) ::
  (0x11300, 0x11301) :: (0x1133B, 0x1133C) :: (0x11340, 0x11340) ::
  (0x11366, 0x1136C) :: (0x11370, 0x11374) :: (0x11438, 0x1143F) ::
  (0x11442, 0x11444) :: (0x11446, 0x11446) :: (0x1145E, 0x1145E) ::
  (0x114B3, 0x114B8) :: (0x114BA, 0x114BA) :: (0x114BF, 0x114C0) ::
  (0x114C2, 0x114C3) :: (0x115B2, 0x115B5) :: (0x115BC, 0x115BD) ::
  (0x115BF, 0x115C0) :: (0x115DC, 0x115DD) :: (0x11633, 0x1163A) ::
  (0x1163D, 0x1163D) :: (0x1163F, 0x11640) :: (0x116AB, 0x116AB) ::
  (0x116AD, 0x116AD) :: (0x116B0, 0x116B5) :: (0x116B7, 0x116B7) ::
  (0x1171D, 0x1171F) :: (0x11722, 0x11725) :: (0x11727, 0x1172B) ::
  (0x1182F, 0x11837) :: (0x11839, 0x1183A) :: (0x1193B, 0x1193C) ::
  (0x1193E, 0x1193E) :: (0x11943, 0x11943) :: (0x119D4, 0x119D7) ::
  (0x119DA, 0x119DB) :: (0x119E0, 0x119E0) :: (0x11A01, 0x11A0A) ::
  (0x11A33, 0x11A38) :: (0x11A3B, 0x11A3E) :: (0x11A47, 0x11A47) ::
  (0x11A51, 0x11A56) :: (0x11A59, 0x11A5B) :: (0x11A8A, 0x11A96) ::
  (0x11A98, 0x11A99) :: (0x11C30, 0x11C36) :: (0x11C38, 0x11C3D) ::
  (0x11C3F, 0x11C3F) :: (0x11C92, 0x11CA7) :: (0x11CAA, 0x11CB0) ::
  (0x11CB2, 0x11CB3) :: (0x11CB5, 0x11CB6) :: (0x11D31, 0x11D36) ::
  (0x11D3A, 0x11D3A) :: (0x11D3C, 0x11D3D) :: (0x11D3F, 0x11D45) ::
  (0x11D47, 0x11D47) :: (0x11D90, 0x11D91) :: (0x11D95, 0x11D95) ::
  (0x11D97, 0x11D97) :: (0x11EF3, 0x11EF4) :: (0x13430, 0x13438) ::
  (0x16AF0, 0x16AF4) :: (0x16B30, 0x16B36) :: (0x16B40, 0x16B43) ::
  (0x16F4F, 0x16F4F) :: (0x16F8F, 0x16F9F) :: (0x16FE0, 0x16FE1) ::
  (0x16FE3, 0x16FE4) :: (0x1AFF0, 0x1AFF3) :: (0x1AFF5, 0x1AFFB) ::
  (0x1AFFD, 0x1AFFE) :: (0x1BC9D, 0x1BC9E) :: (0x1BCA0, 0x1BCA3) ::
  (0x1CF00, 0x1CF2D) :: (0x1CF30, 0x1CF46) :: (0x1D167, 0x1D169) ::
  (0x1D173, 0x1D182) :: (0x1D185, 0x1D18B) :: (0x1D1AA, 0x1D1AD) ::
  (0x1D242, 0x1D244) :: (0x1DA00, 0x1DA36) :: (0x1DA3B, 0x1DA6C) ::
  (0x1DA75, 0x1DA75) :: (0x1DA84, 0x1DA84) :: (0x1DA9B, 0x1DA9F) ::
  (0x1DAA1, 0x1DAAF) :: (0x1E000, 0x1E006) :: (0x1E008, 0x1E018) ::
  (0x1E01B, 0x1E021) :: (0x1E023, 0x1E024) :: (0x1E026, 0x1E02A) ::
  (0x1E130, 0x1E13D) :: (0x1E2AE, 0x1E2AE) :: (0x1E2EC, 0x1E2EF) ::
  (0x1E8D0, 0x1E8D6) :: (0x1E944, 0x1E94B) :: (0x1F3FB, 0x1F3FF) ::
  (0xE0001, 0xE0001) :: (0xE0020, 0xE007F) :: (0xE0100, 0xE01EF) :: nil.

(** The cased letters that are not case-ignorable as well, in ranges
    [(first, last)]. *)
Definition cased_ranges : list (Z * Z) :=
  (0x41, 0x5A) :: (0x61, 0x7A) :: (0xAA, 0xAA) :: (0xB5, 0xB5) ::
  (0xBA, 0xBA) :: (0xC0, 0xD6) :: (0xD8, 0xF6) :: (0xF8, 0x1BA) ::
  (0x1BC, 0x1BF) :: (0x1C4, 0x293) :: (0x295, 0x2AF) :: (0x370, 0x373) ::
  (0x376, 0x377) :: (0x37B, 0x37D) :: (0x37F, 0x37F) :: (0x386, 0x386) ::
  (0x388, 0x38A) :: (0x38C, 0x38C) :: (0x38E, 0x3A1) :: (0x3A3, 0x3F5) ::
  (0x3F7, 0x481) :: (0x48A, 0x52F) :: (0x531, 0x556) :: (0x560, 0x588) ::
  (0x10A0, 0x10C5) :: (0x10C7, 0x10C7) :: (0x10CD, 0x10CD) ::
  (0x10D0, 0x10FA) :: (0x10FD, 0x10FF) :: (0x13A0, 0x13F5) ::
  (0x13F8, 0x13FD) :: (0x1C80, 0x1C88) :: (0x1C90, 0x1CBA) ::
  (0x1CBD, 0x1CBF) :: (0x1D00, 0x1D2B) :: (0x1D6B, 0x1D77) ::
  (0x1D79, 0x1D9A) :: (0x1E00, 0x1F15) :: (0x1F18, 0x1F1D) ::
  (0x1F20, 0x1F45) :: (0x1F48, 0x1F4D) :: (0x1F50, 0x1F57) ::
  (0x1F59, 0x1F59) :: (0x1F5B, 0x1F5B) :: (0x1F5D, 0x1F5D) ::
  (0x1F5F, 0x1F7D) :: (0x1F80, 0x1FB4) :: (0x1FB6, 0x1FBC) ::
  (0x1FBE, 0x1FBE) :: (0x1FC2, 0x1FC4) :: (0x1FC6, 0x1FCC) ::
  (0x1FD0, 0x1FD3) :: (0x1FD6, 0x1FDB) :: (0x1FE0, 0x1FEC) ::
  (0x1FF2, 0x1FF4) :: (0x1FF6, 0x1FFC) :: (0x2102, 0x2102) ::
  (0x2107, 0x2107) :: (0x210A, 0x2113) :: (0x2115, 0x2115) ::
  (0x2119, 0x211D) :: (0x2124, 0x2124) :: (0x2126, 0x2126) ::
  (0x2128, 0x2128) :: (0x212A, 0x212D) :: (0x212F, 0x2134) ::
  (0x2139, 0x2139) :: (0x213C, 0x213F) :: (0x2145, 0x2149) ::
  (0x214E, 0x214E) :: (0x2160, 0x217F) :: (0x2183, 0x2184) ::
  (0x24B6, 0x24E9) :: (0x2C00, 0x2C7B) :: (0x2C7E, 0x2CE4) ::
  (0x2CEB, 0x2CEE) :: (0x2CF2, 0x2CF3) :: (0x2D00, 0x2D25) ::
  (0x2D27, 0x2D27) :: (0x2D2D, 0x2D2D) :: (0xA640, 0xA66D) ::
  (0xA680, 0xA69B) :: (0xA722, 0xA76F) :: (0xA771, 0xA787) ::
  (0xA78B, 0xA78E) :: (0xA790, 0xA7CA) :: (0xA7D0, 0xA7D1) ::
  (0xA7D3, 0xA7D3) :: (0xA7D5, 0xA7D9) :: (0xA7F5, 0xA7F6) ::
  (0xA7FA, 0xA7FA) :: (0xAB30, 0xAB5A) :: (0xAB60, 0xAB68) ::
  (0xAB70, 0xABBF) :: (0xFB00, 0xFB06) :: (0xFB13, 0xFB17) ::
  (0xFF21, 0xFF3A) :: (0xFF41, 0xFF5A) :: (0x10400, 0x1044F) ::
  (0x104B0, 0x104D3) :: (0x104D8, 0x104FB) :: (0x10570, 0x1057A) ::
  (0x1057C, 0x1058A) :: (0x1058C, 0x10592) :: (0x10594, 0x10595) ::
  (0x10597, 0x105A1) :: (0x105A3, 0x105B1) :: (0x105B3, 0x105B9) ::
  (0x105BB, 0x105BC) :: (0x10C80, 0x10CB2) :: (0x10CC0, 0x10CF2) ::
  (0x118A0, 0x118DF) :: (0x16E40, 0x16E7F) :: (0x1D400, 0x1D454) ::
  (0x1D456, 0x1D49C) :: (0x1D49E, 0x1D49F) :: (0x1D4A2, 0x1D4A2) ::
  (0x1D4A5, 0x1D4A6) :: (0x1D4A9, 0x1D4AC) :: (0x1D4AE, 0x1D4B9) ::
  (0x1D4BB, 0x1D4BB) :: (0x1D4BD, 0x1D4C3) :: (0x1D4C5, 0x1D505) ::
  (0x1D507, 0x1D50A) :: (0x1D50D, 0x1D514) :: (0x1D516, 0x1D51C) ::
  (0x1D51E, 0x1D539) :: (0x1D53B, 0x1D53E) :: (0x1D540, 0x1D544) ::
  (0x1D546, 0x1D546) :: (0x1D54A, 0x1D550) :: (0x1D552, 0x1D6A5) ::
  (0x1D6A8, 0x1D6C0) :: (0x1D6C2, 0x1D6DA) :: (0x1D6DC, 0x1D6FA) ::
  (0x1D6FC, 0x1D714) :: (0x1D716, 0x1D734) :: (0x1D736, 0x1D74E) ::
  (0x1D750, 0x1D76E) :: (0x1D770, 0x1D788) :: (0x1D78A, 0x1D7A8) ::
  (0x1D7AA, 0x1D7C2) :: (0x1D7C4, 0x1D7CB) :: (0x1DF00, 0x1DF09) ::
  (0x1DF0B, 0x1DF1E) :: (0x1E900, 0x1E943) :: (0x1F130, 0x1F149) ::
  (0x1F150, 0x1F169) :: (0x1F170, 0x1F189) :: nil.

Definition in_run (c : Z) (run : Z * Z * Z * Z) : bool :=
  let '(first, count, step, _) := run in
  (first <=? c) && (c <? first + count * step) && ((c - first) mod step =? 0).

Fixpoint run_delta (c : Z) (runs : list (Z * Z * Z * Z)) : Z :=
  match runs with
  | [] => 0
  | run :: rest => if in_run c run then snd run else run_delta c rest
  end.

Fixpoint in_ranges (c : Z) (ranges : list (Z * Z)) : bool :=
  match ranges with
  | [] => false
  | (first, last) :: rest => ((first <=? c) && (c <=? last)) || in_ranges c rest
  end.

(** The simple lower-case mapping of a character. *)
Definition lower (c : Z) : Z :=
  if c <? 0x80 then (if (0x41 <=? c) && (c <=? 0x5A) then c + 0x20 else c)
  else c + run_delta c lower_runs.

(** The full lower-case mapping: the one character with a longer form is
    U+0130, capital I with a dot above. *)
Definition full_lower (c : Z) : list Z :=
  if c =? 0x130 then [0x69; 0x307] else [lower c].

Definition case_ignorable (c : Z) : bool := in_ranges c ignorable_ranges.

Definition cased (c : Z) : bool := in_ranges c cased_ranges.

(** Do the characters [l] begin, after any case-ignorable ones, with a
    cased letter? *)
Fixpoint before_cased (l : list Z) : bool :=
  match l with
  | [] => false
  | c :: rest => if case_ignorable c then before_cased rest else cased c
  end.

(** The lower-case form of the characters [l], where [after_cased] says
    whether what precedes them ends with a cased letter and any
    case-ignorable characters.  A capital sigma (U+03A3) in that position
    which is not itself before a cased letter is a final sigma (U+03C2);
    any other is a small sigma (U+03C3). *)
Fixpoint lower_from (after_cased : bool) (l : list Z) : list Z :=
  match l with
  | [] => []
  | c :: rest =>
      ((if c =? 0x3A3
        then [if after_cased && negb (before_cased rest) then 0x3C2 else 0x3C3]
        else full_lower c)
       ++ lower_from (if case_ignorable c then after_cased else cased c) rest)%list
  end.

(** The lower-case form of a text (the default case conversion). *)
Definition toLowercase (l : list Z) : list Z := lower_from false l.

(** The white space and the line terminators of ECMAScript: TAB, LF, VT,
    FF, CR, the space separators of Unicode (SP, NBSP, U+1680, U+2000 to
    U+200A, U+202F, U+205F, U+3000), LS, PS and the byte order mark. *)
Definition white_space (c : Z) : bool :=
  ((0x9 <=? c) && (c <=? 0xD)) || (c =? 0x20) || (c =? 0xA0) || (c =? 0x1680)
  || ((0x2000 <=? c) && (c <=? 0x200A)) || (c =? 0x2028) || (c =? 0x2029)
  || (c =? 0x202F) || (c =? 0x205F) || (c =? 0x3000) || (c =? 0xFEFF).

End Unicode.

(** ** JavaScript strings

    A string is carried as the UTF-8 encoding of its text, which is also
    what the digest is computed over. *)

Module JsString.

Definition code (c : ascii) : Z := Z.of_N (N_of_ascii c).

Definition of_code (z : Z) : ascii := ascii_of_N (Z.to_N z).

(** [Boolean(s)]: every string but the empty one is truthy. *)
Definition truthy (s : string) : bool :=
  match s with
  | EmptyString => false
  | String _ _ => true
  end.

(** [a || b] on strings. *)
Definition or_else (a b : string) : string := if truthy a then a else b.

(** [a || b] where [a] may be [undefined]. *)
Definition opt_or (a : option string) (b : string) : string :=
  match a with
  | Some s => or_else s b
  | None => b
  end.

(** [a || undefined] where [a] may be [undefined]: an empty string is
    turned into [undefined]. *)
Definition opt_truthy (a : option string) : option string :=
  match a with
  | Some s => if truthy s then Some s else None
  | None => None
  end.

(** A continuation byte of UTF-8. *)
Definition continuation (b : Z) : bool := (0x80 <=? b) && (b <? 0xC0).

(** The character that two, three and four bytes encode, when they are a
    well-formed sequence: the first byte announces the length, the others
    are continuation bytes, and the character is neither one that a
    shorter sequence encodes nor a surrogate nor beyond U+10FFFF. *)
Definition two_bytes (b0 b1 : Z) : option Z :=
  let c := (b0 - 0xC0) * 64 + (b1 - 0x80) in
  if (0xC0 <=? b0) && (b0 <? 0xE0) && continuation b1 && (0x80 <=? c)
  then Some c else None.

Definition three_bytes (b0 b1 b2 : Z) : option Z :=
  let c := ((b0 - 0xE0) * 64 + (b1 - 0x80)) * 64 + (b2 - 0x80) in
  if (0xE0 <=? b0) && (b0 <? 0xF0) && continuation b1 && continuation b2
     && (0x800 <=? c) && negb ((0xD800 <=? c) && (c <? 0xE000))
  then Some c else None.

Definition four_bytes (b0 b1 b2 b3 : Z) : option Z :=
  let c := (((b0 - 0xF0) * 64 + (b1 - 0x80)) * 64 + (b2 - 0x80)) * 64 + (b3 - 0x80) in
  if (0xF0 <=? b0) && (b0 <? 0xF8) && continuation b1 && continuation b2
     && continuation b3 && (0x10000 <=? c) && (c <? 0x110000)
  then Some c else None.

(** A byte that is part of no well-formed sequence, kept among the
    characters as a negative number (no JavaScript string has one). *)
Definition stray (b : Z) : Z := - 1 - b.

(** The characters of a string. *)
Fixpoint decode (s : string) : list Z :=
  match s with
  | EmptyString => []
  | String a0 r0 =>
      let b0 := code a0 in
      if b0 <? 0x80 then b0 :: decode r0
      else
        match r0 with
        | String a1 r1 =>
            match two_bytes b0 (code a1) with
            | Some c => c :: decode r1
            | None =>
                match r1 with
                | String a2 r2 =>
                    match three_bytes b0 (code a1) (code a2) with
                    | Some c => c :: decode r2
                    | None =>
                        match r2 with
                        | String a3 r3 =>
                            match four_bytes b0 (code a1) (code a2) (code a3) with
                            | Some c => c :: decode r3
                            | None => stray b0 :: decode r0
                            end
                        | EmptyString => stray b0 :: decode r0
                        end
                    end
                | EmptyString => stray b0 :: decode r0
                end
            end
        | EmptyString => stray b0 :: decode r0
        end
  end.

(** The bytes of a character. *)
Definition encode_point (c : Z) (rest : string) : string :=
  if c <? 0 then String (of_code (- 1 - c)) rest
  else if c <? 0x80 then String (of_code c) rest
  else if c <? 0x800 then
    String (of_code (0xC0 + c / 64)) (String (of_code (0x80 + c mod 64)) rest)
  else if c <? 0x10000 then
    String (of_code (0xE0 + c / 4096))
      (String (of_code (0x80 + (c / 64) mod 64))
         (String (of_code (0x80 + c mod 64)) rest))
  else
    String (of_code (0xF0 + c / 262144))
      (String (of_code (0x80 + (c / 4096) mod 64))
         (String (of_code (0x80 + (c / 64) mod 64))
            (String (of_code (0x80 + c mod 64)) rest))).

(** The string of a text. *)
Fixpoint encode (l : list Z) : string :=
  match l with
  | [] => EmptyString
  | c :: rest => encode_point c (encode rest)
  end.

(** [String.prototype.toLowerCase]. *)
Definition toLowerCase (s : string) : string :=
  encode (Unicode.toLowercase (decode s)).

(** The characters left when the white space at the start, and at the
    end, is taken off. *)
Fixpoint dropStart (l : list Z) : list Z :=
  match l with
  | [] => []
  | c :: rest => if Unicode.white_space c then dropStart rest else l
  end.

Fixpoint dropEnd (l : list Z) : list Z :=
  match l with
  | [] => []
  | c :: rest =>
      match dropEnd rest with
      | [] => if Unicode.white_space c then [] else [c]
      | rest' => c :: rest'
      end
  end.

(** [String.prototype.trimStart]. *)
Definition trimStart (s : string) : string := encode (dropStart (decode s)).

(** [String.prototype.trim]. *)
Definition trim (s : string) : string := encode (dropEnd (dropStart (decode s))).

(** [String.prototype.substring(n)]. *)
Fixpoint substring_from (n : nat) (s : string) : string :=
  match n, s with
  | O, _ => s
  | S _, EmptyString => EmptyString
  | S k, String _ r => substring_from k r
  end.

(** Decimal rendering of an integer, as [Number.prototype.toString] and
    template literals print an integral number (below 1e21). *)
Definition of_Z (z : Z) : string := NilZero.string_of_int (Z.to_int z).

End JsString.

(** ** SHA-256 (FIPS 180-4), as [crypto.createHash('sha256')] computes it *)

Module SHA256.

Definition mask32 : Z := 0xffffffff.

Definition wrap (x : Z) : Z := Z.land x mask32.

Definition plus32 (x y : Z) : Z := wrap (x + y).

Definition rotr (n x : Z) : Z :=
  Z.lor (Z.shiftr x n) (wrap (Z.shiftl x (32 - n))).

Definition xor3 (a b c : Z) : Z := Z.lxor (Z.lxor a b) c.

Definition choose (x y z : Z) : Z :=
  Z.lxor (Z.land x y) (Z.land (Z.lxor x mask32) z).

Definition majority (x y z : Z) : Z :=
  xor3 (Z.land x y) (Z.land x z) (Z.land y z).

Definition big_sigma0 (x : Z) : Z := xor3 (rotr 2 x) (rotr 13 x) (rotr 22 x).
Definition big_sigma1 (x : Z) : Z := xor3 (rotr 6 x) (rotr 11 x) (rotr 25 x).
Definition small_sigma0 (x : Z) : Z := xor3 (rotr 7 x) (rotr 18 x) (Z.shiftr x 3).
Definition small_sigma1 (x : Z) : Z := xor3 (rotr 17 x) (rotr 19 x) (Z.shiftr x 10).

(** The sixty-four round constants of section 4.2.2, in decimal. *)
Definition round_constants : list Z :=
  1116352408 :: 1899447441 :: 3049323471 :: 3921009573 ::
  961987163 :: 1508970993 :: 2453635748 :: 2870763221 ::
  3624381080 :: 310598401 :: 607225278 :: 1426881987 ::
  1925078388 :: 2162078206 :: 2614888103 :: 3248222580 ::
  3835390401 :: 4022224774 :: 264347078 :: 604807628 ::
  770255983 :: 1249150122 :: 1555081692 :: 1996064986 ::
  2554220882 :: 2821834349 :: 2952996808 :: 3210313671 ::
  3336571891 :: 3584528711 :: 113926993 :: 338241895 ::
  666307205 :: 773529912 :: 1294757372 :: 1396182291 ::
  1695183700 :: 1986661051 :: 2177026350 :: 2456956037 ::
  2730485921 :: 2820302411 :: 3259730800 :: 3345764771 ::
  3516065817 :: 3600352804 :: 4094571909 :: 275423344 ::
  430227734 :: 506948616 :: 659060556 :: 883997877 ::
  958139571 :: 1322822218 :: 1537002063 :: 1747873779 ::
  1955562222 :: 2024104815 :: 2227730452 :: 2361852424 ::
  2428436474 :: 2756734187 :: 3204031479 :: 3329325298 :: nil.

(** The eight working variables, also the chaining value. *)
Record regs : Type := Regs {
  ra : Z; rb : Z; rc : Z; rd : Z; re : Z; rf : Z; rg : Z; rh : Z
}.

Definition initial : regs :=
  Regs 0x6a09e667 0xbb67ae85 0x3c6ef372 0xa54ff53a
       0x510e527f 0x9b05688c 0x1f83d9ab 0x5be0cd19.

(** One round: [k] is the round constant, [w] the schedule word. *)
Definition round (r : regs) (k w : Z) : regs :=
  let t1 := plus32 (plus32 (plus32 (plus32 (rh r) (big_sigma1 (re r)))
                                   (choose (re r) (rf r) (rg r))) k) w in
  let t2 := plus32 (big_sigma0 (ra r)) (majority (ra r) (rb r) (rc r)) in
  Regs (plus32 t1 t2) (ra r) (rb r) (rc r) (plus32 (rd r) t1) (re r) (rf r) (rg r).

(** The schedule is kept as a window of the sixteen most recent words;
    the head is the word of the current round. *)
Definition next_word (win : list Z) : Z :=
  plus32 (plus32 (plus32 (small_sigma1 (nth 14 win 0)) (nth 9 win 0))
                 (small_sigma0 (nth 1 win 0)))
         (nth 0 win 0).

Fixpoint rounds (ks : list Z) (win : list Z) (r : regs) : regs :=
  match ks with
  | [] => r
  | k :: ks' =>
      rounds ks' (tl win ++ [next_word win])%list (round r k (hd 0 win))
  end.

Definition compress (h : regs) (block : list Z) : regs :=
  let r := rounds round_constants block h in
  Regs (plus32 (ra h) (ra r)) (plus32 (rb h) (rb r))
       (plus32 (rc h) (rc r)) (plus32 (rd h) (rd r))
       (plus32 (re h) (re r)) (plus32 (rf h) (rf r))
       (plus32 (rg h) (rg r)) (plus32 (rh h) (rh r)).

(** Big-endian bytes of [x], [n] of them. *)
Fixpoint be_bytes (n : nat) (x : Z) : list Z :=
  match n with
  | O => []
  | S k => Z.land (Z.shiftr x (8 * Z.of_nat k)) 0xff :: be_bytes k x
  end.

(** Padding of section 5.1.1: a 1 bit, zeros up to 56 mod 64 bytes, and
    the bit length on eight bytes. *)
Definition pad (msg : list Z) : list Z :=
  let len := Z.of_nat (List.length msg) in
  let zeros := Z.to_nat ((55 - len) mod 64) in
  (msg ++ [0x80] ++ repeat 0 zeros ++ be_bytes 8 (8 * len))%list.

Fixpoint words (fuel : nat) (bytes : list Z) : list Z :=
  match fuel, bytes with
  | S k, b0 :: b1 :: b2 :: b3 :: rest =>
      (Z.shiftl b0 24 + Z.shiftl b1 16 + Z.shiftl b2 8 + b3) :: words k rest
  | _, _ => []
  end.

Fixpoint blocks (fuel : nat) (ws : list Z) (h : regs) : regs :=
  match fuel, ws with
  | S k, _ :: _ => blocks k (skipn 16 ws) (compress h (firstn 16 ws))
  | _, _ => h
  end.

Definition hash_bytes (msg : list Z) : regs :=
  let p := pad msg in
  let ws := words (List.length p) p in
  blocks (List.length ws) ws initial.

Definition hex_digit (n : Z) : ascii :=
  if n <? 10 then JsString.of_code (48 + n) else JsString.of_code (87 + n).

Definition nibble (x sh : Z) : ascii := hex_digit (Z.land (Z.shiftr x sh) 0xf).

Definition hex32 (x : Z) (k : string) : string :=
  String (nibble x 28) (String (nibble x 24) (String (nibble x 20)
  (String (nibble x 16) (String (nibble x 12) (String (nibble x 8)
  (String (nibble x 4) (String (nibble x 0) k))))))).

Definition hex_of_regs (r : regs) : string :=
  hex32 (ra r) (hex32 (rb r) (hex32 (rc r) (hex32 (rd r)
  (hex32 (re r) (hex32 (rf r) (hex32 (rg r) (hex32 (rh r) EmptyString))))))).

Definition bytes_of_string (s : string) : list Z :=
  List.map JsString.code (list_ascii_of_string s).

(** [createHash('sha256').update(s).digest('hex')]. *)
Definition hexdigest (s : string) : string := hex_of_regs (hash_bytes (bytes_of_string s)).

End SHA256.

(** ** JavaScript numbers *)

Inductive number : Type :=
| NaN
| Infinity (negative : bool)
| Fin (q : Q).

Module JsNumber.

Definition of_Z (z : Z) : number := Fin (z # 1).

Definition is_zero (q : Q) : bool := Qnum q =? 0.

Definition is_neg (q : Q) : bool := Qnum q <? 0.

(** [Boolean(x)]: [0] and [NaN] are falsy. *)
Definition truthy (x : number) : bool :=
  match x with
  | NaN => false
  | Infinity _ => true
  | Fin q => negb (is_zero q)
  end.

(** [x || d] where [x] may be [undefined]. *)
Definition opt_or (x : option number) (d : number) : number :=
  match x with
  | Some n => if truthy n then n else d
  | None => d
  end.

(** [x + y] on numbers. *)
Definition add (x y : number) : number :=
  match x, y with
  | NaN, _ | _, NaN => NaN
  | Infinity a, Infinity b => if Bool.eqb a b then Infinity a else NaN
  | Infinity a, Fin _ => Infinity a
  | Fin _, Infinity b => Infinity b
  | Fin p, Fin q => Fin (Qred (p + q))
  end.

(** The power [2^e] of two. *)
Definition pow2 (e : Z) : Q :=
  if e <? 0 then 1 # Pos.pow 2 (Z.to_pos (- e)) else (2 ^ e) # 1.

(** The integer nearest to [x], the even one of two that are equally
    near. *)
Definition nearest_even (x : Q) : Z :=
  let f := Qfloor x in
  match Qcompare (x - (f # 1))%Q (1 # 2) with
  | Lt => f
  | Gt => f + 1
  | Eq => if Z.even f then f else f + 1
  end.

(** The binary64 value nearest to a rational, ties to even: 53 significant
    bits, in units of [2^(e - 52)] where [2^e <= |q| < 2^(e + 1)] and of
    [2^-1074] for the subnormal values; a magnitude that rounds to [2^1024]
    or more is infinite. *)
Definition binary64 (q : Q) : number :=
  if is_zero q then Fin 0
  else
    let a := Qabs q in
    let e0 := Z.log2 (Qnum a) - Z.log2 (Zpos (Qden a)) in
    let e := if Qle_bool (pow2 e0) a then e0 else e0 - 1 in
    let unit := Z.max (e - 52) (-1074) in
    let v := ((nearest_even (a / pow2 unit) # 1) * pow2 unit)%Q in
    if Qle_bool (pow2 1024) v then Infinity (is_neg q)
    else Fin (Qred (if is_neg q then Qopp v else v)).

(** [x * y] on numbers: the product of two binary64 values, rounded to
    binary64. *)
Definition mul (x y : number) : number :=
  match x, y with
  | NaN, _ | _, NaN => NaN
  | Infinity a, Infinity b => Infinity (xorb a b)
  | Infinity a, Fin q | Fin q, Infinity a =>
      if is_zero q then NaN else Infinity (xorb a (is_neg q))
  | Fin p, Fin q => binary64 (p * q)%Q
  end.

(** [x / y] on numbers. *)
Definition div (x y : number) : number :=
  match x, y with
  | NaN, _ | _, NaN => NaN
  | Infinity _, Infinity _ => NaN
  | Infinity a, Fin q => Infinity (xorb a (is_neg q))
  | Fin _, Infinity _ => Fin 0
  | Fin p, Fin q =>
      if is_zero q then (if is_zero p then NaN else Infinity (is_neg p))
      else Fin (Qred (p / q))
  end.

(** [Math.floor]. *)
Definition floor (x : number) : number :=
  match x with
  | Fin q => of_Z (Qfloor q)
  | _ => x
  end.

Definition digit_of (c : ascii) : option Z :=
  let n := JsString.code c in
  if (48 <=? n) && (n <=? 57) then Some (n - 48) else None.

(** Longest prefix of decimal digits: its value (most significant digit
    first, accumulated onto [acc]), its length, and the rest. *)
Fixpoint digits (s : string) (acc : Z) (len : nat) : Z * nat * string :=
  match s with
  | EmptyString => (acc, len, s)
  | String c r =>
      match digit_of c with
      | Some d => digits r (10 * acc + d) (S len)
      | None => (acc, len, s)
      end
  end.

Fixpoint starts_with (p s : string) : bool :=
  match p, s with
  | EmptyString, _ => true
  | String a p', String b s' => Ascii.eqb a b && starts_with p' s'
  | String _ _, EmptyString => false
  end.

(** The optional [ExponentPart]: [e] or [E], an optional sign and at
    least one digit; anything else is not part of the literal. *)
Definition exponent (s : string) : Z :=
  match s with
  | String c r =>
      if Ascii.eqb c "e" || Ascii.eqb c "E" then
        match r with
        | String "-" r' =>
            match digits r' 0 0 with
            | (_, O, _) => 0
            | (v, S _, _) => - v
            end
        | String "+" r' => fst (fst (digits r' 0 0))
        | _ => fst (fst (digits r 0 0))
        end
      else 0
  | EmptyString => 0
  end.

Definition pow10 (e : Z) : Q :=
  if e <? 0 then 1 # Pos.pow 10 (Z.to_pos (- e)) else (10 ^ e) # 1.

Definition signed (neg : bool) (q : Q) : Q := if neg then Qopp q else q.

(** The magnitude of a [StrUnsignedDecimalLiteral] prefix of [s]. *)
Definition unsigned_literal (neg : bool) (s : string) : number :=
  if starts_with "Infinity" s then Infinity neg
  else
    let '(ip, ilen, r1) := digits s 0 0 in
    let '(mant, flen, r2) :=
      match r1 with
      | String "." r => digits r ip 0
      | _ => (ip, O, r1)
      end in
    match ilen, flen with
    | O, O => NaN
    | _, _ =>
        Fin (Qred (signed neg ((mant # 1) * pow10 (exponent r2 - Z.of_nat flen))))
    end.

(** The global [parseFloat]: leading white space is skipped, the longest
    prefix that is a decimal literal is converted, and [NaN] is returned
    when there is none. *)
Definition parseFloat (s : string) : number :=
  match JsString.trimStart s with
  | String "-" r => unsigned_literal true r
  | String "+" r => unsigned_literal false r
  | t => unsigned_literal false t
  end.

End JsNumber.

(** ** Dates

    [new Date(s).getTime()].  The date-time string format of ECMAScript
    ([YYYY-MM-DDTHH:mm:ss.sssZ] and its shorter forms) is read here when
    the string is a date alone (which is UTC) or names its offset ([Z] or
    [+HH:mm]); this is the format of the [created_at] fields of the webhook
    payloads.  What any other string gives is the engine's own affair: the
    legacy formats it accepts are implementation-defined, and a date-time
    without an offset is local time, which depends on the time zone of the
    host.  The engine's answer for such a string is part of the world
    ([w_date] below) and is passed in. *)

Module JsDate.

(** Exactly [n] decimal digits. *)
Fixpoint fixed_digits (n : nat) (s : string) (acc : Z) : option (Z * string) :=
  match n with
  | O => Some (acc, s)
  | S k =>
      match s with
      | String c r =>
          match JsNumber.digit_of c with
          | Some d => fixed_digits k r (10 * acc + d)
          | None => None
          end
      | EmptyString => None
      end
  end.

(** Days from 1970-01-01 to the first day of month [m] of year [y]
    (proleptic Gregorian calendar). *)
Definition days_to_month (y m : Z) : Z :=
  let y' := if m <=? 2 then y - 1 else y in
  let era := y' / 400 in
  let yoe := y' - era * 400 in
  let mp := (m + 9) mod 12 in
  let doy := (153 * mp + 2) / 5 in
  let doe := yoe * 365 + yoe / 4 - yoe / 100 + doy in
  era * 146097 + doe - 719468.

Definition in_range (lo x hi : Z) : bool := (lo <=? x) && (x <=? hi).

(** The date part: year, then optionally month, then optionally day. *)
Definition date_part (s : string) : option (Z * Z * Z * string) :=
  match fixed_digits 4 s 0 with
  | Some (y, String "-" r1) =>
      match fixed_digits 2 r1 0 with
      | Some (m, String "-" r2) =>
          match fixed_digits 2 r2 0 with
          | Some (d, r3) => Some (y, m, d, r3)
          | None => None
          end
      | Some (m, r2) => Some (y, m, 1, r2)
      | None => None
      end
  | Some (y, r1) => Some (y, 1, 1, r1)
  | None => None
  end.

(** Milliseconds of a fraction [.ddd...]: the first three digits count. *)
Definition fraction (s : string) : Z * string :=
  match s with
  | String "." r =>
      match JsNumber.digits r 0 0 with
      | (_, O, _) => (0, s)
      | (v, len, r') =>
          (if (len <=? 3)%nat then v * 10 ^ Z.of_nat (3 - len)
           else v / 10 ^ Z.of_nat (len - 3), r')
      end
  | _ => (0, s)
  end.

(** The offset in minutes east of UTC, [Z] or [+HH:mm] or [-HH:mm]; the
    string must end with it. *)
Definition offset (s : string) : option Z :=
  match s with
  | EmptyString => None
  | String "Z" EmptyString => Some 0
  | String c r =>
      if Ascii.eqb c "+" || Ascii.eqb c "-" then
        match fixed_digits 2 r 0 with
        | Some (h, String ":" r1) =>
            match fixed_digits 2 r1 0 with
            | Some (m, EmptyString) =>
                if in_range 0 h 23 && in_range 0 m 59 then
                  Some (if Ascii.eqb c "-" then - (60 * h + m) else 60 * h + m)
                else None
            | _ => None
            end
        | _ => None
        end
      else None
  end.

(** The time part after [T]: milliseconds into the day, less the offset. *)
Definition time_part (s : string) : option Z :=
  match fixed_digits 2 s 0 with
  | Some (h, String ":" r1) =>
      match fixed_digits 2 r1 0 with
      | Some (mi, r2) =>
          let '(sec, r3) :=
            match r2 with
            | String ":" r =>
                match fixed_digits 2 r 0 with
                | Some (x, r') => (Some x, r')
                | None => (None, r2)
                end
            | _ => (Some 0, r2)
            end in
          match sec with
          | Some se =>
              let '(ms, r4) := fraction r3 in
              match offset r4 with
              | Some off =>
                  let t := ((h * 60 + mi) * 60 + se) * 1000 + ms in
                  if (in_range 0 h 23 && in_range 0 mi 59 && in_range 0 se 59)
                     || (t =? 86400000)
                  then Some (t - off * 60000)
                  else None
              | None => None
              end
          | None => None
          end
      | None => None
      end
  | _ => None
  end.

(** The time value of a string of the interchange format: a date alone,
    or a date and a time with its offset. *)
Definition interchange (s : string) : option Z :=
  match date_part s with
  | Some (y, m, d, rest) =>
      if in_range 1 m 12 && in_range 1 d 31 then
        let day := (days_to_month y m + d - 1) * 86400000 in
        match rest with
        | EmptyString => Some day
        | String "T" r =>
            match time_part r with
            | Some t => Some (day + t)
            | None => None
            end
        | _ => None
        end
      else None
  | None => None
  end.

(** A time value as a number: [NaN] when there is none. *)
Definition time_value (t : option Z) : number :=
  match t with
  | Some ms => JsNumber.of_Z ms
  | None => NaN
  end.

(** [Date.parse]: milliseconds since the epoch, or [NaN].  A string of the
    interchange format has the time value that format gives it; for any
    other string the answer is the [engine]'s. *)
Definition parse (engine : string -> option Z) (s : string) : number :=
  match interchange s with
  | Some ms => JsNumber.of_Z ms
  | None => time_value (engine s)
  end.

End JsDate.

(** ** Identifiers

    The ids of the upstream records are JSON numbers (integers) or strings. *)

Inductive ident : Type :=
| IdNum (n : Z)
| IdStr (s : string).

Module Ident.

(** [x.toString()]. *)
Definition toString (x : ident) : string :=
  match x with
  | IdNum n => JsString.of_Z n
  | IdStr s => s
  end.

(** [Boolean(x)]. *)
Definition truthy (x : ident) : bool :=
  match x with
  | IdNum n => negb (n =? 0)
  | IdStr s => JsString.truthy s
  end.

(** [x?.toString()]. *)
Definition opt_toString (x : option ident) : option string :=
  option_map toString x.

(** The text an id contributes to a template literal; a missing id
    prints as [undefined]. *)
Definition template (x : option ident) : string :=
  match x with
  | Some i => toString i
  | None => "undefined"
  end.

End Ident.

(** [a || b] where both may be [undefined] and the result is kept as is. *)
Definition or_undefined (a b : option string) : option string :=
  match a with
  | Some s => if JsString.truthy s then Some s else b
  | None => b
  end.

(** [xs.filter(Boolean)] on possibly undefined strings. *)
Fixpoint filter_Boolean (xs : list (option string)) : list string :=
  match xs with
  | [] => []
  | Some s :: r => if JsString.truthy s then s :: filter_Boolean r else filter_Boolean r
  | None :: r => filter_Boolean r
  end.

(** ** Upstream payloads (the fields the pipeline reads) *)

Record Address : Type := {
  addr_city : option string;
  addr_province : option string;
  addr_zip : option string;
  addr_country : option string
}.

Record Customer : Type := {
  cust_id : option ident;
  cust_email : option string;
  cust_phone : option string;
  cust_first_name : option string;
  cust_last_name : option string;
  cust_default_address : option Address;
  cust_created_at : option string
}.

Record ClientDetails : Type := {
  cd_user_agent : option string
}.

Record LineItem : Type := {
  li_id : option ident;
  li_product_id : option ident;
  li_variant_id : option ident;
  li_quantity : option number;
  li_price : option string
}.

Record Order : Type := {
  ord_id : option ident;
  ord_name : option string;
  ord_customer : option Customer;
  ord_browser_ip : option string;
  ord_client_details : option ClientDetails;
  ord_line_items : option (list LineItem);
  ord_created_at : option string;
  ord_landing_site_ref : option string;
  ord_total_price : option string;
  ord_currency : option string
}.

Record Checkout : Type := {
  chk_id : option ident;
  chk_customer : option Customer;
  chk_browser_ip : option string;
  chk_client_details : option ClientDetails;
  chk_line_items : option (list LineItem);
  chk_created_at : option string;
  chk_landing_site_ref : option string;
  chk_total_price : option string;
  chk_currency : option string
}.

(** ** Conversion events ([CAPIEvent]) *)

Record UserData : Type := {
  ud_em : option (list string);
  ud_ph : option (list string);
  ud_fn : option (list string);
  ud_ln : option (list string);
  ud_ct : option (list string);
  ud_st : option (list string);
  ud_zp : option (list string);
  ud_country : option (list string);
  ud_external_id : option (list string);
  ud_client_ip_address : option string;
  ud_client_user_agent : option string;
  ud_fbc : option string;
  ud_fbp : option string
}.

Record Content : Type := {
  ct_id : string;
  ct_quantity : number;
  ct_item_price : option number
}.

Record CustomData : Type := {
  cd_value : option number;
  cd_currency : option string;
  cd_content_type : option string;
  cd_content_ids : option (list string);
  cd_content_name : option string;
  cd_content_category : option string;
  cd_num_items : option number;
  cd_order_id : option string;
  cd_contents : option (list Content)
}.

Record CAPIEvent : Type := {
  event_name : string;
  event_time : number;
  action_source : string;
  event_source_url : option string;
  user_data : UserData;
  custom_data : option CustomData;
  event_id : option string
}.

Record CAPIResponse : Type := {
  events_received : number;
  messages : list string;
  fbtrace_id : string
}.

(** The optional [clientData] argument of the [track...] methods. *)
Record ClientData : Type := {
  cl_ip : option string;
  cl_userAgent : option string;
  cl_fbc : option string;
  cl_fbp : option string;
  cl_sourceUrl : option string
}.

(** ** The outside world *)

(** The body, the target and the options of the one kind of HTTP request
    the pipeline issues. *)
Record Payload : Type := {
  pl_data : list CAPIEvent;
  pl_access_token : string;
  pl_test_event_code : option string
}.

Record Request : Type := {
  rq_url : string;
  rq_payload : Payload;
  rq_headers : list (string * string);
  rq_timeout : Z
}.

(** What axios rejects with: [error.message] and, when the server
    answered, [error.response] with its status and its [data], of which
    only [data.error.message] is read. *)
Record GraphError : Type := { ge_message : option string }.
Record ErrorBody : Type := { eb_error : option GraphError }.
Record AxiosResponse : Type := { ar_status : Z; ar_data : option ErrorBody }.
Record AxiosError : Type := { ax_message : string; ax_response : option AxiosResponse }.

(** Thrown values. *)
Inductive error : Type :=
| JsError (message : string)
| AxiosFailure (e : AxiosError)
| DbFailure (message : string).

(** The row of the [Meta] table the adapters read. *)
Record Meta : Type := {
  meta_pixelId : string;
  meta_accessToken : string
}.

(** The world: the clock and how many times it was read, the random
    source, the ingestion endpoint and the requests it has received so far
    (oldest first), the [Meta] table keyed by session id, whose lookup
    may itself fail, and what the date parser of the engine makes of a
    string that is not of the interchange format (its time value, or
    nothing where the engine gives [NaN]). *)
Record World : Type := {
  w_clock : nat -> Z;
  w_ticks : nat;
  w_random : nat -> string;
  w_draws : nat;
  w_endpoint : Request -> CAPIResponse + AxiosError;
  w_sent : list Request;
  w_meta : string -> option Meta + string;
  w_date : string -> option Z
}.

Inductive outcome (A : Type) : Type :=
| Ok (a : A)
| Throw (e : error).
Arguments Ok {A} a.
Arguments Throw {A} e.

(** Computations that read and change the world and may throw. *)
Definition M (A : Type) : Type := World -> outcome A * World.

Definition ret {A} (a : A) : M A := fun w => (Ok a, w).

Definition bind {A B} (c : M A) (k : A -> M B) : M B :=
  fun w =>
    match c w with
    | (Ok a, w') => k a w'
    | (Throw e, w') => (Throw e, w')
    end.

Definition throw {A} (e : error) : M A := fun w => (Throw e, w).

(** [try { c } catch (e) { h e }]. *)
Definition try_catch {A} (c : M A) (h : error -> M A) : M A :=
  fun w =>
    match c w with
    | (Ok a, w') => (Ok a, w')
    | (Throw e, w') => h e w'
    end.

Declare Scope js_scope.
Delimit Scope js_scope with js.
Notation "x <- c ;; k" := (bind c (fun x => k))
  (at level 61, c at next level, right associativity) : js_scope.
Local Open Scope js_scope.

(** The world after one more reading of the clock, after one more random
    draw, and after one more request has reached the endpoint. *)
Definition tick (w : World) : World :=
  {| w_clock := w_clock w; w_ticks := S (w_ticks w);
     w_random := w_random w; w_draws := w_draws w;
     w_endpoint := w_endpoint w; w_sent := w_sent w; w_meta := w_meta w;
     w_date := w_date w |}.

Definition draw (w : World) : World :=
  {| w_clock := w_clock w; w_ticks := w_ticks w;
     w_random := w_random w; w_draws := S (w_draws w);
     w_endpoint := w_endpoint w; w_sent := w_sent w; w_meta := w_meta w;
     w_date := w_date w |}.

Definition log_request (rq : Request) (w : World) : World :=
  {| w_clock := w_clock w; w_ticks := w_ticks w;
     w_random := w_random w; w_draws := w_draws w;
     w_endpoint := w_endpoint w; w_sent := (w_sent w ++ [rq])%list;
     w_meta := w_meta w; w_date := w_date w |}.

(** [Date.now()]: milliseconds since the epoch. *)
Definition Date_now : M Z :=
  fun w => (Ok (w_clock w (w_ticks w)), tick w).

(** [new Date(s).getTime()]. *)
Definition Date_getTime (s : string) : M number :=
  fun w => (Ok (JsDate.parse (w_date w) s), w).

(** [Math.random().toString(36)]. *)
Definition Math_random_base36 : M string :=
  fun w => (Ok (w_random w (w_draws w)), draw w).

(** [axios.post(url, payload, config)]: the request reaches the endpoint,
    whose answer either resolves the promise or rejects it. *)
Definition axios_post (rq : Request) : M CAPIResponse :=
  fun w =>
    match w_endpoint w rq with
    | inl resp => (Ok resp, log_request rq w)
    | inr e => (Throw (AxiosFailure e), log_request rq w)
    end.

(** [prisma.meta.findUnique({ where: { sessionId } })]. *)
Definition prisma_meta_findUnique (sessionId : string) : M (option Meta) :=
  fun w =>
    match w_meta w sessionId with
    | inl row => (Ok row, w)
    | inr msg => (Throw (DbFailure msg), w)
    end.

(** [error.message] of a caught value. *)
Definition error_message (e : error) : string :=
  match e with
  | JsError m => m
  | AxiosFailure a => ax_message a
  | DbFailure m => m
  end.

(** [error.response?.data?.error?.message] of a caught value. *)
Definition error_response_detail (e : error) : option string :=
  match e with
  | AxiosFailure a =>
      match ax_response a with
      | Some r =>
          match ar_data r with
          | Some d =>
              match eb_error d with
              | Some g => ge_message g
              | None => None
              end
          | None => None
          end
      | None => None
      end
  | _ => None
  end.

(** ** [CAPIService] *)

Module CAPIService.

Record t : Type := {
  pixelId : string;
  accessToken : string;
  testEventCode : option string
}.

(** [new CAPIService(pixelId, accessToken, testEventCode)]. *)
Definition new (p a : string) (code : option string) : t :=
  {| pixelId := p; accessToken := a; testEventCode := code |}.

(** [hashPII]. *)
Definition hashPII (data : string) : string :=
  SHA256.hexdigest (JsString.trim (JsString.toLowerCase data)).

(** [sendEvents]. *)
Definition sendEvents (this : t) (events : list CAPIEvent) : M CAPIResponse :=
  let url := "https://graph.facebook.com/v18.0/" ++ pixelId this ++ "/events" in
  let payload :=
    {| pl_data := events;
       pl_access_token := accessToken this;
       pl_test_event_code := JsString.opt_truthy (testEventCode this) |} in
  try_catch
    (axios_post {| rq_url := url;
                   rq_payload := payload;
                   rq_headers := [("Content-Type", "application/json")];
                   rq_timeout := 10000 |})
    (fun error =>
       throw (JsError ("CAPI request failed: "
                       ++ JsString.opt_or (error_response_detail error)
                                          (error_message error)))).

(** The assignments [userData.f = v] of [createUserData]. *)
Definition empty_user_data : UserData :=
  {| ud_em := None; ud_ph := None; ud_fn := None; ud_ln := None;
     ud_ct := None; ud_st := None; ud_zp := None; ud_country := None;
     ud_external_id := None; ud_client_ip_address := None;
     ud_client_user_agent := None; ud_fbc := None; ud_fbp := None |}.

Definition set_em v u :=
  {| ud_em := Some v; ud_ph := ud_ph u; ud_fn := ud_fn u; ud_ln := ud_ln u;
     ud_ct := ud_ct u; ud_st := ud_st u; ud_zp := ud_zp u;
     ud_country := ud_country u; ud_external_id := ud_external_id u;
     ud_client_ip_address := ud_client_ip_address u;
     ud_client_user_agent := ud_client_user_agent u;
     ud_fbc := ud_fbc u; ud_fbp := ud_fbp u |}.

Definition set_ph v u :=
  {| ud_em := ud_em u; ud_ph := Some v; ud_fn := ud_fn u; ud_ln := ud_ln u;
     ud_ct := ud_ct u; ud_st := ud_st u; ud_zp := ud_zp u;
     ud_country := ud_country u; ud_external_id := ud_external_id u;
     ud_client_ip_address := ud_client_ip_address u;
     ud_client_user_agent := ud_client_user_agent u;
     ud_fbc := ud_fbc u; ud_fbp := ud_fbp u |}.

Definition set_fn v u :=
  {| ud_em := ud_em u; ud_ph := ud_ph u; ud_fn := Some v; ud_ln := ud_ln u;
     ud_ct := ud_ct u; ud_st := ud_st u; ud_zp := ud_zp u;
     ud_country := ud_country u; ud_external_id := ud_external_id u;
     ud_client_ip_address := ud_client_ip_address u;
     ud_client_user_agent := ud_client_user_agent u;
     ud_fbc := ud_fbc u; ud_fbp := ud_fbp u |}.

Definition set_ln v u :=
  {| ud_em := ud_em u; ud_ph := ud_ph u; ud_fn := ud_fn u; ud_ln := Some v;
     ud_ct := ud_ct u; ud_st := ud_st u; ud_zp := ud_zp u;
     ud_country := ud_country u; ud_external_id := ud_external_id u;
     ud_client_ip_address := ud_client_ip_address u;
     ud_client_user_agent := ud_client_user_agent u;
     ud_fbc := ud_fbc u; ud_fbp := ud_fbp u |}.

Definition set_ct v u :=
  {| ud_em := ud_em u; ud_ph := ud_ph u; ud_fn := ud_fn u; ud_ln := ud_ln u;
     ud_ct := Some v; ud_st := ud_st u; ud_zp := ud_zp u;
     ud_country := ud_country u; ud_external_id := ud_external_id u;
     ud_client_ip_address := ud_client_ip_address u;
     ud_client_user_agent := ud_client_user_agent u;
     ud_fbc := ud_fbc u; ud_fbp := ud_fbp u |}.

Definition set_st v u :=
  {| ud_em := ud_em u; ud_ph := ud_ph u; ud_fn := ud_fn u; ud_ln := ud_ln u;
     ud_ct := ud_ct u; ud_st := Some v; ud_zp := ud_zp u;
     ud_country := ud_country u; ud_external_id := ud_external_id u;
     ud_client_ip_address := ud_client_ip_address u;
     ud_client_user_agent := ud_client_user_agent u;
     ud_fbc := ud_fbc u; ud_fbp := ud_fbp u |}.

Definition set_zp v u :=
  {| ud_em := ud_em u; ud_ph := ud_ph u; ud_fn := ud_fn u; ud_ln := ud_ln u;
     ud_ct := ud_ct u; ud_st := ud_st u; ud_zp := Some v;
     ud_country := ud_country u; ud_external_id := ud_external_id u;
     ud_client_ip_address := ud_client_ip_address u;
     ud_client_user_agent := ud_client_user_agent u;
     ud_fbc := ud_fbc u; ud_fbp := ud_fbp u |}.

Definition set_country v u :=
  {| ud_em := ud_em u; ud_ph := ud_ph u; ud_fn := ud_fn u; ud_ln := ud_ln u;
     ud_ct := ud_ct u; ud_st := ud_st u; ud_zp := ud_zp u;
     ud_country := Some v; ud_external_id := ud_external_id u;
     ud_client_ip_address := ud_client_ip_address u;
     ud_client_user_agent := ud_client_user_agent u;
     ud_fbc := ud_fbc u; ud_fbp := ud_fbp u |}.

Definition set_external_id v u :=
  {| ud_em := ud_em u; ud_ph := ud_ph u; ud_fn := ud_fn u; ud_ln := ud_ln u;
     ud_ct := ud_ct u; ud_st := ud_st u; ud_zp := ud_zp u;
     ud_country := ud_country u; ud_external_id := Some v;
     ud_client_ip_address := ud_client_ip_address u;
     ud_client_user_agent := ud_client_user_agent u;
     ud_fbc := ud_fbc u; ud_fbp := ud_fbp u |}.

Definition set_client_ip_address v u :=
  {| ud_em := ud_em u; ud_ph := ud_ph u; ud_fn := ud_fn u; ud_ln := ud_ln u;
     ud_ct := ud_ct u; ud_st := ud_st u; ud_zp := ud_zp u;
     ud_country := ud_country u; ud_external_id := ud_external_id u;
     ud_client_ip_address := Some v;
     ud_client_user_agent := ud_client_user_agent u;
     ud_fbc := ud_fbc u; ud_fbp := ud_fbp u |}.

Definition set_client_user_agent v u :=
  {| ud_em := ud_em u; ud_ph := ud_ph u; ud_fn := ud_fn u; ud_ln := ud_ln u;
     ud_ct := ud_ct u; ud_st := ud_st u; ud_zp := ud_zp u;
     ud_country := ud_country u; ud_external_id := ud_external_id u;
     ud_client_ip_address := ud_client_ip_address u;
     ud_client_user_agent := Some v;
     ud_fbc := ud_fbc u; ud_fbp := ud_fbp u |}.

Definition set_fbc v u :=
  {| ud_em := ud_em u; ud_ph := ud_ph u; ud_fn := ud_fn u; ud_ln := ud_ln u;
     ud_ct := ud_ct u; ud_st := ud_st u; ud_zp := ud_zp u;
     ud_country := ud_country u; ud_external_id := ud_external_id u;
     ud_client_ip_address := ud_client_ip_address u;
     ud_client_user_agent := ud_client_user_agent u;
     ud_fbc := Some v; ud_fbp := ud_fbp u |}.

Definition set_fbp v u :=
  {| ud_em := ud_em u; ud_ph := ud_ph u; ud_fn := ud_fn u; ud_ln := ud_ln u;
     ud_ct := ud_ct u; ud_st := ud_st u; ud_zp := ud_zp u;
     ud_country := ud_country u; ud_external_id := ud_external_id u;
     ud_client_ip_address := ud_client_ip_address u;
     ud_client_user_agent := ud_client_user_agent u;
     ud_fbc := ud_fbc u; ud_fbp := Some v |}.

(** [if (x) { userData = assign x }] for a possibly undefined string. *)
Definition when_string (x : option string) (assign : string -> UserData -> UserData)
  (u : UserData) : UserData :=
  match x with
  | Some s => if JsString.truthy s then assign s u else u
  | None => u
  end.

(** [if (x) { userData = assign x }] for a possibly undefined id. *)
Definition when_ident (x : option ident) (assign : ident -> UserData -> UserData)
  (u : UserData) : UserData :=
  match x with
  | Some i => if Ident.truthy i then assign i u else u
  | None => u
  end.

(** [customer?.f] and [customer?.default_address?.f]. *)
Definition field {A} (customer : option Customer) (f : Customer -> option A) : option A :=
  match customer with
  | Some c => f c
  | None => None
  end.

Definition address_field (customer : option Customer) (f : Address -> option string)
  : option string :=
  match field customer cust_default_address with
  | Some a => f a
  | None => None
  end.

(** [createUserData]. *)
Definition createUserData (customer : option Customer)
  (clientIp userAgent fbc fbp : option string) : UserData :=
  let userData := empty_user_data in
  let userData :=
    when_string (field customer cust_email)
      (fun s => set_em [hashPII s]) userData in
  let userData :=
    when_string (field customer cust_phone)
      (fun s => set_ph [hashPII s]) userData in
  let userData :=
    when_string (field customer cust_first_name)
      (fun s => set_fn [hashPII s]) userData in
  let userData :=
    when_string (field customer cust_last_name)
      (fun s => set_ln [hashPII s]) userData in
  let userData :=
    when_string (address_field customer addr_city)
      (fun s => set_ct [hashPII s]) userData in
  let userData :=
    when_string (address_field customer addr_province)
      (fun s => set_st [hashPII s]) userData in
  let userData :=
    when_string (address_field customer addr_zip)
      (fun s => set_zp [hashPII s]) userData in
  let userData :=
    when_string (address_field customer addr_country)
      (fun s => set_country [hashPII s]) userData in
  let userData :=
    when_ident (field customer cust_id)
      (fun i => set_external_id [hashPII (Ident.toString i)]) userData in
  let userData := when_string clientIp set_client_ip_address userData in
  let userData := when_string userAgent set_client_user_agent userData in
  let userData := when_string fbc set_fbc userData in
  let userData := when_string fbp set_fbp userData in
  userData.

(** [clientData?.f]. *)
Definition client {A} (clientData : option ClientData) (f : ClientData -> option A)
  : option A :=
  match clientData with
  | Some c => f c
  | None => None
  end.

Definition userDataFor (customer : option Customer) (clientData : option ClientData)
  : UserData :=
  createUserData customer (client clientData cl_ip) (client clientData cl_userAgent)
    (client clientData cl_fbc) (client clientData cl_fbp).

(** [Math.floor(ms / 1000)]. *)
Definition whole_seconds (ms : number) : number :=
  JsNumber.floor (JsNumber.div ms (JsNumber.of_Z 1000)).

(** [Math.floor(Date.now() / 1000)]. *)
Definition now_seconds : M number :=
  now <- Date_now ;; ret (whole_seconds (JsNumber.of_Z now)).

(** [Math.floor((created_at ? new Date(created_at).getTime() : Date.now()) / 1000)]. *)
Definition created_seconds (created_at : option string) : M number :=
  ms <- match JsString.opt_truthy created_at with
        | Some s => Date_getTime s
        | None => now <- Date_now ;; ret (JsNumber.of_Z now)
        end ;;
  ret (whole_seconds ms).

(** [eventId || fallback], where the fallback is only evaluated when it
    is needed. *)
Definition event_id_or (eventId : option string) (fallback : M string) : M string :=
  match JsString.opt_truthy eventId with
  | Some s => ret s
  | None => fallback
  end.

(** The [contents] of [trackPurchase]. *)
Definition purchase_content (item : LineItem) : Content :=
  {| ct_id := JsString.opt_or (Ident.opt_toString (li_product_id item))
                (JsString.opt_or (Ident.opt_toString (li_variant_id item)) "");
     ct_quantity := JsNumber.opt_or (li_quantity item) (JsNumber.of_Z 1);
     ct_item_price := Some (JsNumber.parseFloat (JsString.opt_or (li_price item) "0")) |}.

Definition purchase_contents (order : Order) : list Content :=
  match ord_line_items order with
  | Some items => List.map purchase_content items
  | None => []
  end.

(** [contents.reduce((sum, item) => sum + item.quantity, 0)]. *)
Definition total_quantity (contents : list Content) : number :=
  List.fold_left (fun sum item => JsNumber.add sum (ct_quantity item))
    contents (JsNumber.of_Z 0).

(** The event of [trackPurchase]. *)
Definition purchaseEvent (order : Order) (customer : option Customer)
  (eventId : option string) (clientData : option ClientData) : M CAPIEvent :=
  let userData := userDataFor customer clientData in
  let contents := purchase_contents order in
  time <- created_seconds (ord_created_at order) ;;
  id <- event_id_or eventId
          (now <- Date_now ;;
           ret (Ident.template (ord_id order) ++ "_purchase_" ++ JsString.of_Z now)) ;;
  ret {| event_name := "Purchase";
         event_time := time;
         action_source := "website";
         event_source_url := JsString.opt_truthy (ord_landing_site_ref order);
         user_data := userData;
         custom_data := Some
           {| cd_value := Some (JsNumber.parseFloat
                                  (JsString.opt_or (ord_total_price order) "0"));
              cd_currency := Some (JsString.opt_or (ord_currency order) "USD");
              cd_content_type := Some "product";
              cd_content_ids := Some (List.map ct_id contents);
              cd_content_name := None;
              cd_content_category := None;
              cd_num_items := Some (total_quantity contents);
              cd_order_id := Some (JsString.opt_or (Ident.opt_toString (ord_id order))
                                     (JsString.opt_or (ord_name order) ""));
              cd_contents := Some contents |};
         event_id := Some id |}.

(** [trackPurchase]. *)
Definition trackPurchase (this : t) (order : Order) (customer : option Customer)
  (eventId : option string) (clientData : option ClientData) : M CAPIResponse :=
  event <- purchaseEvent order customer eventId clientData ;;
  sendEvents this [event].

(** The event of [trackAddToCart]. *)
Definition addToCartEvent (productId variantId : string) (quantity price : number)
  (currency : string) (customer : option Customer) (eventId : option string)
  (clientData : option ClientData) : M CAPIEvent :=
  let userData := userDataFor customer clientData in
  time <- now_seconds ;;
  id <- event_id_or eventId
          (now <- Date_now ;;
           ret (productId ++ "_" ++ variantId ++ "_addtocart_" ++ JsString.of_Z now)) ;;
  ret {| event_name := "AddToCart";
         event_time := time;
         action_source := "website";
         event_source_url := client clientData cl_sourceUrl;
         user_data := userData;
         custom_data := Some
           {| cd_value := Some (JsNumber.mul price quantity);
              cd_currency := Some currency;
              cd_content_type := Some "product";
              cd_content_ids := Some [JsString.or_else variantId productId];
              cd_content_name := None;
              cd_content_category := None;
              cd_num_items := Some quantity;
              cd_order_id := None;
              cd_contents := Some
                [ {| ct_id := JsString.or_else variantId productId;
                     ct_quantity := quantity;
                     ct_item_price := Some price |} ] |};
         event_id := Some id |}.

(** [trackAddToCart]. *)
Definition trackAddToCart (this : t) (productId variantId : string)
  (quantity price : number) (currency : string) (customer : option Customer)
  (eventId : option string) (clientData : option ClientData) : M CAPIResponse :=
  event <- addToCartEvent productId variantId quantity price currency customer
             eventId clientData ;;
  sendEvents this [event].

(** The event of [trackPageView]. *)
Definition pageViewEvent (url : string) (customer : option Customer)
  (eventId : option string) (clientData : option ClientData) : M CAPIEvent :=
  let userData := userDataFor customer clientData in
  time <- now_seconds ;;
  id <- event_id_or eventId
          (now <- Date_now ;;
           r <- Math_random_base36 ;;
           ret ("pageview_" ++ JsString.of_Z now ++ "_" ++ JsString.substring_from 7 r)) ;;
  ret {| event_name := "PageView";
         event_time := time;
         action_source := "website";
         event_source_url := Some url;
         user_data := userData;
         custom_data := None;
         event_id := Some id |}.

(** [trackPageView]. *)
Definition trackPageView (this : t) (url : string) (customer : option Customer)
  (eventId : option string) (clientData : option ClientData) : M CAPIResponse :=
  event <- pageViewEvent url customer eventId clientData ;;
  sendEvents this [event].

(** The event of [trackInitiateCheckout]. *)
Definition initiateCheckoutEvent (value : number) (currency : string)
  (contentIds : list string) (numItems : number) (customer : option Customer)
  (eventId : option string) (clientData : option ClientData) : M CAPIEvent :=
  let userData := userDataFor customer clientData in
  time <- now_seconds ;;
  id <- event_id_or eventId
          (now <- Date_now ;; ret ("initiate_checkout_" ++ JsString.of_Z now)) ;;
  ret {| event_name := "InitiateCheckout";
         event_time := time;
         action_source := "website";
         event_source_url := client clientData cl_sourceUrl;
         user_data := userData;
         custom_data := Some
           {| cd_value := Some value;
              cd_currency := Some currency;
              cd_content_type := Some "product";
              cd_content_ids := Some contentIds;
              cd_content_name := None;
              cd_content_category := None;
              cd_num_items := Some numItems;
              cd_order_id := None;
              cd_contents := None |};
         event_id := Some id |}.

(** [trackInitiateCheckout]. *)
Definition trackInitiateCheckout (this : t) (value : number) (currency : string)
  (contentIds : list string) (numItems : number) (customer : option Customer)
  (eventId : option string) (clientData : option ClientData) : M CAPIResponse :=
  event <- initiateCheckoutEvent value currency contentIds numItems customer
             eventId clientData ;;
  sendEvents this [event].

(** The event of [trackViewContent]. *)
Definition viewContentEvent (productId contentName contentCategory : string)
  (value : number) (currency : string) (customer : option Customer)
  (eventId : option string) (clientData : option ClientData) : M CAPIEvent :=
  let userData := userDataFor customer clientData in
  time <- now_seconds ;;
  id <- event_id_or eventId
          (now <- Date_now ;;
           ret (productId ++ "_viewcontent_" ++ JsString.of_Z now)) ;;
  ret {| event_name := "ViewContent";
         event_time := time;
         action_source := "website";
         event_source_url := client clientData cl_sourceUrl;
         user_data := userData;
         custom_data := Some
           {| cd_value := Some value;
              cd_currency := Some currency;
              cd_content_type := Some "product";
              cd_content_ids := Some [productId];
              cd_content_name := Some contentName;
              cd_content_category := Some contentCategory;
              cd_num_items := None;
              cd_order_id := None;
              cd_contents := None |};
         event_id := Some id |}.

(** [trackViewContent]. *)
Definition trackViewContent (this : t) (productId contentName contentCategory : string)
  (value : number) (currency : string) (customer : option Customer)
  (eventId : option string) (clientData : option ClientData) : M CAPIResponse :=
  event <- viewContentEvent productId contentName contentCategory value currency
             customer eventId clientData ;;
  sendEvents this [event].

End CAPIService.

(** ** The webhook adapters

    An adapter starts from what [authenticate.webhook(request)] resolved
    to.  The console output of the adapters is not represented. *)

Record Session : Type := { session_id : string }.

Record Webhook (P : Type) : Type := {
  wh_shop : string;
  wh_session : option Session;
  wh_topic : string;
  wh_payload : option P
}.
Arguments wh_shop {P} _.
Arguments wh_session {P} _.
Arguments wh_topic {P} _.
Arguments wh_payload {P} _.

Record Response : Type := {
  resp_status : Z;
  resp_body : option string
}.

(** [new Response()]: status 200 and no body. *)
Definition new_Response : Response := {| resp_status := 200; resp_body := None |}.

(** The shape shared by the three adapters:
    [if (!session) return new Response();
     try { body } catch (error) { console.error(...) }
     return new Response();]
    where [body] may itself [return] a response ([Some r]) or run to its
    end ([None]). *)
Definition guarded {P} (ctx : Webhook P) (body : Session -> M (option Response))
  : M Response :=
  match wh_session ctx with
  | None => ret new_Response
  | Some session =>
      returned <- try_catch (body session) (fun error => ret None) ;;
      match returned with
      | Some r => ret r
      | None => ret new_Response
      end
  end.

Module OrdersCreate.

(** The [clientData] object built from the order. *)
Definition clientData (order : Order) : ClientData :=
  {| cl_ip := JsString.opt_truthy (ord_browser_ip order);
     cl_userAgent :=
       JsString.opt_truthy
         (match ord_client_details order with
          | Some d => cd_user_agent d
          | None => None
          end);
     cl_fbc := None;
     cl_fbp := None;
     cl_sourceUrl := None |}.

(** [`shopify_order_${order.id}_${Date.now()}`]. *)
Definition eventId (order : Order) (now : Z) : string :=
  "shopify_order_" ++ Ident.template (ord_id order) ++ "_" ++ JsString.of_Z now.

Definition body (ctx : Webhook Order) (session : Session) : M (option Response) :=
  metaConnection <- prisma_meta_findUnique (session_id session) ;;
  match metaConnection with
  | Some connection =>
      if negb (JsString.truthy (meta_pixelId connection)) then ret (Some new_Response)
      else
        match wh_payload ctx with
        | None => ret (Some new_Response)
        | Some order =>
            let capiService :=
              CAPIService.new (meta_pixelId connection)
                (meta_accessToken connection) None in
            let customer := ord_customer order in
            now <- Date_now ;;
            capiResponse <- CAPIService.trackPurchase capiService order customer
                              (Some (eventId order now)) (Some (clientData order)) ;;
            ret None
        end
  | None => ret (Some new_Response)
  end.

Definition action (ctx : Webhook Order) : M Response := guarded ctx (body ctx).

End OrdersCreate.

Module CheckoutsCreate.

(** [item.variant_id?.toString() || item.product_id?.toString() || item.id?.toString()]. *)
Definition content_id (item : LineItem) : option string :=
  or_undefined (Ident.opt_toString (li_variant_id item))
    (or_undefined (Ident.opt_toString (li_product_id item))
       (Ident.opt_toString (li_id item))).

Definition contentIds (items : list LineItem) : list string :=
  filter_Boolean (List.map content_id items).

(** [line_items.reduce((sum, item) => sum + (item.quantity || 1), 0)]. *)
Definition numItems (items : list LineItem) : number :=
  List.fold_left
    (fun sum item =>
       JsNumber.add sum (JsNumber.opt_or (li_quantity item) (JsNumber.of_Z 1)))
    items (JsNumber.of_Z 0).

Definition clientData (checkout : Checkout) : ClientData :=
  {| cl_ip := JsString.opt_truthy (chk_browser_ip checkout);
     cl_userAgent :=
       JsString.opt_truthy
         (match chk_client_details checkout with
          | Some d => cd_user_agent d
          | None => None
          end);
     cl_fbc := None;
     cl_fbp := None;
     cl_sourceUrl := JsString.opt_truthy (chk_landing_site_ref checkout) |}.

(** [`shopify_checkout_${checkout.id}_${Date.now()}`]. *)
Definition eventId (checkout : Checkout) (now : Z) : string :=
  "shopify_checkout_" ++ Ident.template (chk_id checkout) ++ "_" ++ JsString.of_Z now.

(** [!checkout || !checkout.line_items || checkout.line_items.length === 0]:
    the line items of a checkout that passes. *)
Definition valid_line_items (payload : option Checkout) : option (Checkout * list LineItem) :=
  match payload with
  | Some checkout =>
      match chk_line_items checkout with
      | Some (item :: items) => Some (checkout, item :: items)
      | Some [] => None
      | None => None
      end
  | None => None
  end.

Definition body (ctx : Webhook Checkout) (session : Session) : M (option Response) :=
  metaConnection <- prisma_meta_findUnique (session_id session) ;;
  match metaConnection with
  | Some connection =>
      if negb (JsString.truthy (meta_pixelId connection)) then ret (Some new_Response)
      else
        match valid_line_items (wh_payload ctx) with
        | None => ret (Some new_Response)
        | Some (checkout, line_items) =>
            let capiService :=
              CAPIService.new (meta_pixelId connection)
                (meta_accessToken connection) None in
            let customer := chk_customer checkout in
            now <- Date_now ;;
            capiResponse <- CAPIService.trackInitiateCheckout capiService
                              (JsNumber.parseFloat
                                 (JsString.opt_or (chk_total_price checkout) "0"))
                              (JsString.opt_or (chk_currency checkout) "USD")
                              (contentIds line_items)
                              (numItems line_items)
                              customer
                              (Some (eventId checkout now))
                              (Some (clientData checkout)) ;;
            ret None
        end
  | None => ret (Some new_Response)
  end.

Definition action (ctx : Webhook Checkout) : M Response := guarded ctx (body ctx).

End CheckoutsCreate.

Module CustomersCreate.

(** [`shopify_customer_${customer.id}_signup_${Date.now()}`]. *)
Definition eventId (customer : Customer) (now : Z) : string :=
  "shopify_customer_" ++ Ident.template (cust_id customer) ++ "_signup_"
  ++ JsString.of_Z now.

(** The local [hashPII] helper. *)
Definition hashPII (data : string) : string :=
  SHA256.hexdigest (JsString.trim (JsString.toLowerCase data)).

(** [x ? [hashPII(x)] : undefined]. *)
Definition hashed (x : option string) : option (list string) :=
  match x with
  | Some s => if JsString.truthy s then Some [hashPII s] else None
  | None => None
  end.

(** [customer.default_address?.f]. *)
Definition address (customer : Customer) (f : Address -> option string) : option string :=
  match cust_default_address customer with
  | Some a => f a
  | None => None
  end.

(** The [customEvent] object. *)
Definition customEvent (customer : Customer) (eventId : string) : M CAPIEvent :=
  ms <- match JsString.opt_truthy (cust_created_at customer) with
        | Some s => Date_getTime s
        | None => now <- Date_now ;; ret (JsNumber.of_Z now)
        end ;;
  ret {| event_name := "CompleteRegistration";
         event_time := JsNumber.floor (JsNumber.div ms (JsNumber.of_Z 1000));
         action_source := "website";
         event_source_url := None;
         user_data :=
           {| ud_em := hashed (cust_email customer);
              ud_ph := hashed (cust_phone customer);
              ud_fn := hashed (cust_first_name customer);
              ud_ln := hashed (cust_last_name customer);
              ud_ct := hashed (address customer addr_city);
              ud_st := hashed (address customer addr_province);
              ud_zp := hashed (address customer addr_zip);
              ud_country := hashed (address customer addr_country);
              ud_external_id :=
                match cust_id customer with
                | Some i =>
                    if Ident.truthy i then Some [hashPII (Ident.toString i)]
                    else None
                | None => None
                end;
              ud_client_ip_address := None;
              ud_client_user_agent := None;
              ud_fbc := None;
              ud_fbp := None |};
         custom_data := Some
           {| cd_value := None;
              cd_currency := None;
              cd_content_type := Some "registration";
              cd_content_ids := None;
              cd_content_name := None;
              cd_content_category := None;
              cd_num_items := None;
              cd_order_id := None;
              cd_contents := None |};
         event_id := Some eventId |}.

Definition body (ctx : Webhook Customer) (session : Session) : M (option Response) :=
  metaConnection <- prisma_meta_findUnique (session_id session) ;;
  match metaConnection with
  | Some connection =>
      if negb (JsString.truthy (meta_pixelId connection)) then ret (Some new_Response)
      else
        match wh_payload ctx with
        | None => ret (Some new_Response)
        | Some customer =>
            let capiService :=
              CAPIService.new (meta_pixelId connection)
                (meta_accessToken connection) None in
            now <- Date_now ;;
            event <- customEvent customer (eventId customer now) ;;
            capiResponse <- CAPIService.sendEvents capiService [event] ;;
            ret None
        end
  | None => ret (Some new_Response)
  end.

Definition action (ctx : Webhook Customer) : M Response := guarded ctx (body ctx).

End CustomersCreate.

(** ** Runs *)

(** The value a computation ends with, and the world it leaves. *)
Definition result {A} (c : M A) (w : World) : outcome A := fst (c w).
Definition after {A} (c : M A) (w : World) : World := snd (c w).

(** The requests issued by a computation started in [w]. *)
Definition calls {A} (c : M A) (w : World) : list Request :=
  skipn (List.length (w_sent w)) (w_sent (after c w)).

(** ** The statements of the design document, in its own words *)

Module Spec.

(** A text in lower case. *)
Definition lower_case (raw : string) : string :=
  JsString.encode (Unicode.toLowercase (JsString.decode raw)).

(** A text without the white space it begins with. *)
Fixpoint without_leading (l : list Z) : list Z :=
  match l with
  | c :: rest => if Unicode.white_space c then without_leading rest else l
  | [] => []
  end.

(** A text without the white space at its two ends: what it begins with
    is taken off, and then, read backwards, what it ends with. *)
Definition strip (l : list Z) : list Z :=
  List.rev (without_leading (List.rev (without_leading l))).

Definition trimmed (s : string) : string :=
  JsString.encode (strip (JsString.decode s)).

(** The PII normalizer: lower case, trim, SHA-256, hex. *)
Definition digest (raw : string) : string :=
  SHA256.hexdigest (trimmed (lower_case raw)).

(** An identity attribute: omitted when the upstream value is absent or
    empty, the one-element list of its digest otherwise. *)
Definition identity (raw : option string) : option (list string) :=
  match raw with
  | None => None
  | Some EmptyString => None
  | Some s => Some [digest s]
  end.

Definition is_hex_char (c : ascii) : bool :=
  let n := JsString.code c in
  ((48 <=? n) && (n <=? 57)) || ((97 <=? n) && (n <=? 102)).

(** A fixed-length hexadecimal digest: 64 characters of [0-9a-f]. *)
Definition is_hex_digest (d : string) : Prop :=
  String.length d = 64%nat /\
  Forall (fun c => is_hex_char c = true) (list_ascii_of_string d).

(** The five-part composition of a dedup key. *)
Definition dedupKey (platform kind id suffix timestamp : string) : string :=
  platform ++ "_" ++ kind ++ "_" ++ id ++ "_" ++ suffix ++ "_" ++ timestamp.

(** Content-id extraction: the variant-level identifier, else the
    product-level one, else the line item's own, in string form; a
    candidate that is missing or whose string form is empty is passed
    over. *)
Fixpoint first_id (candidates : list (option ident)) : option string :=
  match candidates with
  | [] => None
  | Some i :: rest =>
      match Ident.toString i with
      | EmptyString => first_id rest
      | s => Some s
      end
  | None :: rest => first_id rest
  end.

Definition content_id (item : LineItem) : option string :=
  first_id [li_variant_id item; li_product_id item; li_id item].

(** The content ids of a list of line items, items without any dropped. *)
Fixpoint contentIds (items : list LineItem) : list string :=
  match items with
  | [] => []
  | item :: rest =>
      match content_id item with
      | Some s => s :: contentIds rest
      | None => contentIds rest
      end
  end.

(** The sum of a list of numbers, added up from the left starting at 0. *)
Definition sum (quantities : list number) : number :=
  List.fold_left JsNumber.add quantities (JsNumber.of_Z 0).

(** The sum of a list of integral quantities. *)
Definition total (quantities : list Z) : Z := List.fold_right Z.add 0 quantities.

End Spec.

(** All of [l] is white space. *)
Definition white (l : list Z) : Prop :=
  Forall (fun c => Unicode.white_space c = true) l.

(** [n] is the text [l] less the white space at its two ends: [l] is [n]
    between two stretches of white space, and [n] neither begins nor ends
    with white space. *)
Definition stripped (l n : list Z) : Prop :=
  exists p q,
    l = (p ++ n ++ q)%list /\ white p /\ white q /\
    (forall c rest, n = c :: rest -> Unicode.white_space c = false) /\
    (forall rest c, n = (rest ++ [c])%list -> Unicode.white_space c = false).

(** The composition of the keys of the order and checkout adapters: the
    platform prefix, the entity kind, the entity id and the build
    timestamp. *)
Definition entity_key (platform kind id timestamp : string) : string :=
  platform ++ "_" ++ kind ++ "_" ++ id ++ "_" ++ timestamp.



(** [quantity || 1] on an integral quantity: a missing quantity counts as
    1, and so does a quantity of 0. *)
Definition counted (quantity : option Z) : Z :=
  match quantity with
  | None => 1
  | Some 0 => 1
  | Some q => q
  end.

(** The quantity of a line item of an event, for an upstream line item
    whose quantity is missing: 1. *)
Definition default_quantity (item : LineItem) (content : Content) : Prop :=
  (li_quantity item = None -> ct_quantity content = JsNumber.of_Z 1) /\
  (forall q, li_quantity item = Some q -> JsNumber.truthy q = true ->
             ct_quantity content = q).

(** What a purchase lists for a line item: the product-level id, else the
    variant-level id, in string form, else the empty string. *)
Definition purchase_listed_id (item : LineItem) : string :=
  match Spec.first_id [li_product_id item; li_variant_id item] with
  | Some id => id
  | None => ""
  end.

(** The nine identity and location attributes of a [user_data], in the
    order em, ph, fn, ln, ct, st, zp, country, external_id. *)
Definition identity_fields (u : UserData) : list (option (list string)) :=
  [ud_em u; ud_ph u; ud_fn u; ud_ln u; ud_ct u; ud_st u; ud_zp u;
   ud_country u; ud_external_id u].

(** The text of an id that is there and truthy (a number other than 0, a
    string other than the empty one). *)
Definition id_text (x : option ident) : option string :=
  match x with
  | Some i => if Ident.truthy i then Some (Ident.toString i) else None
  | None => None
  end.

(** The raw upstream values of the nine attributes, in the same order. *)
Definition upstream_identity (customer : option Customer) : list (option string) :=
  match customer with
  | Some c =>
      let address f :=
        match cust_default_address c with
        | Some a => f a
        | None => None
        end in
      [cust_email c; cust_phone c; cust_first_name c; cust_last_name c;
       address addr_city; address addr_province; address addr_zip;
       address addr_country; id_text (cust_id c)]
  | None => [None; None; None; None; None; None; None; None; None]
  end.

(** Every attribute of [u] is the digest of its upstream value, or omitted
    when there is none, and whatever is present is a list of one
    fixed-length hexadecimal digest. *)
Definition identity_hashed (customer : option Customer) (u : UserData) : Prop :=
  identity_fields u = List.map Spec.identity (upstream_identity customer) /\
  Forall (fun field =>
            forall values, field = Some values ->
                           exists d, values = [d] /\ Spec.is_hex_digest d)
         (identity_fields u).

(** The builders only read the clock and the random source. *)
Definition same_outside (w w' : World) : Prop :=
  w_sent w' = w_sent w /\ w_endpoint w' = w_endpoint w /\ w_meta w' = w_meta w.

(** A computation that always ends with a value and leaves the outside
    alone. *)
Definition quiet {A} (c : M A) : Prop :=
  forall w, exists a w', c w = (Ok a, w') /\ same_outside w w'.

(** The request [sendEvents] issues for a batch. *)
Definition request_for (this : CAPIService.t) (events : list CAPIEvent) : Request :=
  {| rq_url := "https://graph.facebook.com/v18.0/" ++ CAPIService.pixelId this ++ "/events";
     rq_payload :=
       {| pl_data := events;
          pl_access_token := CAPIService.accessToken this;
          pl_test_event_code :=
            match CAPIService.testEventCode this with
            | Some EmptyString => None
            | code => code
            end |};
     rq_headers := [("Content-Type", "application/json")];
     rq_timeout := 10000 |}.

(** The connection of a delivery is resolved: there is a session, and its
    row of the [Meta] table has a non-empty pixel id. *)
Definition resolved {P} (ctx : Webhook P) (w : World) : Prop :=
  exists session connection,
    wh_session ctx = Some session /\
    w_meta w (session_id session) = inl (Some connection) /\
    meta_pixelId connection <> "".

(** The connection of a delivery is missing: the row is absent or its
    pixel id is empty. *)
Definition unconnected {P} (ctx : Webhook P) (w : World) : Prop :=
  exists session,
    wh_session ctx = Some session /\
    (w_meta w (session_id session) = inl None \/
     exists connection,
       w_meta w (session_id session) = inl (Some connection) /\
       meta_pixelId connection = "").

(** The endpoint rejects whatever it is sent. *)
Definition transport_fails (w : World) : Prop :=
  forall rq, exists e, w_endpoint w rq = inr e.

(** An HTTP 400 answer whose error object has an empty message. *)
Definition http_400_blank : AxiosError :=
  {| ax_message := "Request failed with status code 400";
     ax_response := Some
       {| ar_status := 400;
          ar_data := Some {| eb_error := Some {| ge_message := Some "" |} |} |} |}.

(** A world whose endpoint gives that answer. *)
Definition blank_world : World :=
  {| w_clock := fun n => 1700000000000 + Z.of_nat n;
     w_ticks := 0;
     w_random := fun _ => "0.4fzyo82mvyr";
     w_draws := 0;
     w_endpoint := fun _ => inr http_400_blank;
     w_sent := [];
     w_meta := fun _ => inl None;
     w_date := fun _ => None |}.

(** A sample world: the clock reads 1700000000000 ms and advances by one
    millisecond per reading, the endpoint answers every request with HTTP
    400, and the only session, ["s1"], is connected to pixel ["px"]. *)
Definition http_400 : AxiosError :=
  {| ax_message := "Request failed with status code 400";
     ax_response := Some
       {| ar_status := 400;
          ar_data := Some {| eb_error := Some {| ge_message := Some "Invalid parameter" |} |} |} |}.

Definition sample_world : World :=
  {| w_clock := fun n => 1700000000000 + Z.of_nat n;
     w_ticks := 0;
     w_random := fun _ => "0.4fzyo82mvyr";
     w_draws := 0;
     w_endpoint := fun _ => inr http_400;
     w_sent := [];
     w_meta := fun sid =>
       if String.eqb sid "s1"
       then inl (Some {| meta_pixelId := "px"; meta_accessToken := "token" |})
       else inl None;
     w_date := fun _ => None |}.

(** The same world with an endpoint that accepts every batch. *)
Definition accepting_world : World :=
  {| w_clock := w_clock sample_world; w_ticks := 0;
     w_random := w_random sample_world; w_draws := 0;
     w_endpoint := fun rq =>
       inl {| events_received := JsNumber.of_Z (Z.of_nat (List.length (pl_data (rq_payload rq))));
              messages := []; fbtrace_id := "trace" |};
     w_sent := [];
     w_meta := w_meta sample_world;
     w_date := w_date sample_world |}.

(** The same world with the pixel id of the connection left empty. *)
Definition unconnected_world : World :=
  {| w_clock := w_clock sample_world; w_ticks := 0;
     w_random := w_random sample_world; w_draws := 0;
     w_endpoint := w_endpoint sample_world;
     w_sent := [];
     w_meta := fun _ => inl (Some {| meta_pixelId := ""; meta_accessToken := "token" |});
     w_date := w_date sample_world |}.

Definition sample_customer : Customer :=
  {| cust_id := Some (IdNum 42);
     cust_email := Some "A@B.com";
     cust_phone := None;
     cust_first_name := None;
     cust_last_name := None;
     cust_default_address := None;
     cust_created_at := Some "2024-01-01T00:00:00Z" |}.

Definition line (variant : string) (qty : Z) (price : string) : LineItem :=
  {| li_id := None; li_product_id := None; li_variant_id := Some (IdStr variant);
     li_quantity := Some (JsNumber.of_Z qty); li_price := Some price |}.

Definition sample_order : Order :=
  {| ord_id := Some (IdNum 1001);
     ord_name := Some "#1001";
     ord_customer := Some sample_customer;
     ord_browser_ip := Some "203.0.113.7";
     ord_client_details := None;
     ord_line_items := Some [line "V1" 2 "10.00"; line "V2" 1 "5.00"];
     ord_created_at := Some "2024-01-01T00:00:00Z";
     ord_landing_site_ref := None;
     ord_total_price := Some "25.00";
     ord_currency := Some "USD" |}.

Definition sample_checkout : Checkout :=
  {| chk_id := Some (IdNum 1001);
     chk_customer := Some sample_customer;
     chk_browser_ip := None;
     chk_client_details := None;
     chk_line_items := Some [line "V1" 2 "10.00"; line "V2" 1 "5.00"];
     chk_created_at := Some "2024-01-01T00:00:00Z";
     chk_landing_site_ref := None;
     chk_total_price := Some "25.00";
     chk_currency := Some "USD" |}.

(** A checkout that carries no line item. *)
Definition empty_checkout : Checkout :=
  {| chk_id := Some (IdNum 7); chk_customer := None; chk_browser_ip := None;
     chk_client_details := None; chk_line_items := Some [];
     chk_created_at := None; chk_landing_site_ref := None;
     chk_total_price := Some "0.00"; chk_currency := Some "USD" |}.


(** [sample_order] with another [total_price] and [created_at]. *)
Definition order_with (total_price created_at : option string) : Order :=
  {| ord_id := ord_id sample_order;
     ord_name := ord_name sample_order;
     ord_customer := ord_customer sample_order;
     ord_browser_ip := ord_browser_ip sample_order;
     ord_client_details := ord_client_details sample_order;
     ord_line_items := ord_line_items sample_order;
     ord_created_at := created_at;
     ord_landing_site_ref := ord_landing_site_ref sample_order;
     ord_total_price := total_price;
     ord_currency := ord_currency sample_order |}.

(** [sample_order] with other line items. *)
Definition order_of (items : list LineItem) : Order :=
  {| ord_id := ord_id sample_order;
     ord_name := ord_name sample_order;
     ord_customer := ord_customer sample_order;
     ord_browser_ip := ord_browser_ip sample_order;
     ord_client_details := ord_client_details sample_order;
     ord_line_items := Some items;
     ord_created_at := ord_created_at sample_order;
     ord_landing_site_ref := ord_landing_site_ref sample_order;
     ord_total_price := ord_total_price sample_order;
     ord_currency := ord_currency sample_order |}.

(** A line item with a product-level and a variant-level id, and one with
    nothing but its own id. *)
Definition item_with_both_ids : LineItem :=
  {| li_id := Some (IdNum 3); li_product_id := Some (IdStr "P1");
     li_variant_id := Some (IdStr "V1");
     li_quantity := Some (JsNumber.of_Z 1); li_price := Some "10.00" |}.

(** A line item as Shopify sends it, with numeric ids. *)
Definition numbered_item : LineItem :=
  {| li_id := Some (IdNum 866550311766); li_product_id := Some (IdNum 632910392);
     li_variant_id := Some (IdNum 808950810);
     li_quantity := Some (JsNumber.of_Z 1); li_price := Some "199.00" |}.

Definition item_with_own_id : LineItem :=
  {| li_id := Some (IdNum 3); li_product_id := None; li_variant_id := None;
     li_quantity := Some (JsNumber.of_Z 1); li_price := Some "10.00" |}.

(** A page view with nothing but its name and time. *)
Definition sample_event : CAPIEvent :=
  {| event_name := "PageView";
     event_time := JsNumber.of_Z 1700000000;
     action_source := "website";
     event_source_url := None;
     user_data := CAPIService.empty_user_data;
     custom_data := None;
     event_id := Some "test_1700000000000" |}.

Definition delivery {P} (topic : string) (payload : option P) : Webhook P :=
  {| wh_shop := "shop.example"; wh_session := Some {| session_id := "s1" |};
     wh_topic := topic; wh_payload := payload |}.

(** ** Further parts of the services *)

(** Lower-casing and trimming within ASCII, character by character. *)
Module AsciiText.

Definition lower_char (c : ascii) : ascii :=
  let n := JsString.code c in
  if (65 <=? n) && (n <=? 90) then JsString.of_code (n + 32) else c.

Fixpoint lower (s : string) : string :=
  match s with
  | EmptyString => EmptyString
  | String c r => String (lower_char c) (lower r)
  end.

(** TAB, LF, VT, FF, CR and SP. *)
Definition is_space (c : ascii) : bool :=
  let n := JsString.code c in
  ((9 <=? n) && (n <=? 13)) || (n =? 32).

Fixpoint trimStart (s : string) : string :=
  match s with
  | EmptyString => EmptyString
  | String c r => if is_space c then trimStart r else s
  end.

Fixpoint trimEnd (s : string) : string :=
  match s with
  | EmptyString => EmptyString
  | String c r =>
      match trimEnd r with
      | EmptyString => if is_space c then EmptyString else String c EmptyString
      | r' => String c r'
      end
  end.

Definition trim (s : string) : string := trimEnd (trimStart s).

End AsciiText.

(** A string of ASCII characters. *)
Fixpoint is_ascii (s : string) : bool :=
  match s with
  | EmptyString => true
  | String c r => (JsString.code c <? 0x80) && is_ascii r
  end.

(** A string of ASCII white space only. *)
Fixpoint blank (s : string) : bool :=
  match s with
  | EmptyString => true
  | String c r => AsciiText.is_space c && blank r
  end.

(** [x > 0] on numbers. *)
Definition greater_than_zero (x : number) : bool :=
  match x with
  | NaN => false
  | Infinity negative => negb negative
  | Fin q => 0 <? Qnum q
  end.

(** [CAPIService.testConnection]. *)
Module CAPIServiceTest.

(** The [testEvent] object. *)
Definition testEvent : M CAPIEvent :=
  time <- CAPIService.now_seconds ;;
  now <- Date_now ;;
  ret {| event_name := "PageView";
         event_time := time;
         action_source := "website";
         event_source_url := None;
         user_data :=
           CAPIService.set_em [CAPIService.hashPII "test@example.com"]
             CAPIService.empty_user_data;
         custom_data := None;
         event_id := Some ("test_" ++ JsString.of_Z now) |}.

(** [testConnection]. *)
Definition testConnection (this : CAPIService.t) : M bool :=
  try_catch
    (event <- testEvent ;;
     response <- CAPIService.sendEvents this [event] ;;
     ret (greater_than_zero (events_received response)))
    (fun error => ret false).

End CAPIServiceTest.

(** The subject of the test event: an e-mail digest and nothing else. *)
Definition test_subject : UserData :=
  {| ud_em := Some [Spec.digest "test@example.com"];
     ud_ph := None; ud_fn := None; ud_ln := None; ud_ct := None; ud_st := None;
     ud_zp := None; ud_country := None; ud_external_id := None;
     ud_client_ip_address := None; ud_client_user_agent := None;
     ud_fbc := None; ud_fbp := None |}.

(** An event names its channel as the website and has a non-empty id. *)
Definition identified (event : CAPIEvent) : Prop :=
  action_source event = "website" /\
  exists key, event_id event = Some key /\ key <> "".

(** The run of a track method: one request, whose batch is the one event
    built, and the answer of the endpoint (or the wrapped error) as the
    result. *)
Definition submits_one {A} (c : M A) (this : CAPIService.t) (w : World)
  (event : CAPIEvent) : Prop :=
  calls c w = [request_for this [event]] /\
  rq_url (request_for this [event])
  = "https://graph.facebook.com/v18.0/" ++ CAPIService.pixelId this ++ "/events" /\
  pl_data (rq_payload (request_for this [event])) = [event].

(** A world whose [Meta] lookup fails. *)
Definition broken_db_world : World :=
  {| w_clock := w_clock sample_world; w_ticks := 0;
     w_random := w_random sample_world; w_draws := 0;
     w_endpoint := w_endpoint accepting_world;
     w_sent := [];
     w_meta := fun _ => inr "connection refused";
     w_date := w_date sample_world |}.

(** An order placed without a customer record. *)
Definition guest_order : Order :=
  {| ord_id := Some (IdNum 1002);
     ord_name := Some "#1002";
     ord_customer := None;
     ord_browser_ip := Some "203.0.113.7";
     ord_client_details := Some {| cd_user_agent := Some "Mozilla/5.0" |};
     ord_line_items := Some [line "V1" 1 "10.00"];
     ord_created_at := None;
     ord_landing_site_ref := None;
     ord_total_price := Some "10.00";
     ord_currency := None |}.

(** The [item_price] of a line item of a purchase: what [parseFloat] makes
    of the upstream price, and 0 when there is none. *)
Definition priced (item : LineItem) (content : Content) : Prop :=
  ct_item_price content
  = Some (JsNumber.parseFloat (JsString.opt_or (li_price item) "0")) /\
  (li_price item = None \/ li_price item = Some "" ->
   ct_item_price content = Some (JsNumber.of_Z 0)).

(** The nine identity attributes are all omitted. *)
Definition anonymous (u : UserData) : Prop :=
  identity_fields u = [None; None; None; None; None; None; None; None; None].

(** The request of a delivery goes to the pixel of the connection with
    its credential and without a test tag. *)
Definition addressed_to (connection : Meta) (rq : Request) : Prop :=
  rq_url rq
  = "https://graph.facebook.com/v18.0/" ++ meta_pixelId connection ++ "/events" /\
  pl_access_token (rq_payload rq) = meta_accessToken connection /\
  pl_test_event_code (rq_payload rq) = None /\
  List.length (pl_data (rq_payload rq)) = 1%nat /\
  rq_headers rq = [("Content-Type", "application/json")] /\
  rq_timeout rq = 10000.

(** A quantity that is missing or a natural number. *)
Definition natural_quantity (q : option Z) : Prop :=
  match q with
  | Some z => 0 <= z
  | None => True
  end.

(** Two line items, of quantity 0 and of no stated quantity. *)
Definition unquantified_items : list LineItem :=
  [ {| li_id := None; li_product_id := None; li_variant_id := None;
       li_quantity := Some (JsNumber.of_Z 0); li_price := None |};
    {| li_id := None; li_product_id := None; li_variant_id := None;
       li_quantity := None; li_price := None |} ].

(** ** [MetaApiService] ([app/services/meta-api.server.ts], the last part
    of [shopify-marketing.server.ts])

    The Graph API is an oracle: what each [axios.get] of the service
    resolves to ([response.data.data], which may be missing) or rejects
    with.  The service reads nothing else from the world. *)

Record MetaPixel : Type := {
  px_id : string;
  px_name : string;
  px_creation_time : string;
  px_last_fired_time : option string
}.

Record MetaBusiness : Type := {
  biz_id : string;
  biz_name : string;
  biz_verification_status : string
}.

Record MetaAdAccount : Type := {
  acct_id : string;
  acct_name : string;
  acct_status : Z;
  acct_business : option (string * string)
}.

(** An owned ad account as far as it is read: [account.adspixels.data]. *)
Record AdsPixels : Type := { ap_data : option (list MetaPixel) }.
Record OwnedAccount : Type := { oa_adspixels : option AdsPixels }.

Record Permission : Type := {
  perm_permission : string;
  perm_status : string
}.

Record MetaUser : Type := {
  mu_id : string;
  mu_name : string;
  mu_email : string
}.

Record GraphApi : Type := {
  get_adaccounts : string -> option (list MetaAdAccount) + AxiosError;
  get_businesses : string -> option (list MetaBusiness) + AxiosError;
  get_owned_ad_accounts : string -> string -> option (list OwnedAccount) + AxiosError;
  get_me : string -> MetaUser + AxiosError;
  get_permissions : string -> list Permission + AxiosError
}.

Record UserPixelsResponse : Type := {
  upr_pixels : list MetaPixel;
  upr_adAccounts : list MetaAdAccount;
  upr_businesses : list MetaBusiness
}.

Record ConnectionTest : Type := {
  test_success : bool;
  test_user : option MetaUser;
  test_permissions : list string;
  test_error : option string
}.

Module MetaApiService.

(** [x || []]. *)
Definition or_empty {A} (x : option (list A)) : list A :=
  match x with
  | Some l => l
  | None => []
  end.

(** The reducer over the owned accounts of a business:
    [account.adspixels && account.adspixels.data
       ? [...allPixels, ...account.adspixels.data] : allPixels]. *)
Definition add_account (allPixels : list MetaPixel) (account : OwnedAccount)
  : list MetaPixel :=
  match oa_adspixels account with
  | Some adspixels =>
      match ap_data adspixels with
      | Some data => (allPixels ++ data)%list
      | None => allPixels
      end
  | None => allPixels
  end.

Definition account_pixels (accounts : list OwnedAccount) : list MetaPixel :=
  List.fold_left add_account accounts [].

(** The body of [businesses.map(async (business) => ...)]: the pixels of
    one business, and none when its request fails. *)
Definition business_pixels (api : GraphApi) (accessToken : string)
  (business : MetaBusiness) : list MetaPixel :=
  match get_owned_ad_accounts api (biz_id business) accessToken with
  | inl data => account_pixels (or_empty data)
  | inr _ => []
  end.

(** The reducer that removes duplicates:
    [if (!acc.find(p => p.id === pixel.id)) acc.push(pixel); return acc]. *)
Definition push_unique (acc : list MetaPixel) (pixel : MetaPixel) : list MetaPixel :=
  match List.find (fun p => String.eqb (px_id p) (px_id pixel)) acc with
  | Some _ => acc
  | None => (acc ++ [pixel])%list
  end.

Definition uniquePixels (pixels : list MetaPixel) : list MetaPixel :=
  List.fold_left push_unique pixels [].

(** [getUserPixelsAndAccounts]. *)
Definition getUserPixelsAndAccounts (api : GraphApi) (accessToken : string)
  : outcome UserPixelsResponse :=
  match get_adaccounts api accessToken with
  | inl data =>
      let adAccounts := or_empty data in
      let businesses :=
        match get_businesses api accessToken with
        | inl b => or_empty b
        | inr _ => []
        end in
      let pixels :=
        match businesses with
        | [] => []
        | _ :: _ => List.concat (List.map (business_pixels api accessToken) businesses)
        end in
      Ok {| upr_pixels := uniquePixels pixels;
            upr_adAccounts := adAccounts;
            upr_businesses := businesses |}
  | inr _ => Throw (JsError "Failed to fetch Meta data")
  end.

(** [testConnection]. *)
Definition testConnection (api : GraphApi) (accessToken : string) : ConnectionTest :=
  let failed (e : AxiosError) :=
    {| test_success := false;
       test_user := None;
       test_permissions := [];
       test_error := Some (JsString.opt_or (error_response_detail (AxiosFailure e))
                           (ax_message e)) |} in
  match get_me api accessToken with
  | inl user =>
      match get_permissions api accessToken with
      | inl permissions =>
          {| test_success := true;
             test_user := Some user;
             test_permissions :=
               List.map perm_permission
                 (List.filter (fun p => String.eqb (perm_status p) "granted") permissions);
             test_error := None |}
      | inr e => failed e
      end
  | inr e => failed e
  end.

End MetaApiService.

(** A pixel of a given id and name. *)
Definition sample_pixel (id name : string) : MetaPixel :=
  {| px_id := id; px_name := name; px_creation_time := "2024-01-01T00:00:00+0000";
     px_last_fired_time := None |}.

Definition timeout_error : AxiosError :=
  {| ax_message := "timeout of 10000ms exceeded"; ax_response := None |}.

(** A Graph API with one ad account and two businesses; the accounts of
    business ["b1"] hold the pixels 1 and 2 and, again, 1; the request for
    the accounts of business ["b2"] fails. *)
Definition sample_api : GraphApi :=
  {| get_adaccounts := fun _ =>
       inl (Some [ {| acct_id := "act_1"; acct_name := "Main"; acct_status := 1;
                      acct_business := None |} ]);
     get_businesses := fun _ =>
       inl (Some [ {| biz_id := "b1"; biz_name := "One"; biz_verification_status := "verified" |};
                   {| biz_id := "b2"; biz_name := "Two"; biz_verification_status := "pending" |} ]);
     get_owned_ad_accounts := fun business _ =>
       if String.eqb business "b1"
       then inl (Some [ {| oa_adspixels := Some {| ap_data := Some [sample_pixel "1" "a"; sample_pixel "2" "b"] |} |};
                        {| oa_adspixels := None |};
                        {| oa_adspixels := Some {| ap_data := Some [sample_pixel "1" "again"] |} |} ])
       else inr timeout_error;
     get_me := fun _ => inl {| mu_id := "u1"; mu_name := "User"; mu_email := "u@example.com" |};
     get_permissions := fun _ =>
       inl [ {| perm_permission := "ads_management"; perm_status := "granted" |};
             {| perm_permission := "email"; perm_status := "declined" |};
             {| perm_permission := "public_profile"; perm_status := "granted" |} ] |}.

(** The same API when the request for the ad accounts fails. *)
Definition failing_api : GraphApi :=
  {| get_adaccounts := fun _ => inr timeout_error;
     get_businesses := get_businesses sample_api;
     get_owned_ad_accounts := get_owned_ad_accounts sample_api;
     get_me := fun _ => inr http_400;
     get_permissions := get_permissions sample_api |}.

(** The pixels found under the businesses of the account, before
    duplicates are removed. *)
Definition found_pixels (api : GraphApi) (accessToken : string) : list MetaPixel :=
  match get_businesses api accessToken with
  | inl b =>
      List.concat (List.map (MetaApiService.business_pixels api accessToken)
                     (MetaApiService.or_empty b))
  | inr _ => []
  end.

(** The owned account lists the pixel: [account.adspixels.data] is there
    and contains it. *)
Definition lists_pixel (account : OwnedAccount) (p : MetaPixel) : Prop :=
  exists adspixels data,
    oa_adspixels account = Some adspixels /\
    ap_data adspixels = Some data /\
    In p data.

(** The pixel is listed by an owned account of one of the businesses whose
    request for owned accounts succeeded. *)
Definition reachable (api : GraphApi) (accessToken : string)
  (businesses : list MetaBusiness) (p : MetaPixel) : Prop :=
  exists business accounts account,
    In business businesses /\
    get_owned_ad_accounts api (biz_id business) accessToken = inl accounts /\
    In account (MetaApiService.or_empty accounts) /\
    lists_pixel account p.

(** ** [ShopifyMarketingService] (the first part of
    [shopify-marketing.server.ts])

    The GraphQL client of the service is an oracle: what
    [this.client.request(document, variables)] resolves to or rejects
    with.  The activity it returns is passed through as it is, so its type
    is left open. *)

Record Money : Type := {
  money_amount : string;
  money_currencyCode : string
}.

Record Budget : Type := {
  budget_budgetType : string;
  budget_total : Money
}.

Record UtmParameters : Type := {
  utm_campaign : string;
  utm_source : string;
  utm_medium : string
}.

Record CreateMarketingActivityInput : Type := {
  in_title : string;
  in_budget : option Budget;
  in_status : option string;
  in_tactic : string;
  in_marketingChannelType : string;
  in_referringDomain : string;
  in_utmParameters : UtmParameters;
  in_start : string;
  in_end : option string;
  in_remoteId : option string;
  in_remoteUrl : option string
}.

(** The [input] object of the variables of the mutation. *)
Record ActivityVariables : Type := {
  var_title : string;
  var_budget : option Budget;
  var_status : string;
  var_tactic : string;
  var_marketingChannelType : string;
  var_referringDomain : string;
  var_utmParameters : UtmParameters;
  var_start : string;
  var_end : option string;
  var_remoteId : option string;
  var_remoteUrl : option string
}.

Record UserError : Type := { ue_message : string }.

(** A rejection of the client: whether the thrown value is an [Error],
    its [message], and [error.response?.errors] with, of each error,
    [extensions?.code]. *)
Record ClientError : Type := {
  ce_is_Error : bool;
  ce_message : string;
  ce_errors : option (list (option string))
}.

Record ScopeCheck : Type := {
  hasScope : bool;
  scope_error : option string
}.

Module ShopifyMarketingService.

Section WithActivity.

Variable Activity : Type.

(** [response.marketingActivityCreateExternal]. *)
Record CreateResponse : Type := {
  cr_marketingActivity : Activity;
  cr_userErrors : list UserError
}.

(** The [variables] of [createMarketingActivity]. *)
Definition variables_of (input : CreateMarketingActivityInput) : ActivityVariables :=
  {| var_title := in_title input;
     var_budget := in_budget input;
     var_status := JsString.opt_or (in_status input) "ACTIVE";
     var_tactic := in_tactic input;
     var_marketingChannelType := in_marketingChannelType input;
     var_referringDomain := in_referringDomain input;
     var_utmParameters := in_utmParameters input;
     var_start := in_start input;
     var_end := in_end input;
     var_remoteId := in_remoteId input;
     var_remoteUrl := in_remoteUrl input |}.

(** [error instanceof Error ? error.message : "Unknown error"] for a
    rejection of the client. *)
Definition message_of (e : ClientError) : string :=
  if ce_is_Error e then ce_message e else "Unknown error".

(** [createMarketingActivity].  The error thrown inside the [try] for
    user errors is caught by the [catch] of the same statement and wrapped
    like any other. *)
Definition createMarketingActivity
  (client : ActivityVariables -> CreateResponse + ClientError)
  (input : CreateMarketingActivityInput) : outcome Activity :=
  let variables := variables_of input in
  let attempt : Activity + string :=
    match client variables with
    | inl response =>
        match cr_userErrors response with
        | [] => inl (cr_marketingActivity response)
        | _ :: _ =>
            inr ("Marketing activity creation failed: "
                 ++ String.concat ", " (List.map ue_message (cr_userErrors response)))
        end
    | inr e => inr (message_of e)
    end in
  match attempt with
  | inl activity => Ok activity
  | inr message => Throw (JsError ("Failed to create marketing activity: " ++ message))
  end.

End WithActivity.

(** [validateMarketingScopes]. *)
Definition validateMarketingScopes (client : unit -> unit + ClientError) : ScopeCheck :=
  match client tt with
  | inl _ => {| hasScope := true; scope_error := None |}
  | inr error =>
      if match ce_errors error with
         | Some errors =>
             List.existsb
               (fun code =>
                  match code with
                  | Some c => String.eqb c "ACCESS_DENIED"
                  | None => false
                  end) errors
         | None => false
         end
      then {| hasScope := false;
              scope_error := Some "Missing write_marketing_events scope. Please reinstall the app with marketing permissions." |}
      else {| hasScope := false; scope_error := Some (ce_message error) |}
  end.

End ShopifyMarketingService.

(** The input of an activity without a status. *)
Definition sample_input : CreateMarketingActivityInput :=
  {| in_title := "Facebook CAPI Integration - Main";
     in_budget := None;
     in_status := None;
     in_tactic := "CONVERSION_TRACKING";
     in_marketingChannelType := "SOCIAL";
     in_referringDomain := "facebook.com";
     in_utmParameters :=
       {| utm_campaign := "capi_px"; utm_source := "facebook";
          utm_medium := "conversions_api" |};
     in_start := "2024-01-01T00:00:00.000Z";
     in_end := None;
     in_remoteId := Some "px";
     in_remoteUrl := None |}.

(** A client that answers every mutation with two user errors, and one
    that is denied access. *)
Definition complaining_client (_ : ActivityVariables)
  : ShopifyMarketingService.CreateResponse string + ClientError :=
  inl {| ShopifyMarketingService.cr_marketingActivity := "gid://shopify/MarketingActivity/1";
         ShopifyMarketingService.cr_userErrors :=
           [ {| ue_message := "Title is too long" |};
             {| ue_message := "Start is invalid" |} ] |}.

Definition denied_client (_ : unit) : unit + ClientError :=
  inr {| ce_is_Error := true; ce_message := "GraphQL Error (Code: 403)";
         ce_errors := Some [None; Some "ACCESS_DENIED"] |}.

(** A string without an underscore. *)
Fixpoint underscore_free (s : string) : bool :=
  match s with
  | EmptyString => true
  | String c r => negb (Ascii.eqb c "_") && underscore_free r
  end.

(** * Properties *)

(** ** The runtime functions on sample inputs *)

Example sha256_abc :
  SHA256.hexdigest "abc"
  = "ba7816bf8f01cfea414140de5dae2223b00361a396177a9cb410ff61f20015ad".
Proof. vm_compute. reflexivity. Qed.

Example sha256_empty :
  SHA256.hexdigest ""
  = "e3b0c44298fc1c149afbf4c8996fb92427ae41e4649b934ca495991b7852b855".
Proof. vm_compute. reflexivity. Qed.

Example sha256_two_blocks :
  SHA256.hexdigest "abcdbcdecdefdefgefghfghighijhijkijkljklmklmnlmnomnopnopq"
  = "248d6a61d20638b8e5c026930c3e6039a33ce45964ff2167f6ecedd419db06c1".
Proof. vm_compute. reflexivity. Qed.

Example of_Z_samples :
  JsString.of_Z 0 = "0" /\ JsString.of_Z 1704067200 = "1704067200" /\ JsString.of_Z (-5) = "-5".
Proof. vm_compute. repeat split. Qed.

Example trim_samples :
  JsString.trim "  A@B.com " = "A@B.com" /\ JsString.trim "   " = "" /\
  JsString.toLowerCase "A@B.com" = "a@b.com".
Proof. vm_compute. repeat split. Qed.

(** Beyond ASCII: letters of two, three and four bytes, the capital I with
    a dot above (U+0130), and the final sigma. *)
Example toLowerCase_samples :
  JsString.toLowerCase "ÉMILE" = "émile" /\
  JsString.toLowerCase "STRAßE" = "straße" /\
  JsString.toLowerCase "ЖИЗНЬ" = "жизнь" /\
  JsString.toLowerCase "Ａ" = "ａ" /\
  JsString.toLowerCase "𐐀" = "𐐨" /\
  JsString.decode (JsString.toLowerCase "İSTANBUL")
  = [0x69; 0x307; 0x73; 0x74; 0x61; 0x6E; 0x62; 0x75; 0x6C] /\
  JsString.toLowerCase "ΣΊΣΥΦΟΣ" = "σίσυφος" /\
  JsString.toLowerCase "ΟΔΟΣ ΣΙΣΥΦΟΥ" = "οδος σισυφου" /\
  JsString.toLowerCase "Σ" = "σ".
Proof. vm_compute. repeat split. Qed.

(** The white space of ECMAScript beyond ASCII: a no-break space
    (U+00A0), a line separator (U+2028), an ideographic space (U+3000)
    and a byte order mark (U+FEFF) go; a zero-width space (U+200B) is no
    white space and stays. *)
Example trim_unicode_samples :
  JsString.trim (JsString.encode [0xA0; 0x2028; 0x5A; 0x6F; 0xEB; 0x3000; 0xFEFF]) = "Zoë" /\
  JsString.decode (JsString.trim (JsString.encode [0x200B; 0x61; 0x20]))
  = [0x200B; 0x61] /\
  JsString.decode "Zoë" = [0x5A; 0x6F; 0xEB] /\
  JsString.encode [0x5A; 0x6F; 0xEB] = "Zoë" /\
  JsNumber.parseFloat (JsString.encode [0xA0; 0x31; 0x32]) = Fin 12.
Proof. vm_compute. repeat split. Qed.

Example parseFloat_samples :
  JsNumber.parseFloat "25.00" = Fin 25 /\
  JsNumber.parseFloat "0" = Fin 0 /\
  JsNumber.parseFloat "abc" = NaN /\
  JsNumber.parseFloat " 10.50 USD" = Fin (21 # 2) /\
  JsNumber.parseFloat "-1.5e2" = Fin (-150) /\
  JsNumber.parseFloat ".5" = Fin (1 # 2) /\
  JsNumber.parseFloat "." = NaN /\
  JsNumber.parseFloat "" = NaN /\
  JsNumber.parseFloat "5e" = Fin 5 /\
  JsNumber.parseFloat "-Infinity" = Infinity true.
Proof. vm_compute. repeat split. Qed.

(** A product is rounded as the engine rounds it: [0.1 * 3] is
    [0.30000000000000004], where [0.1] is the binary64 value
    [3602879701896397 / 2^55]; small integers and halves multiply exactly;
    the product of the largest binary64 value with itself is infinite, and
    the smallest subnormal value times a half is 0 (ties to even). *)
Example mul_samples :
  JsNumber.mul (Fin (3602879701896397 # 36028797018963968)) (JsNumber.of_Z 3)
  = Fin (1351079888211149 # 4503599627370496) /\
  JsNumber.mul (Fin (9 # 2)) (JsNumber.of_Z 2) = JsNumber.of_Z 9 /\
  JsNumber.mul (JsNumber.of_Z 1999) (JsNumber.of_Z 3) = JsNumber.of_Z 5997 /\
  JsNumber.mul (JsNumber.of_Z (-3)) (Fin (1 # 4)) = Fin (-3 # 4) /\
  JsNumber.mul (JsNumber.of_Z 9007199254740993) (JsNumber.of_Z 1)
  = JsNumber.of_Z 9007199254740992 /\
  JsNumber.mul (JsNumber.of_Z (2 ^ 1024 - 2 ^ 971)) (JsNumber.of_Z (2 ^ 1024 - 2 ^ 971))
  = Infinity false /\
  JsNumber.mul (Fin (JsNumber.pow2 (-1074))) (Fin (1 # 2)) = JsNumber.of_Z 0 /\
  JsNumber.mul (Fin (JsNumber.pow2 (-1074))) (Fin (3 # 2)) = Fin (JsNumber.pow2 (-1073)) /\
  JsNumber.mul (JsNumber.of_Z 0) (Infinity false) = NaN.
Proof. vm_compute. repeat split. Qed.

Example Date_parse_samples :
  JsDate.interchange "2024-01-01T00:00:00Z" = Some 1704067200000 /\
  JsDate.interchange "1970-01-01" = Some 0 /\
  JsDate.interchange "2024-03-15T10:30:45-04:00" = Some 1710513045000 /\
  JsDate.interchange "2024-02-29T23:59:59.999Z" = Some 1709251199999 /\
  JsDate.interchange "1969-12-31T23:59:59Z" = Some (-1000) /\
  JsDate.interchange "2024-01-01T24:00:00Z" = Some 1704153600000 /\
  JsDate.interchange "2024-01-01T10:30Z" = Some 1704105000000 /\
  JsDate.interchange "2024" = Some 1704067200000.
Proof. vm_compute. repeat split. Qed.

(** Strings that are left to the engine: a date-time without an offset
    (local time), an offset without a colon, a blank for the [T], the
    format of RFC 2822, a month out of range, and what is no date at
    all. *)
Example Date_parse_engine (engine : string -> option Z) :
  JsDate.parse engine "2024-01-01T00:00:00Z" = JsNumber.of_Z 1704067200000 /\
  JsDate.parse engine "2024-01-01T00:00:00" = JsDate.time_value (engine "2024-01-01T00:00:00") /\
  JsDate.parse engine "2024-01-01T00:00:00+0000"
  = JsDate.time_value (engine "2024-01-01T00:00:00+0000") /\
  JsDate.parse engine "2024-01-01 00:00:00" = JsDate.time_value (engine "2024-01-01 00:00:00") /\
  JsDate.parse engine "Mon, 01 Jan 2024 00:00:00 GMT"
  = JsDate.time_value (engine "Mon, 01 Jan 2024 00:00:00 GMT") /\
  JsDate.parse engine "2024-13-01" = JsDate.time_value (engine "2024-13-01") /\
  JsDate.parse engine "abc" = JsDate.time_value (engine "abc") /\
  JsDate.parse engine "" = JsDate.time_value (engine "").
Proof. repeat split. Qed.

(** ** Running computations *)

Lemma skipn_length_app {A} (l l' : list A) :
  skipn (List.length l) (l ++ l')%list = l'.
Proof. induction l as [|x l IH]; simpl; auto. Qed.

Lemma skipn_length_self {A} (l : list A) : skipn (List.length l) l = [].
Proof. induction l as [|x l IH]; simpl; auto. Qed.

Lemma opt_truthy_cases (code : option string) :
  JsString.opt_truthy code
  = match code with
    | Some EmptyString => None
    | c => c
    end.
Proof. destruct code as [[|c s]|]; reflexivity. Qed.

(** What one call of [sendEvents] does: the request goes out once, and the
    answer of the endpoint decides between the response and the error. *)
Lemma sendEvents_run (this : CAPIService.t) (events : list CAPIEvent) (w : World) :
  CAPIService.sendEvents this events w
  = (match w_endpoint w (request_for this events) with
     | inl resp => Ok resp
     | inr e =>
         Throw (JsError ("CAPI request failed: "
                         ++ JsString.opt_or (error_response_detail (AxiosFailure e))
                                            (ax_message e)))
     end,
     log_request (request_for this events) w).
Proof.
  unfold CAPIService.sendEvents, try_catch, axios_post, request_for, throw.
  destruct (CAPIService.testEventCode this) as [[|c s]|]; simpl;
    match goal with |- context [w_endpoint w ?rq] => destruct (w_endpoint w rq) end;
    reflexivity.
Qed.

Lemma sendEvents_sent (this : CAPIService.t) (events : list CAPIEvent) (w : World) :
  w_sent (snd (CAPIService.sendEvents this events w))
  = (w_sent w ++ [request_for this events])%list.
Proof. rewrite sendEvents_run. reflexivity. Qed.

(** Reading the clock does not touch the endpoint, its log or the table. *)
Lemma tick_frame (w : World) :
  w_sent (tick w) = w_sent w /\ w_endpoint (tick w) = w_endpoint w /\
  w_meta (tick w) = w_meta w /\ w_clock (tick w) = w_clock w.
Proof. repeat split. Qed.

Lemma same_outside_refl w : same_outside w w.
Proof. repeat split. Qed.

Lemma same_outside_trans w1 w2 w3 :
  same_outside w1 w2 -> same_outside w2 w3 -> same_outside w1 w3.
Proof.
  intros (a & b & c) (a' & b' & c'); repeat split; congruence.
Qed.

Lemma quiet_ret {A} (a : A) : quiet (ret a).
Proof. intros w; exists a, w; split; [reflexivity | apply same_outside_refl]. Qed.

Lemma quiet_bind {A B} (c : M A) (k : A -> M B) :
  quiet c -> (forall a, quiet (k a)) -> quiet (bind c k).
Proof.
  intros Hc Hk w. destruct (Hc w) as (a & w1 & E1 & S1).
  destruct (Hk a w1) as (b & w2 & E2 & S2).
  exists b, w2. unfold bind. rewrite E1. split; [exact E2|].
  eapply same_outside_trans; eauto.
Qed.

Lemma quiet_Date_now : quiet Date_now.
Proof. intros w; exists (w_clock w (w_ticks w)), (tick w). repeat split. Qed.

Lemma quiet_Math_random : quiet Math_random_base36.
Proof. intros w; exists (w_random w (w_draws w)), (draw w). repeat split. Qed.

Lemma quiet_Date_getTime s : quiet (Date_getTime s).
Proof. intros w; exists (JsDate.parse (w_date w) s), w. repeat split. Qed.

Ltac quiet_steps :=
  repeat first
    [ apply quiet_ret | apply quiet_Date_now | apply quiet_Math_random
    | apply quiet_Date_getTime | apply quiet_bind; [| intro] ].

Lemma quiet_now_seconds : quiet CAPIService.now_seconds.
Proof. unfold CAPIService.now_seconds. quiet_steps. Qed.

Lemma quiet_created_seconds created_at : quiet (CAPIService.created_seconds created_at).
Proof.
  unfold CAPIService.created_seconds.
  destruct (JsString.opt_truthy created_at); quiet_steps.
Qed.

Lemma quiet_event_id_or eventId fallback :
  quiet fallback -> quiet (CAPIService.event_id_or eventId fallback).
Proof.
  intros H. unfold CAPIService.event_id_or.
  destruct (JsString.opt_truthy eventId); [apply quiet_ret | exact H].
Qed.

Lemma quiet_purchaseEvent order customer eventId clientData :
  quiet (CAPIService.purchaseEvent order customer eventId clientData).
Proof.
  unfold CAPIService.purchaseEvent.
  apply quiet_bind; [apply quiet_created_seconds | intro].
  apply quiet_bind; [apply quiet_event_id_or; quiet_steps | intro].
  apply quiet_ret.
Qed.

Lemma quiet_initiateCheckoutEvent value currency contentIds numItems customer eventId clientData :
  quiet (CAPIService.initiateCheckoutEvent value currency contentIds numItems
           customer eventId clientData).
Proof.
  unfold CAPIService.initiateCheckoutEvent.
  apply quiet_bind; [apply quiet_now_seconds | intro].
  apply quiet_bind; [apply quiet_event_id_or; quiet_steps | intro].
  apply quiet_ret.
Qed.

Lemma quiet_customEvent customer eventId :
  quiet (CustomersCreate.customEvent customer eventId).
Proof.
  unfold CustomersCreate.customEvent.
  destruct (JsString.opt_truthy (cust_created_at customer)); quiet_steps.
Qed.

(** ** The adapters, step by step *)

Lemma truthy_nonempty (s : string) : s <> "" -> JsString.truthy s = true.
Proof. destruct s; [congruence | reflexivity]. Qed.

(** Without a session no adapter does anything. *)
Lemma guarded_no_session {P} (ctx : Webhook P) body w :
  wh_session ctx = None -> guarded ctx body w = (Ok new_Response, w).
Proof. intros H. unfold guarded. rewrite H. reflexivity. Qed.

(** Whatever the body does, the adapter ends with a fresh [Response]. *)
Lemma guarded_acknowledges {P} (ctx : Webhook P) body w :
  (forall session w0 r w1, body session w0 = (Ok (Some r), w1) -> r = new_Response) ->
  result (guarded ctx body) w = Ok new_Response.
Proof.
  intros Hbody. unfold result, guarded.
  destruct (wh_session ctx) as [session|]; [|reflexivity].
  unfold bind, try_catch, ret.
  destruct (body session w) as [[[r|]|e] w1] eqn:E; simpl; auto.
  apply Hbody in E. congruence.
Qed.

(** The orders adapter with a resolved connection and a payload: the event
    is built, one request goes out, and the answer is dropped. *)
Lemma orders_delivery (ctx : Webhook Order) session connection order w :
  wh_session ctx = Some session ->
  w_meta w (session_id session) = inl (Some connection) ->
  meta_pixelId connection <> "" ->
  wh_payload ctx = Some order ->
  exists event w',
    CAPIService.purchaseEvent order (ord_customer order)
      (Some (OrdersCreate.eventId order (w_clock w (w_ticks w))))
      (Some (OrdersCreate.clientData order)) (tick w) = (Ok event, w') /\
    same_outside w w' /\
    OrdersCreate.action ctx w
    = (Ok new_Response,
       log_request
         (request_for (CAPIService.new (meta_pixelId connection)
                         (meta_accessToken connection) None) [event]) w').
Proof.
  intros Hs Hm Hp Ho.
  destruct (quiet_purchaseEvent order (ord_customer order)
              (Some (OrdersCreate.eventId order (w_clock w (w_ticks w))))
              (Some (OrdersCreate.clientData order)) (tick w))
    as (event & w' & E & S).
  exists event, w'. split; [exact E|]. split.
  { eapply same_outside_trans; [|exact S]. repeat split. }
  unfold OrdersCreate.action, guarded. rewrite Hs.
  unfold OrdersCreate.body, bind, try_catch, prisma_meta_findUnique.
  rewrite Hm, (truthy_nonempty _ Hp), Ho. simpl.
  unfold CAPIService.trackPurchase, bind, Date_now.
  rewrite E, sendEvents_run.
  destruct (w_endpoint w' _); reflexivity.
Qed.

Lemma checkouts_delivery (ctx : Webhook Checkout) session connection checkout items w :
  wh_session ctx = Some session ->
  w_meta w (session_id session) = inl (Some connection) ->
  meta_pixelId connection <> "" ->
  CheckoutsCreate.valid_line_items (wh_payload ctx) = Some (checkout, items) ->
  exists event w',
    CAPIService.initiateCheckoutEvent
      (JsNumber.parseFloat (JsString.opt_or (chk_total_price checkout) "0"))
      (JsString.opt_or (chk_currency checkout) "USD")
      (CheckoutsCreate.contentIds items) (CheckoutsCreate.numItems items)
      (chk_customer checkout)
      (Some (CheckoutsCreate.eventId checkout (w_clock w (w_ticks w))))
      (Some (CheckoutsCreate.clientData checkout)) (tick w) = (Ok event, w') /\
    same_outside w w' /\
    CheckoutsCreate.action ctx w
    = (Ok new_Response,
       log_request
         (request_for (CAPIService.new (meta_pixelId connection)
                         (meta_accessToken connection) None) [event]) w').
Proof.
  intros Hs Hm Hp Hv.
  destruct (quiet_initiateCheckoutEvent
              (JsNumber.parseFloat (JsString.opt_or (chk_total_price checkout) "0"))
              (JsString.opt_or (chk_currency checkout) "USD")
              (CheckoutsCreate.contentIds items) (CheckoutsCreate.numItems items)
              (chk_customer checkout)
              (Some (CheckoutsCreate.eventId checkout (w_clock w (w_ticks w))))
              (Some (CheckoutsCreate.clientData checkout)) (tick w))
    as (event & w' & E & S).
  exists event, w'. split; [exact E|]. split.
  { eapply same_outside_trans; [|exact S]. repeat split. }
  unfold CheckoutsCreate.action, guarded. rewrite Hs.
  unfold CheckoutsCreate.body, bind, try_catch, prisma_meta_findUnique.
  rewrite Hm, (truthy_nonempty _ Hp), Hv. simpl.
  unfold CAPIService.trackInitiateCheckout, bind, Date_now.
  rewrite E, sendEvents_run.
  destruct (w_endpoint w' _); reflexivity.
Qed.

Lemma customers_delivery (ctx : Webhook Customer) session connection customer w :
  wh_session ctx = Some session ->
  w_meta w (session_id session) = inl (Some connection) ->
  meta_pixelId connection <> "" ->
  wh_payload ctx = Some customer ->
  exists event w',
    CustomersCreate.customEvent customer
      (CustomersCreate.eventId customer (w_clock w (w_ticks w))) (tick w)
    = (Ok event, w') /\
    same_outside w w' /\
    CustomersCreate.action ctx w
    = (Ok new_Response,
       log_request
         (request_for (CAPIService.new (meta_pixelId connection)
                         (meta_accessToken connection) None) [event]) w').
Proof.
  intros Hs Hm Hp Hc.
  destruct (quiet_customEvent customer
              (CustomersCreate.eventId customer (w_clock w (w_ticks w))) (tick w))
    as (event & w' & E & S).
  exists event, w'. split; [exact E|]. split.
  { eapply same_outside_trans; [|exact S]. repeat split. }
  unfold CustomersCreate.action, guarded. rewrite Hs.
  unfold CustomersCreate.body, bind, try_catch, prisma_meta_findUnique.
  rewrite Hm, (truthy_nonempty _ Hp), Hc. simpl.
  unfold bind, Date_now.
  rewrite E, sendEvents_run.
  destruct (w_endpoint w' _); reflexivity.
Qed.

(** The requests a run leaves in the log, when it issued exactly [rq]
    after steps that did not touch the log. *)
Lemma calls_one {A} (c : M A) w w' a rq :
  same_outside w w' -> c w = (a, log_request rq w') -> calls c w = [rq].
Proof.
  intros (Hsent & _) E. unfold calls, after. rewrite E. simpl.
  rewrite Hsent. apply skipn_length_app.
Qed.

Lemma calls_none {A} (c : M A) w a : c w = (a, w) -> calls c w = [].
Proof.
  intros E. unfold calls, after. rewrite E. simpl. apply skipn_length_self.
Qed.

(** A body only ever returns a fresh [Response]. *)
Lemma orders_body_returns ctx session w r w' :
  OrdersCreate.body ctx session w = (Ok (Some r), w') -> r = new_Response.
Proof.
  unfold OrdersCreate.body, bind, prisma_meta_findUnique, ret.
  destruct (w_meta w (session_id session)) as [[connection|]|msg]; try congruence.
  destruct (negb _); [congruence|].
  destruct (wh_payload ctx) as [order|]; [|congruence].
  unfold Date_now.
  destruct (CAPIService.trackPurchase _ _ _ _ _ _) as [[resp|e] w1]; congruence.
Qed.

Lemma checkouts_body_returns ctx session w r w' :
  CheckoutsCreate.body ctx session w = (Ok (Some r), w') -> r = new_Response.
Proof.
  unfold CheckoutsCreate.body, bind, prisma_meta_findUnique, ret.
  destruct (w_meta w (session_id session)) as [[connection|]|msg]; try congruence.
  destruct (negb _); [congruence|].
  destruct (CheckoutsCreate.valid_line_items _) as [[checkout items]|]; [|congruence].
  unfold Date_now.
  destruct (CAPIService.trackInitiateCheckout _ _ _ _ _ _ _ _ _) as [[resp|e] w1];
    congruence.
Qed.

Lemma customers_body_returns ctx session w r w' :
  CustomersCreate.body ctx session w = (Ok (Some r), w') -> r = new_Response.
Proof.
  unfold CustomersCreate.body, bind, prisma_meta_findUnique, ret.
  destruct (w_meta w (session_id session)) as [[connection|]|msg]; try congruence.
  destruct (negb _); [congruence|].
  destruct (wh_payload ctx) as [customer|]; [|congruence].
  unfold Date_now.
  destruct (CustomersCreate.customEvent _ _ _) as [[event|e] w1]; [|congruence].
  destruct (CAPIService.sendEvents _ _ _) as [[resp|e] w2]; congruence.
Qed.

(** No adapter ever throws: each ends with [new Response()]. *)
Lemma orders_always_acknowledges ctx w :
  result (OrdersCreate.action ctx) w = Ok new_Response.
Proof.
  apply guarded_acknowledges. intros; eapply orders_body_returns; eauto.
Qed.

Lemma checkouts_always_acknowledges ctx w :
  result (CheckoutsCreate.action ctx) w = Ok new_Response.
Proof.
  apply guarded_acknowledges. intros; eapply checkouts_body_returns; eauto.
Qed.

Lemma customers_always_acknowledges ctx w :
  result (CustomersCreate.action ctx) w = Ok new_Response.
Proof.
  apply guarded_acknowledges. intros; eapply customers_body_returns; eauto.
Qed.

(** A missing connection stops a body before anything is built. *)
Lemma unconnected_stops {P} (ctx : Webhook P) (body : Session -> M (option Response)) w :
  unconnected ctx w ->
  (forall session,
      wh_session ctx = Some session ->
      body session w = (Ok (Some new_Response), w)) ->
  guarded ctx body w = (Ok new_Response, w).
Proof.
  intros (session & Hs & _) Hb. unfold guarded. rewrite Hs.
  unfold bind, try_catch. rewrite (Hb session Hs). reflexivity.
Qed.

(** ** C2: failure isolation *)

(** C2.  For a webhook delivery with a resolved connection, when the
    endpoint rejects the submission (an HTTP error status, a timeout, or
    any other rejection of the call), each of the three adapters still ends
    with an empty 200 [Response] and does not throw; when there is a
    payload to report (for a checkout: one with line items), the call was
    indeed made, exactly once, and it is that call which failed. *)
Theorem transport_failure_is_swallowed (w : World) :
  transport_fails w ->
  (forall ctx : Webhook Order,
      resolved ctx w ->
      result (OrdersCreate.action ctx) w = Ok new_Response /\
      (wh_payload ctx <> None ->
       exists rq e, calls (OrdersCreate.action ctx) w = [rq] /\
                    w_endpoint w rq = inr e)) /\
  (forall ctx : Webhook Checkout,
      resolved ctx w ->
      result (CheckoutsCreate.action ctx) w = Ok new_Response /\
      (CheckoutsCreate.valid_line_items (wh_payload ctx) <> None ->
       exists rq e, calls (CheckoutsCreate.action ctx) w = [rq] /\
                    w_endpoint w rq = inr e)) /\
  (forall ctx : Webhook Customer,
      resolved ctx w ->
      result (CustomersCreate.action ctx) w = Ok new_Response /\
      (wh_payload ctx <> None ->
       exists rq e, calls (CustomersCreate.action ctx) w = [rq] /\
                    w_endpoint w rq = inr e)).
Proof.
  intros Hfail.
  split; [|split]; intros ctx (session & connection & Hs & Hm & Hp); split.
  - apply orders_always_acknowledges.
  - intros Hpay.
    destruct (wh_payload ctx) as [order|] eqn:Ho; [|congruence].
    destruct (orders_delivery ctx session connection order w Hs Hm Hp Ho)
      as (event & w' & _ & Hsame & Hrun).
    match type of Hrun with _ = (_, log_request ?rq _) =>
      destruct (Hfail rq) as [e He]; exists rq, e end.
    split; [eapply calls_one; eauto | exact He].
  - apply checkouts_always_acknowledges.
  - intros Hpay.
    destruct (CheckoutsCreate.valid_line_items (wh_payload ctx))
      as [[checkout items]|] eqn:Hv; [|congruence].
    destruct (checkouts_delivery ctx session connection checkout items w Hs Hm Hp Hv)
      as (event & w' & _ & Hsame & Hrun).
    match type of Hrun with _ = (_, log_request ?rq _) =>
      destruct (Hfail rq) as [e He]; exists rq, e end.
    split; [eapply calls_one; eauto | exact He].
  - apply customers_always_acknowledges.
  - intros Hpay.
    destruct (wh_payload ctx) as [customer|] eqn:Hc; [|congruence].
    destruct (customers_delivery ctx session connection customer w Hs Hm Hp Hc)
      as (event & w' & _ & Hsame & Hrun).
    match type of Hrun with _ = (_, log_request ?rq _) =>
      destruct (Hfail rq) as [e He]; exists rq, e end.
    split; [eapply calls_one; eauto | exact He].
Qed.

Lemma sample_world_fails : transport_fails sample_world.
Proof. intros rq. exists http_400. reflexivity. Qed.

Lemma sample_delivery_resolved {P} topic (payload : option P) :
  resolved (delivery topic payload) sample_world.
Proof.
  exists {| session_id := "s1" |}, {| meta_pixelId := "px"; meta_accessToken := "token" |}.
  repeat split. discriminate.
Qed.

(** An order delivery against an endpoint that answers HTTP 400. *)
Lemma transport_failure_is_swallowed_witness :
  transport_fails sample_world /\
  resolved (delivery "orders/create" (Some sample_order)) sample_world /\
  result (OrdersCreate.action (delivery "orders/create" (Some sample_order)))
    sample_world = Ok new_Response.
Proof.
  split; [exact sample_world_fails|].
  split; [apply sample_delivery_resolved|].
  apply (proj1 (transport_failure_is_swallowed sample_world sample_world_fails)).
  apply sample_delivery_resolved.
Defined.

(** ** C8: a missing connection is a no-op *)

(** C8.  When the connection record of a delivery is absent, or its pixel
    id is the empty string, each of the three adapters issues no request
    at all (the world, and with it the log of the endpoint, is left as it
    was) and ends with an empty 200 [Response]. *)
Theorem missing_connection_is_noop (w : World) :
  (forall ctx : Webhook Order,
      unconnected ctx w ->
      OrdersCreate.action ctx w = (Ok new_Response, w) /\
      calls (OrdersCreate.action ctx) w = []) /\
  (forall ctx : Webhook Checkout,
      unconnected ctx w ->
      CheckoutsCreate.action ctx w = (Ok new_Response, w) /\
      calls (CheckoutsCreate.action ctx) w = []) /\
  (forall ctx : Webhook Customer,
      unconnected ctx w ->
      CustomersCreate.action ctx w = (Ok new_Response, w) /\
      calls (CustomersCreate.action ctx) w = []).
Proof.
  assert (Hpair : forall (c : M Response),
             c w = (Ok new_Response, w) ->
             c w = (Ok new_Response, w) /\ calls c w = []).
  { intros c E. split; [exact E | eapply calls_none; eauto]. }
  split; [|split]; intros ctx Hu; apply Hpair;
    (apply unconnected_stops; [exact Hu|]);
    intros session Hs; destruct Hu as (session' & Hs' & Hrow);
    assert (session' = session) by congruence; subst session';
    [ unfold OrdersCreate.body | unfold CheckoutsCreate.body
    | unfold CustomersCreate.body ];
    unfold bind, prisma_meta_findUnique;
    (destruct Hrow as [Hrow | (connection & Hrow & Hpixel)];
     rewrite Hrow; [reflexivity | rewrite Hpixel; reflexivity]).
Qed.

Lemma unconnected_sample {P} topic (payload : option P) :
  unconnected (delivery topic payload) unconnected_world.
Proof.
  exists {| session_id := "s1" |}. split; [reflexivity|].
  right. exists {| meta_pixelId := ""; meta_accessToken := "token" |}.
  split; reflexivity.
Qed.

(** An order delivery for a shop whose connection has an empty pixel id. *)
Lemma missing_connection_is_noop_witness :
  unconnected (delivery "orders/create" (Some sample_order)) unconnected_world /\
  calls (OrdersCreate.action (delivery "orders/create" (Some sample_order)))
    unconnected_world = [].
Proof.
  split; [apply unconnected_sample|].
  apply (proj1 (missing_connection_is_noop unconnected_world)).
  apply unconnected_sample.
Defined.

(** ** C10: a checkout without line items is a no-op *)

(** C10.  For a checkout delivery with a resolved connection whose payload
    is present but has no [line_items] field, or an empty list of them,
    the adapter issues no request (the world is left as it was) and ends
    with an empty 200 [Response]. *)
Theorem checkout_without_line_items_is_noop
  (ctx : Webhook Checkout) (checkout : Checkout) (w : World) :
  resolved ctx w ->
  wh_payload ctx = Some checkout ->
  chk_line_items checkout = None \/ chk_line_items checkout = Some [] ->
  CheckoutsCreate.action ctx w = (Ok new_Response, w) /\
  calls (CheckoutsCreate.action ctx) w = [].
Proof.
  intros (session & connection & Hs & Hm & Hp) Hpay Hitems.
  assert (E : CheckoutsCreate.action ctx w = (Ok new_Response, w)).
  { unfold CheckoutsCreate.action, guarded. rewrite Hs.
    unfold CheckoutsCreate.body, bind, try_catch, prisma_meta_findUnique.
    rewrite Hm, (truthy_nonempty _ Hp), Hpay. simpl.
    destruct Hitems as [Hi|Hi]; rewrite Hi; reflexivity. }
  split; [exact E | eapply calls_none; eauto].
Qed.

Lemma checkout_without_line_items_is_noop_witness :
  calls (CheckoutsCreate.action (delivery "checkouts/create" (Some empty_checkout)))
    accepting_world = [].
Proof.
  apply (checkout_without_line_items_is_noop
           (delivery "checkouts/create" (Some empty_checkout))
           empty_checkout accepting_world).
  - exists {| session_id := "s1" |},
      {| meta_pixelId := "px"; meta_accessToken := "token" |}.
    repeat split. discriminate.
  - reflexivity.
  - right. reflexivity.
Defined.

(** ** The events the builders produce *)

Lemma purchaseEvent_built order customer eventId clientData w :
  exists event w',
    CAPIService.purchaseEvent order customer eventId clientData w = (Ok event, w') /\
    event_name event = "Purchase" /\
    user_data event = CAPIService.userDataFor customer clientData /\
    event_time event
    = CAPIService.whole_seconds
        match JsString.opt_truthy (ord_created_at order) with
        | Some s => JsDate.parse (w_date w) s
        | None => JsNumber.of_Z (w_clock w (w_ticks w))
        end /\
    (forall key, JsString.opt_truthy eventId = Some key -> event_id event = Some key) /\
    custom_data event
    = Some
        {| cd_value := Some (JsNumber.parseFloat
                               (JsString.opt_or (ord_total_price order) "0"));
           cd_currency := Some (JsString.opt_or (ord_currency order) "USD");
           cd_content_type := Some "product";
           cd_content_ids :=
             Some (List.map ct_id (CAPIService.purchase_contents order));
           cd_content_name := None;
           cd_content_category := None;
           cd_num_items :=
             Some (CAPIService.total_quantity (CAPIService.purchase_contents order));
           cd_order_id := Some (JsString.opt_or (Ident.opt_toString (ord_id order))
                                  (JsString.opt_or (ord_name order) ""));
           cd_contents := Some (CAPIService.purchase_contents order) |}.
Proof.
  unfold CAPIService.purchaseEvent, CAPIService.created_seconds,
    CAPIService.event_id_or, bind, ret, Date_now, Date_getTime.
  destruct (JsString.opt_truthy (ord_created_at order));
    destruct (JsString.opt_truthy eventId);
    eexists; eexists; (split; [reflexivity|]); simpl;
    repeat split; intros; congruence.
Qed.

Lemma addToCartEvent_built productId variantId quantity price currency customer
  eventId clientData w :
  exists event w',
    CAPIService.addToCartEvent productId variantId quantity price currency customer
      eventId clientData w = (Ok event, w') /\
    event_name event = "AddToCart" /\
    user_data event = CAPIService.userDataFor customer clientData /\
    event_time event
    = CAPIService.whole_seconds (JsNumber.of_Z (w_clock w (w_ticks w))) /\
    (forall key, JsString.opt_truthy eventId = Some key -> event_id event = Some key) /\
    custom_data event
    = Some
        {| cd_value := Some (JsNumber.mul price quantity);
           cd_currency := Some currency;
           cd_content_type := Some "product";
           cd_content_ids := Some [JsString.or_else variantId productId];
           cd_content_name := None;
           cd_content_category := None;
           cd_num_items := Some quantity;
           cd_order_id := None;
           cd_contents := Some
             [ {| ct_id := JsString.or_else variantId productId;
                  ct_quantity := quantity;
                  ct_item_price := Some price |} ] |}.
Proof.
  unfold CAPIService.addToCartEvent, CAPIService.now_seconds,
    CAPIService.event_id_or, bind, ret, Date_now.
  destruct (JsString.opt_truthy eventId);
    eexists; eexists; (split; [reflexivity|]); simpl;
    repeat split; intros; congruence.
Qed.

Lemma pageViewEvent_built url customer eventId clientData w :
  exists event w',
    CAPIService.pageViewEvent url customer eventId clientData w = (Ok event, w') /\
    event_name event = "PageView" /\
    user_data event = CAPIService.userDataFor customer clientData /\
    event_time event
    = CAPIService.whole_seconds (JsNumber.of_Z (w_clock w (w_ticks w))) /\
    (forall key, JsString.opt_truthy eventId = Some key -> event_id event = Some key) /\
    custom_data event = None.
Proof.
  unfold CAPIService.pageViewEvent, CAPIService.now_seconds,
    CAPIService.event_id_or, bind, ret, Date_now, Math_random_base36.
  destruct (JsString.opt_truthy eventId);
    eexists; eexists; (split; [reflexivity|]); simpl;
    repeat split; intros; congruence.
Qed.

Lemma initiateCheckoutEvent_built value currency contentIds numItems customer
  eventId clientData w :
  exists event w',
    CAPIService.initiateCheckoutEvent value currency contentIds numItems customer
      eventId clientData w = (Ok event, w') /\
    event_name event = "InitiateCheckout" /\
    user_data event = CAPIService.userDataFor customer clientData /\
    event_time event
    = CAPIService.whole_seconds (JsNumber.of_Z (w_clock w (w_ticks w))) /\
    (forall key, JsString.opt_truthy eventId = Some key -> event_id event = Some key) /\
    custom_data event
    = Some
        {| cd_value := Some value;
           cd_currency := Some currency;
           cd_content_type := Some "product";
           cd_content_ids := Some contentIds;
           cd_content_name := None;
           cd_content_category := None;
           cd_num_items := Some numItems;
           cd_order_id := None;
           cd_contents := None |}.
Proof.
  unfold CAPIService.initiateCheckoutEvent, CAPIService.now_seconds,
    CAPIService.event_id_or, bind, ret, Date_now.
  destruct (JsString.opt_truthy eventId);
    eexists; eexists; (split; [reflexivity|]); simpl;
    repeat split; intros; congruence.
Qed.

Lemma viewContentEvent_built productId contentName contentCategory value currency
  customer eventId clientData w :
  exists event w',
    CAPIService.viewContentEvent productId contentName contentCategory value currency
      customer eventId clientData w = (Ok event, w') /\
    event_name event = "ViewContent" /\
    user_data event = CAPIService.userDataFor customer clientData /\
    event_time event
    = CAPIService.whole_seconds (JsNumber.of_Z (w_clock w (w_ticks w))) /\
    (forall key, JsString.opt_truthy eventId = Some key -> event_id event = Some key) /\
    custom_data event
    = Some
        {| cd_value := Some value;
           cd_currency := Some currency;
           cd_content_type := Some "product";
           cd_content_ids := Some [productId];
           cd_content_name := Some contentName;
           cd_content_category := Some contentCategory;
           cd_num_items := None;
           cd_order_id := None;
           cd_contents := None |}.
Proof.
  unfold CAPIService.viewContentEvent, CAPIService.now_seconds,
    CAPIService.event_id_or, bind, ret, Date_now.
  destruct (JsString.opt_truthy eventId);
    eexists; eexists; (split; [reflexivity|]); simpl;
    repeat split; intros; congruence.
Qed.

Lemma customEvent_built customer eventId w :
  exists event w',
    CustomersCreate.customEvent customer eventId w = (Ok event, w') /\
    event_name event = "CompleteRegistration" /\
    event_time event
    = CAPIService.whole_seconds
        match JsString.opt_truthy (cust_created_at customer) with
        | Some s => JsDate.parse (w_date w) s
        | None => JsNumber.of_Z (w_clock w (w_ticks w))
        end /\
    event_id event = Some eventId /\
    ud_em (user_data event) = CustomersCreate.hashed (cust_email customer) /\
    ud_ph (user_data event) = CustomersCreate.hashed (cust_phone customer) /\
    ud_fn (user_data event) = CustomersCreate.hashed (cust_first_name customer) /\
    ud_ln (user_data event) = CustomersCreate.hashed (cust_last_name customer) /\
    ud_ct (user_data event)
    = CustomersCreate.hashed (CustomersCreate.address customer addr_city) /\
    ud_st (user_data event)
    = CustomersCreate.hashed (CustomersCreate.address customer addr_province) /\
    ud_zp (user_data event)
    = CustomersCreate.hashed (CustomersCreate.address customer addr_zip) /\
    ud_country (user_data event)
    = CustomersCreate.hashed (CustomersCreate.address customer addr_country) /\
    ud_external_id (user_data event)
    = match cust_id customer with
      | Some i =>
          if Ident.truthy i then Some [CustomersCreate.hashPII (Ident.toString i)]
          else None
      | None => None
      end.
Proof.
  unfold CustomersCreate.customEvent, bind, ret, Date_now.
  destruct (JsString.opt_truthy (cust_created_at customer));
    eexists; eexists; (split; [reflexivity|]); simpl;
    repeat split.
Qed.

(** A key that starts with a letter is truthy, so that it overrides the
    fallback key of the service. *)
Lemma opt_truthy_some (s : string) : s <> "" -> JsString.opt_truthy (Some s) = Some s.
Proof. destruct s; [congruence | reflexivity]. Qed.

Lemma string_length_append (s t : string) :
  String.length (s ++ t) = (String.length s + String.length t)%nat.
Proof. induction s as [|c s IH]; simpl; auto. Qed.

(** ** C9: the transport contract of [sendEvents] *)

(** The empty string is no tag and no detail.  A service constructed with
    the empty string as its test tag sends no [test_event_code], and an
    error object whose message is the empty string leaves the thrown
    message to the transport error: both are tested for truthiness
    ([this.testEventCode && ...], [... || error.message]). *)
Lemma sendEvents_empty_strings :
  (let this := CAPIService.new "px" "token" (Some "") in
   CAPIService.testEventCode this <> None /\
   exists rq,
     calls (CAPIService.sendEvents this [sample_event]) sample_world = [rq] /\
     pl_test_event_code (rq_payload rq) = None) /\
  (let this := CAPIService.new "px" "token" None in
   error_response_detail (AxiosFailure http_400_blank) = Some "" /\
   result (CAPIService.sendEvents this [sample_event]) blank_world
   = Throw (JsError "CAPI request failed: Request failed with status code 400")).
Proof.
  split.
  - split; [discriminate|]. eexists. split; reflexivity.
  - split; reflexivity.
Qed.



(** ** C6: dedup keys *)

(** C6, as the claim puts it, fails for the purchase key: the key of order
    1001 built at 1700000000000 is [shopify_order_1001_1700000000000], and
    no event-kind suffix makes the five-part composition equal to it. *)
Lemma purchase_key_is_not_five_part :
  OrdersCreate.eventId sample_order 1700000000000
  = "shopify_order_1001_1700000000000" /\
  ~ exists suffix,
      OrdersCreate.eventId sample_order 1700000000000
      = Spec.dedupKey "shopify" "order" "1001" suffix "1700000000000".
Proof.
  assert (E : OrdersCreate.eventId sample_order 1700000000000
              = "shopify_order_1001_1700000000000") by reflexivity.
  split; [exact E|].
  intros [suffix H]. rewrite E in H. apply (f_equal String.length) in H.
  unfold Spec.dedupKey in H.
  repeat rewrite string_length_append in H.
  simpl in H. lia.
Qed.

(** The event a delivery submits carries the key of its adapter. *)
Lemma orders_delivery_key (ctx : Webhook Order) order w :
  resolved ctx w ->
  wh_payload ctx = Some order ->
  exists rq event,
    calls (OrdersCreate.action ctx) w = [rq] /\
    pl_data (rq_payload rq) = [event] /\
    event_id event = Some (OrdersCreate.eventId order (w_clock w (w_ticks w))).
Proof.
  intros (session & connection & Hs & Hm & Hp) Ho.
  destruct (orders_delivery ctx session connection order w Hs Hm Hp Ho)
    as (event & w' & E & Hsame & Hrun).
  destruct (purchaseEvent_built order (ord_customer order)
              (Some (OrdersCreate.eventId order (w_clock w (w_ticks w))))
              (Some (OrdersCreate.clientData order)) (tick w))
    as (event' & w'' & E' & _ & _ & _ & Hid & _).
  rewrite E in E'. inversion E'; subst event' w''.
  eexists; exists event. split; [eapply calls_one; eauto|].
  split; [reflexivity|].
  apply Hid, opt_truthy_some. discriminate.
Qed.

Lemma checkouts_delivery_key (ctx : Webhook Checkout) checkout items w :
  resolved ctx w ->
  CheckoutsCreate.valid_line_items (wh_payload ctx) = Some (checkout, items) ->
  exists rq event,
    calls (CheckoutsCreate.action ctx) w = [rq] /\
    pl_data (rq_payload rq) = [event] /\
    event_id event = Some (CheckoutsCreate.eventId checkout (w_clock w (w_ticks w))).
Proof.
  intros (session & connection & Hs & Hm & Hp) Hv.
  destruct (checkouts_delivery ctx session connection checkout items w Hs Hm Hp Hv)
    as (event & w' & E & Hsame & Hrun).
  destruct (initiateCheckoutEvent_built
              (JsNumber.parseFloat (JsString.opt_or (chk_total_price checkout) "0"))
              (JsString.opt_or (chk_currency checkout) "USD")
              (CheckoutsCreate.contentIds items) (CheckoutsCreate.numItems items)
              (chk_customer checkout)
              (Some (CheckoutsCreate.eventId checkout (w_clock w (w_ticks w))))
              (Some (CheckoutsCreate.clientData checkout)) (tick w))
    as (event' & w'' & E' & _ & _ & _ & Hid & _).
  rewrite E in E'. inversion E'; subst event' w''.
  eexists; exists event. split; [eapply calls_one; eauto|].
  split; [reflexivity|].
  apply Hid, opt_truthy_some. discriminate.
Qed.

Lemma customers_delivery_key (ctx : Webhook Customer) customer w :
  resolved ctx w ->
  wh_payload ctx = Some customer ->
  exists rq event,
    calls (CustomersCreate.action ctx) w = [rq] /\
    pl_data (rq_payload rq) = [event] /\
    event_id event = Some (CustomersCreate.eventId customer (w_clock w (w_ticks w))).
Proof.
  intros (session & connection & Hs & Hm & Hp) Hc.
  destruct (customers_delivery ctx session connection customer w Hs Hm Hp Hc)
    as (event & w' & E & Hsame & Hrun).
  destruct (customEvent_built customer
              (CustomersCreate.eventId customer (w_clock w (w_ticks w))) (tick w))
    as (event' & w'' & E' & _ & _ & Hid & _).
  rewrite E in E'. inversion E'; subst event' w''.
  eexists; exists event. split; [eapply calls_one; eauto|].
  split; [reflexivity | exact Hid].
Qed.

(** C6 (amended).  The registration key is the five-part composition
    [shopify_customer_{id}_signup_{timestamp}]; the purchase and checkout
    keys have four parts, [shopify_order_{id}_{timestamp}] and
    [shopify_checkout_{id}_{timestamp}], with no event-kind suffix; the
    timestamp is the reading of the clock when the key is built; a purchase
    key and a checkout key differ for every pair of ids and timestamps, in
    particular for the same id; and the one event each delivery submits
    carries the key of its adapter as [event_id]. *)
Theorem dedup_key_composition :
  (forall customer now,
      CustomersCreate.eventId customer now
      = Spec.dedupKey "shopify" "customer" (Ident.template (cust_id customer))
          "signup" (JsString.of_Z now)) /\
  (forall order now,
      OrdersCreate.eventId order now
      = entity_key "shopify" "order" (Ident.template (ord_id order))
          (JsString.of_Z now)) /\
  (forall checkout now,
      CheckoutsCreate.eventId checkout now
      = entity_key "shopify" "checkout" (Ident.template (chk_id checkout))
          (JsString.of_Z now)) /\
  (forall order checkout t1 t2,
      OrdersCreate.eventId order t1 <> CheckoutsCreate.eventId checkout t2) /\
  (forall (ctx : Webhook Order) order w,
      resolved ctx w ->
      wh_payload ctx = Some order ->
      exists rq event,
        calls (OrdersCreate.action ctx) w = [rq] /\
        pl_data (rq_payload rq) = [event] /\
        event_id event = Some (OrdersCreate.eventId order (w_clock w (w_ticks w)))) /\
  (forall (ctx : Webhook Checkout) checkout items w,
      resolved ctx w ->
      CheckoutsCreate.valid_line_items (wh_payload ctx) = Some (checkout, items) ->
      exists rq event,
        calls (CheckoutsCreate.action ctx) w = [rq] /\
        pl_data (rq_payload rq) = [event] /\
        event_id event
        = Some (CheckoutsCreate.eventId checkout (w_clock w (w_ticks w)))) /\
  (forall (ctx : Webhook Customer) customer w,
      resolved ctx w ->
      wh_payload ctx = Some customer ->
      exists rq event,
        calls (CustomersCreate.action ctx) w = [rq] /\
        pl_data (rq_payload rq) = [event] /\
        event_id event
        = Some (CustomersCreate.eventId customer (w_clock w (w_ticks w)))).
Proof.
  split; [reflexivity|]. split; [reflexivity|]. split; [reflexivity|].
  split; [intros; discriminate|].
  split; [exact orders_delivery_key|].
  split; [exact checkouts_delivery_key | exact customers_delivery_key].
Qed.

(** The order and the checkout with id 1001, delivered at the same
    millisecond. *)
Lemma dedup_key_composition_witness :
  OrdersCreate.eventId sample_order 1700000000000
  <> CheckoutsCreate.eventId sample_checkout 1700000000000 /\
  exists rq event,
    calls (OrdersCreate.action (delivery "orders/create" (Some sample_order)))
      accepting_world = [rq] /\
    pl_data (rq_payload rq) = [event] /\
    event_id event = Some "shopify_order_1001_1700000000000".
Proof.
  destruct dedup_key_composition as (_ & _ & _ & Hdiff & Horder & _).
  split; [apply Hdiff|].
  apply (Horder (delivery "orders/create" (Some sample_order)) sample_order
           accepting_world).
  - exists {| session_id := "s1" |},
      {| meta_pixelId := "px"; meta_accessToken := "token" |}.
    repeat split. discriminate.
  - reflexivity.
Defined.

(** ** C3: content ids *)

Lemma or_undefined_first_id (x : option ident) (rest : option string) more :
  rest = Spec.first_id more ->
  or_undefined (Ident.opt_toString x) rest = Spec.first_id (x :: more).
Proof.
  intros ->. destruct x as [i|]; simpl; [|reflexivity].
  destruct (Ident.toString i); reflexivity.
Qed.

(** The expression of the checkout adapter computes the first usable id,
    up to the way "none" is represented ([undefined] or the empty string). *)
Lemma checkout_content_id item :
  filter_Boolean [CheckoutsCreate.content_id item]
  = match Spec.content_id item with
    | Some s => [s]
    | None => []
    end.
Proof.
  unfold CheckoutsCreate.content_id, Spec.content_id.
  destruct (li_variant_id item) as [v|], (li_product_id item) as [p|],
    (li_id item) as [i|]; simpl;
    repeat match goal with
           | |- context [Ident.toString ?x] => destruct (Ident.toString x); simpl
           end; reflexivity.
Qed.

Lemma filter_Boolean_cons x xs :
  filter_Boolean (x :: xs) = (filter_Boolean [x] ++ filter_Boolean xs)%list.
Proof. destruct x as [[|c s]|]; reflexivity. Qed.

Lemma checkout_contentIds items :
  CheckoutsCreate.contentIds items = Spec.contentIds items.
Proof.
  unfold CheckoutsCreate.contentIds.
  induction items as [|item items IH]; [reflexivity|].
  simpl List.map. rewrite filter_Boolean_cons, checkout_content_id, IH. simpl.
  destruct (Spec.content_id item); reflexivity.
Qed.

(** The content ids of the event a checkout delivery submits. *)
Lemma checkouts_delivery_data (ctx : Webhook Checkout) checkout items w :
  resolved ctx w ->
  CheckoutsCreate.valid_line_items (wh_payload ctx) = Some (checkout, items) ->
  exists rq event data,
    calls (CheckoutsCreate.action ctx) w = [rq] /\
    pl_data (rq_payload rq) = [event] /\
    custom_data event = Some data /\
    cd_content_ids data = Some (CheckoutsCreate.contentIds items) /\
    cd_num_items data = Some (CheckoutsCreate.numItems items) /\
    cd_value data
    = Some (JsNumber.parseFloat (JsString.opt_or (chk_total_price checkout) "0")) /\
    cd_contents data = None /\
    event_time event
    = CAPIService.whole_seconds (JsNumber.of_Z (w_clock w (S (w_ticks w)))).
Proof.
  intros (session & connection & Hs & Hm & Hp) Hv.
  destruct (checkouts_delivery ctx session connection checkout items w Hs Hm Hp Hv)
    as (event & w' & E & Hsame & Hrun).
  destruct (initiateCheckoutEvent_built
              (JsNumber.parseFloat (JsString.opt_or (chk_total_price checkout) "0"))
              (JsString.opt_or (chk_currency checkout) "USD")
              (CheckoutsCreate.contentIds items) (CheckoutsCreate.numItems items)
              (chk_customer checkout)
              (Some (CheckoutsCreate.eventId checkout (w_clock w (w_ticks w))))
              (Some (CheckoutsCreate.clientData checkout)) (tick w))
    as (event' & w'' & E' & _ & _ & Htime & _ & Hdata).
  rewrite E in E'. inversion E'; subst event' w''.
  eexists; exists event; eexists. split; [eapply calls_one; eauto|].
  split; [reflexivity|]. split; [exact Hdata|].
  repeat split. exact Htime.
Qed.

Lemma purchase_content_listed item :
  ct_id (CAPIService.purchase_content item) = purchase_listed_id item.
Proof.
  unfold CAPIService.purchase_content, purchase_listed_id; simpl.
  destruct (li_product_id item) as [p|], (li_variant_id item) as [v|]; simpl;
    unfold JsString.or_else;
    repeat match goal with
           | |- context [Ident.toString ?x] => destruct (Ident.toString x); simpl
           end; reflexivity.
Qed.

Lemma purchase_contents_listed items :
  List.map ct_id (List.map CAPIService.purchase_content items)
  = List.map purchase_listed_id items.
Proof.
  induction items as [|item items IH]; cbn [List.map]; [reflexivity|].
  rewrite purchase_content_listed, IH. reflexivity.
Qed.

(** Where the two extractions meet: on a line item that has only one of
    the product-level and the variant-level id. *)
Lemma listed_id_agrees item :
  li_product_id item = None \/ li_variant_id item = None ->
  Spec.first_id [li_variant_id item; li_product_id item]
  = Spec.first_id [li_product_id item; li_variant_id item].
Proof.
  intros [Hp | Hv]; [rewrite Hp | rewrite Hv]; simpl;
    [destruct (li_variant_id item) as [v|] | destruct (li_product_id item) as [p|]];
    simpl; try reflexivity;
    match goal with
    | |- context [Ident.toString ?x] => destruct (Ident.toString x); reflexivity
    end.
Qed.

(** C3: the content ids of a purchase do not follow the extraction rule.
    The checkout adapter follows it: the content ids of its event are, in
    the order of the line items, the variant-level id of each item, else
    its product-level id, else its own id, in string form, and an item
    without a usable one is dropped.  [trackPurchase] lists for every line
    item of the order, none dropped, the product-level id first, else the
    variant-level id, else the empty string; the own id of the item is
    never used.  The two agree on a line item that has only one of the
    product-level and the variant-level id, and a usable one, as in the
    order
    [{variant:"V1",qty:2,price:"10.00"}, {variant:"V2",qty:1,price:"5.00"}],
    which yields [["V1","V2"]].  They differ on the order whose one line
    item is [{id:3, product_id:"P1", variant_id:"V1"}]: the purchase lists
    [["P1"]] where the rule, and the checkout adapter on the same line
    item, give [["V1"]]; likewise with numeric ids, on
    [{id:866550311766, product_id:632910392, variant_id:808950810}]; and
    on the line item [{id:3}]: the purchase lists [[""]] where the rule and
    the checkout adapter give [["3"]]. *)
Theorem content_ids_extraction :
  (forall items, CheckoutsCreate.contentIds items = Spec.contentIds items) /\
  (forall (ctx : Webhook Checkout) checkout items w,
      resolved ctx w ->
      CheckoutsCreate.valid_line_items (wh_payload ctx) = Some (checkout, items) ->
      exists rq event data,
        calls (CheckoutsCreate.action ctx) w = [rq] /\
        pl_data (rq_payload rq) = [event] /\
        custom_data event = Some data /\
        cd_content_ids data = Some (Spec.contentIds items)) /\
  (forall order customer eventId clientData w,
      exists event data,
        result (CAPIService.purchaseEvent order customer eventId clientData) w
        = Ok event /\
        custom_data event = Some data /\
        cd_content_ids data
        = Some (List.map purchase_listed_id
                  match ord_line_items order with
                  | Some items => items
                  | None => []
                  end)) /\
  (forall item id,
      li_product_id item = None \/ li_variant_id item = None ->
      Spec.first_id [li_variant_id item; li_product_id item] = Some id ->
      Spec.content_id item = Some id /\ purchase_listed_id item = id) /\
  (exists event data,
      result (CAPIService.purchaseEvent sample_order (ord_customer sample_order)
                None None) sample_world = Ok event /\
      custom_data event = Some data /\
      cd_content_ids data = Some ["V1"; "V2"] /\
      Spec.contentIds [line "V1" 2 "10.00"; line "V2" 1 "5.00"] = ["V1"; "V2"]) /\
  (exists event data,
      result (CAPIService.purchaseEvent (order_of [item_with_both_ids]) None None None)
        sample_world = Ok event /\
      custom_data event = Some data /\
      cd_content_ids data = Some ["P1"] /\
      Spec.contentIds [item_with_both_ids] = ["V1"] /\
      CheckoutsCreate.contentIds [item_with_both_ids] = ["V1"]) /\
  (exists event data,
      result (CAPIService.purchaseEvent (order_of [numbered_item]) None None None)
        sample_world = Ok event /\
      custom_data event = Some data /\
      cd_content_ids data = Some ["632910392"] /\
      Spec.contentIds [numbered_item] = ["808950810"] /\
      CheckoutsCreate.contentIds [numbered_item] = ["808950810"]) /\
  (exists event data,
      result (CAPIService.purchaseEvent (order_of [item_with_own_id]) None None None)
        sample_world = Ok event /\
      custom_data event = Some data /\
      cd_content_ids data = Some [""] /\
      Spec.contentIds [item_with_own_id] = ["3"] /\
      CheckoutsCreate.contentIds [item_with_own_id] = ["3"]).
Proof.
  split; [exact checkout_contentIds|].
  split; [|split; [|split; [|split; [|split; [|split]]]]].
  - intros ctx checkout items w Hr Hv.
    destruct (checkouts_delivery_data ctx checkout items w Hr Hv)
      as (rq & event & data & Hc & Hd & Hcd & Hids & _).
    exists rq, event, data. rewrite <- checkout_contentIds. auto.
  - intros order customer eventId clientData w.
    destruct (purchaseEvent_built order customer eventId clientData w)
      as (event & w' & E & _ & _ & _ & _ & Hdata).
    exists event. eexists. unfold result. rewrite E.
    split; [reflexivity|]. split; [exact Hdata|].
    cbn [cd_content_ids]. f_equal.
    unfold CAPIService.purchase_contents.
    destruct (ord_line_items order) as [items|]; [|reflexivity].
    apply purchase_contents_listed.
  - intros item id Hone Hid. split.
    + revert Hid. unfold Spec.content_id.
      destruct (li_variant_id item) as [v|], (li_product_id item) as [p|]; simpl;
        repeat match goal with
               | |- context [Ident.toString ?x] => destruct (Ident.toString x); simpl
               end;
        intros H; first [discriminate H | exact H].
    + unfold purchase_listed_id. rewrite <- (listed_id_agrees item Hone), Hid.
      reflexivity.
  - eexists; eexists. repeat split.
  - eexists; eexists. repeat split.
  - eexists; eexists. repeat split.
  - eexists; eexists. repeat split.
Qed.

(** The checkout with line items V1 and V2. *)
Lemma content_ids_extraction_witness :
  exists rq event data,
    calls (CheckoutsCreate.action (delivery "checkouts/create" (Some sample_checkout)))
      accepting_world = [rq] /\
    pl_data (rq_payload rq) = [event] /\
    custom_data event = Some data /\
    cd_content_ids data = Some ["V1"; "V2"].
Proof.
  apply (proj1 (proj2 content_ids_extraction)
           (delivery "checkouts/create" (Some sample_checkout)) sample_checkout
           [line "V1" 2 "10.00"; line "V2" 1 "5.00"] accepting_world).
  - exists {| session_id := "s1" |},
      {| meta_pixelId := "px"; meta_accessToken := "token" |}.
    repeat split. discriminate.
  - reflexivity.
Defined.

(** ** Arithmetic on integral numbers *)

Lemma Qred_integer (z : Z) : Qred (z # 1) = z # 1.
Proof.
  unfold Qred.
  generalize (Z.ggcd_gcd z 1) (Z.ggcd_correct_divisors z 1).
  destruct (Z.ggcd z 1) as (g, (a, b)). simpl.
  rewrite Z.gcd_1_r. intros -> [Ha Hb].
  rewrite Z.mul_1_l in Ha, Hb. subst a b. reflexivity.
Qed.

Lemma add_integers (a b : Z) :
  JsNumber.add (JsNumber.of_Z a) (JsNumber.of_Z b) = JsNumber.of_Z (a + b).
Proof.
  unfold JsNumber.add, JsNumber.of_Z. f_equal.
  rewrite <- (Qred_integer (a + b)). apply Qred_complete.
  unfold Qeq, Qplus; simpl. ring.
Qed.


Lemma whole_seconds_NaN : CAPIService.whole_seconds NaN = NaN.
Proof. reflexivity. Qed.

(** ** C4: the value of an order with a malformed price *)

(** C4, as the claim puts it, fails: for the order whose [total_price] is
    ["abc"] the event is built, but its [value] is [NaN], not [0]. *)
Lemma unparsable_price_is_NaN :
  exists event data,
    result (CAPIService.purchaseEvent (order_with (Some "abc") None) None None None)
      sample_world = Ok event /\
    custom_data event = Some data /\
    cd_value data = Some NaN /\
    cd_value data <> Some (JsNumber.of_Z 0).
Proof.
  eexists; eexists. repeat split. discriminate.
Qed.

(** C4 (amended).  The purchase event is always built, and so is the
    event of a checkout delivery.  Its [value] is what [parseFloat] makes
    of [total_price] when that string is present and not empty: [NaN] when
    it does not start with a decimal number (as ["abc"]), which is not the
    number 0.  The [value] is 0 when [total_price] is absent or empty. *)
Theorem price_value :
  (forall order customer eventId clientData w,
      exists event data,
        result (CAPIService.purchaseEvent order customer eventId clientData) w
        = Ok event /\
        custom_data event = Some data /\
        (forall price,
            ord_total_price order = Some price -> price <> "" ->
            cd_value data = Some (JsNumber.parseFloat price)) /\
        (forall price,
            ord_total_price order = Some price -> price <> "" ->
            JsNumber.parseFloat price = NaN ->
            cd_value data = Some NaN) /\
        (ord_total_price order = None \/ ord_total_price order = Some "" ->
         cd_value data = Some (JsNumber.of_Z 0))) /\
  (forall (ctx : Webhook Checkout) checkout items w,
      resolved ctx w ->
      CheckoutsCreate.valid_line_items (wh_payload ctx) = Some (checkout, items) ->
      exists rq event data,
        calls (CheckoutsCreate.action ctx) w = [rq] /\
        pl_data (rq_payload rq) = [event] /\
        custom_data event = Some data /\
        (forall price,
            chk_total_price checkout = Some price -> price <> "" ->
            cd_value data = Some (JsNumber.parseFloat price)) /\
        (forall price,
            chk_total_price checkout = Some price -> price <> "" ->
            JsNumber.parseFloat price = NaN ->
            cd_value data = Some NaN) /\
        (chk_total_price checkout = None \/ chk_total_price checkout = Some "" ->
         cd_value data = Some (JsNumber.of_Z 0))) /\
  JsNumber.parseFloat "abc" = NaN /\
  NaN <> JsNumber.of_Z 0.
Proof.
  assert (Hnonempty : forall total price,
             total = Some price -> price <> "" ->
             JsString.opt_or total "0" = price).
  { intros total price -> Hne. simpl. unfold JsString.or_else.
    rewrite (truthy_nonempty _ Hne). reflexivity. }
  assert (Hempty : forall total,
             total = None \/ total = Some "" ->
             JsNumber.parseFloat (JsString.opt_or total "0") = JsNumber.of_Z 0).
  { intros total [-> | ->]; reflexivity. }
  split; [|split; [|split; [reflexivity | discriminate]]].
  - intros order customer eventId clientData w.
    destruct (purchaseEvent_built order customer eventId clientData w)
      as (event & w' & E & _ & _ & _ & _ & Hdata).
    exists event. eexists. unfold result. rewrite E.
    split; [reflexivity|]. split; [exact Hdata|]. simpl. repeat split.
    + intros price Hp Hne. rewrite (Hnonempty _ _ Hp Hne). reflexivity.
    + intros price Hp Hne Hnan. rewrite (Hnonempty _ _ Hp Hne), Hnan. reflexivity.
    + intros H. rewrite (Hempty _ H). reflexivity.
  - intros ctx checkout items w Hr Hv.
    destruct (checkouts_delivery_data ctx checkout items w Hr Hv)
      as (rq & event & data & Hc & Hd & Hcd & _ & _ & Hval & _).
    exists rq, event, data. rewrite Hval. repeat split; auto.
    + intros price Hp Hne. rewrite (Hnonempty _ _ Hp Hne). reflexivity.
    + intros price Hp Hne Hnan. rewrite (Hnonempty _ _ Hp Hne), Hnan. reflexivity.
    + intros H. rewrite (Hempty _ H). reflexivity.
Qed.

(** The order priced ["abc"]. *)
Lemma price_value_witness :
  exists event data,
    result (CAPIService.purchaseEvent (order_with (Some "abc") None) None None None)
      sample_world = Ok event /\
    custom_data event = Some data /\
    cd_value data = Some NaN.
Proof.
  destruct (proj1 price_value (order_with (Some "abc") None) None None None sample_world)
    as (event & data & Hres & Hdata & _ & Hnan & _).
  exists event, data. split; [exact Hres|]. split; [exact Hdata|].
  apply (Hnan "abc"); [reflexivity | discriminate | reflexivity].
Defined.

(** ** C5: the timestamp of an event *)







(** ** C7: the item count *)

Lemma total_quantity_from (contents : list Content) :
  forall (quantities : list Z) (acc : Z),
    List.map ct_quantity contents = List.map JsNumber.of_Z quantities ->
    List.fold_left (fun sum item => JsNumber.add sum (ct_quantity item))
      contents (JsNumber.of_Z acc)
    = JsNumber.of_Z (acc + Spec.total quantities).
Proof.
  induction contents as [|c contents IH]; intros [|q quantities] acc H;
    simpl in H; try discriminate.
  - simpl. f_equal. lia.
  - inversion H as [[Hq Hrest]]. cbn [List.fold_left Spec.total List.fold_right].
    rewrite Hq, add_integers.
    rewrite (IH quantities (acc + q) Hrest). f_equal. unfold Spec.total. lia.
Qed.

Lemma total_quantity_integers (contents : list Content) (quantities : list Z) :
  List.map ct_quantity contents = List.map JsNumber.of_Z quantities ->
  CAPIService.total_quantity contents = JsNumber.of_Z (Spec.total quantities).
Proof.
  intros H. unfold CAPIService.total_quantity.
  rewrite (total_quantity_from contents quantities 0 H). reflexivity.
Qed.

Lemma total_quantity_sum (contents : list Content) :
  CAPIService.total_quantity contents = Spec.sum (List.map ct_quantity contents).
Proof.
  unfold CAPIService.total_quantity, Spec.sum.
  generalize (JsNumber.of_Z 0).
  induction contents as [|c contents IH]; intros acc; simpl; auto.
Qed.

Lemma opt_or_counted (q : option Z) :
  JsNumber.opt_or (option_map JsNumber.of_Z q) (JsNumber.of_Z 1)
  = JsNumber.of_Z (counted q).
Proof. destruct q as [[|p|p]|]; reflexivity. Qed.

Lemma numItems_from (items : list LineItem) :
  forall (quantities : list (option Z)) (acc : Z),
    List.map li_quantity items = List.map (option_map JsNumber.of_Z) quantities ->
    List.fold_left
      (fun sum item =>
         JsNumber.add sum (JsNumber.opt_or (li_quantity item) (JsNumber.of_Z 1)))
      items (JsNumber.of_Z acc)
    = JsNumber.of_Z (acc + Spec.total (List.map counted quantities)).
Proof.
  induction items as [|item items IH]; intros [|q quantities] acc H;
    simpl in H; try discriminate.
  - simpl. f_equal. lia.
  - inversion H as [[Hq Hrest]].
    cbn [List.fold_left Spec.total List.fold_right List.map].
    rewrite Hq, opt_or_counted, add_integers.
    rewrite (IH quantities (acc + counted q) Hrest). f_equal. unfold Spec.total. lia.
Qed.

Lemma purchase_default_quantity item :
  default_quantity item (CAPIService.purchase_content item).
Proof.
  unfold default_quantity, CAPIService.purchase_content; simpl. split.
  - intros ->. reflexivity.
  - intros q -> Hq. simpl. rewrite Hq. reflexivity.
Qed.

(** C7.  A Purchase event carries both a line-item list and an item
    count, and the count is the sum of the quantities of that list; the
    quantity of a listed item is 1 when the quantity of the upstream line
    item is missing, and the upstream quantity when that is a non-zero
    number.  The same holds for an AddToCart event, whose list has one
    item.  The event of a checkout delivery carries an item count and no
    line-item list; its count is the sum over the upstream line items of
    [quantity || 1].  The order with quantities 2 and 1 has an item count
    of 3. *)
Theorem num_items_is_sum_of_quantities :
  (forall order customer eventId clientData w,
      exists event data contents n,
        result (CAPIService.purchaseEvent order customer eventId clientData) w
        = Ok event /\
        custom_data event = Some data /\
        cd_contents data = Some contents /\
        cd_num_items data = Some n /\
        n = Spec.sum (List.map ct_quantity contents) /\
        (forall quantities,
            List.map ct_quantity contents = List.map JsNumber.of_Z quantities ->
            n = JsNumber.of_Z (Spec.total quantities)) /\
        (forall items,
            ord_line_items order = Some items ->
            Forall2 default_quantity items contents)) /\
  (forall productId variantId quantity price currency customer eventId clientData w,
      exists event data content,
        result (CAPIService.addToCartEvent productId variantId quantity price currency
                  customer eventId clientData) w = Ok event /\
        custom_data event = Some data /\
        cd_contents data = Some [content] /\
        cd_num_items data = Some (ct_quantity content)) /\
  (forall items quantities,
      List.map li_quantity items = List.map (option_map JsNumber.of_Z) quantities ->
      CheckoutsCreate.numItems items
      = JsNumber.of_Z (Spec.total (List.map counted quantities))) /\
  (forall (ctx : Webhook Checkout) checkout items w,
      resolved ctx w ->
      CheckoutsCreate.valid_line_items (wh_payload ctx) = Some (checkout, items) ->
      exists rq event data,
        calls (CheckoutsCreate.action ctx) w = [rq] /\
        pl_data (rq_payload rq) = [event] /\
        custom_data event = Some data /\
        cd_num_items data = Some (CheckoutsCreate.numItems items) /\
        cd_contents data = None) /\
  (exists event data,
      result (CAPIService.purchaseEvent sample_order (ord_customer sample_order)
                None None) sample_world = Ok event /\
      custom_data event = Some data /\
      cd_num_items data = Some (JsNumber.of_Z 3)).
Proof.
  repeat match goal with |- _ /\ _ => split end.
  - intros order customer eventId clientData w.
    destruct (purchaseEvent_built order customer eventId clientData w)
      as (event & w' & E & _ & _ & _ & _ & Hdata).
    exists event. eexists. eexists. eexists. unfold result. rewrite E.
    split; [reflexivity|]. split; [exact Hdata|].
    split; [reflexivity|]. split; [reflexivity|].
    split; [apply total_quantity_sum|]. split.
    + intros quantities H. apply total_quantity_integers, H.
    + intros items Hitems. unfold CAPIService.purchase_contents. rewrite Hitems.
      clear. induction items as [|item items IH]; simpl; constructor; auto.
      apply purchase_default_quantity.
  - intros productId variantId quantity price currency customer eventId clientData w.
    destruct (addToCartEvent_built productId variantId quantity price currency
                customer eventId clientData w)
      as (event & w' & E & _ & _ & _ & _ & Hdata).
    exists event. eexists. eexists. unfold result. rewrite E.
    split; [reflexivity|]. split; [exact Hdata|]. split; reflexivity.
  - intros items quantities H. unfold CheckoutsCreate.numItems.
    rewrite (numItems_from items quantities 0 H). reflexivity.
  - intros ctx checkout items w Hr Hv.
    destruct (checkouts_delivery_data ctx checkout items w Hr Hv)
      as (rq & event & data & Hc & Hd & Hcd & _ & Hn & _ & Hnone & _).
    exists rq, event, data. auto.
  - eexists; eexists. split; [reflexivity|]. split; reflexivity.
Qed.

(** The order with quantities 2 and 1, whose event lists them as they
    are. *)
Lemma num_items_is_sum_of_quantities_witness :
  exists event data contents,
    result (CAPIService.purchaseEvent sample_order None None None) sample_world
    = Ok event /\
    custom_data event = Some data /\
    cd_contents data = Some contents /\
    List.map ct_quantity contents = [JsNumber.of_Z 2; JsNumber.of_Z 1] /\
    cd_num_items data = Some (JsNumber.of_Z 3).
Proof.
  destruct (proj1 num_items_is_sum_of_quantities sample_order None None None sample_world)
    as (event & data & contents & n & Hres & Hdata & Hcontents & Hn & _ & Hsum & _).
  exists event, data, contents.
  assert (Hq : List.map ct_quantity contents = [JsNumber.of_Z 2; JsNumber.of_Z 1]).
  { unfold result in Hres. simpl in Hres. inversion Hres; subst event.
    simpl in Hdata. inversion Hdata; subst data.
    simpl in Hcontents. inversion Hcontents; subst contents. reflexivity. }
  repeat split; auto.
  rewrite Hn. f_equal. apply (Hsum [2; 1]). exact Hq.
Defined.

(** ** C1: identity attributes are hashed *)

Lemma hex_digit_is_hex (k : nat) :
  (k < 16)%nat -> Spec.is_hex_char (SHA256.hex_digit (Z.of_nat k)) = true.
Proof.
  intros H. do 16 (destruct k as [|k]; [reflexivity|]). lia.
Qed.

Lemma nibble_is_hex (x sh : Z) : Spec.is_hex_char (SHA256.nibble x sh) = true.
Proof.
  unfold SHA256.nibble.
  assert (H : 0 <= Z.land (Z.shiftr x sh) 0xf < 16).
  { change 0xf with (Z.ones 4). rewrite Z.land_ones by lia.
    apply Z.mod_pos_bound. reflexivity. }
  rewrite <- (Z2Nat.id (Z.land (Z.shiftr x sh) 0xf)) by lia.
  apply hex_digit_is_hex. lia.
Qed.

(** The digest is 64 characters of [0-9a-f], whatever the message. *)
Lemma hexdigest_shape (s : string) : Spec.is_hex_digest (SHA256.hexdigest s).
Proof.
  unfold SHA256.hexdigest, SHA256.hex_of_regs.
  generalize (SHA256.hash_bytes (SHA256.bytes_of_string s)). intros r.
  unfold Spec.is_hex_digest, SHA256.hex32.
  split; [reflexivity|].
  cbn [list_ascii_of_string].
  repeat (constructor; [apply nibble_is_hex|]). constructor.
Qed.

(** A value that is not itself such a digest is never sent as it is. *)
Lemma digest_is_not_plaintext (raw : string) :
  ~ Spec.is_hex_digest raw -> Spec.digest raw <> raw.
Proof.
  intros H E. apply H. rewrite <- E. apply hexdigest_shape.
Qed.

Lemma identity_is_digest (raw : option string) (values : list string) :
  Spec.identity raw = Some values ->
  exists d, values = [d] /\ Spec.is_hex_digest d.
Proof.
  destruct raw as [[|c s]|]; simpl; try discriminate.
  intros H. inversion H. eexists. split; [reflexivity|]. apply hexdigest_shape.
Qed.

Lemma identity_list_digests (raws : list (option string)) :
  Forall (fun field =>
            forall values, field = Some values ->
                           exists d, values = [d] /\ Spec.is_hex_digest d)
         (List.map Spec.identity raws).
Proof.
  induction raws as [|raw raws IH]; simpl; constructor; auto.
  intros values. apply identity_is_digest.
Qed.

(** *** Trimming: the engine's and the design document's *)

Lemma dropStart_without_leading (l : list Z) :
  JsString.dropStart l = Spec.without_leading l.
Proof.
  induction l as [|c l IH]; simpl; [reflexivity|].
  destruct (Unicode.white_space c); [exact IH | reflexivity].
Qed.

Lemma dropEnd_snoc (l : list Z) (c : Z) :
  JsString.dropEnd (l ++ [c])
  = if Unicode.white_space c then JsString.dropEnd l else (l ++ [c])%list.
Proof.
  induction l as [|d l IH]; simpl.
  - destruct (Unicode.white_space c); reflexivity.
  - rewrite IH. destruct (Unicode.white_space c) eqn:Ec; [reflexivity|].
    destruct (l ++ [c])%list eqn:E; [|reflexivity].
    destruct l; discriminate E.
Qed.

Lemma dropEnd_rev (l : list Z) :
  JsString.dropEnd l = List.rev (Spec.without_leading (List.rev l)).
Proof.
  induction l as [|c l IH] using rev_ind; [reflexivity|].
  rewrite dropEnd_snoc, rev_app_distr. simpl.
  destruct (Unicode.white_space c); [exact IH|].
  simpl. rewrite rev_involutive. reflexivity.
Qed.

Lemma trim_strip (l : list Z) :
  JsString.dropEnd (JsString.dropStart l) = Spec.strip l.
Proof.
  rewrite dropStart_without_leading. apply dropEnd_rev.
Qed.

(** [hashPII], of the service and of the customer adapter, is the
    normalizer of the design document. *)
Lemma hashPII_digest (s : string) : CAPIService.hashPII s = Spec.digest s.
Proof.
  unfold CAPIService.hashPII, Spec.digest, Spec.trimmed, Spec.lower_case,
    JsString.trim, JsString.toLowerCase.
  rewrite trim_strip. reflexivity.
Qed.

Lemma customers_hashPII_digest (s : string) : CustomersCreate.hashPII s = Spec.digest s.
Proof.
  unfold CustomersCreate.hashPII, Spec.digest, Spec.trimmed, Spec.lower_case,
    JsString.trim, JsString.toLowerCase.
  rewrite trim_strip. reflexivity.
Qed.

Lemma without_leading_white (p x : list Z) :
  white p ->
  (forall c rest, x = c :: rest -> Unicode.white_space c = false) ->
  Spec.without_leading (p ++ x) = x.
Proof.
  intros Hp Hx. induction Hp as [|c p Hc Hp IH]; simpl.
  - destruct x as [|c rest]; [reflexivity|].
    simpl. rewrite (Hx c rest eq_refl). reflexivity.
  - rewrite Hc. exact IH.
Qed.

Lemma white_rev (l : list Z) : white l -> white (List.rev l).
Proof. unfold white. apply Forall_rev. Qed.

Lemma without_leading_split (l : list Z) :
  exists p, l = (p ++ Spec.without_leading l)%list /\ white p.
Proof.
  induction l as [|c l (p & E & Hp)]; simpl.
  - exists []. split; [reflexivity | constructor].
  - destruct (Unicode.white_space c) eqn:Ec.
    + exists (c :: p). split; [simpl; f_equal; exact E|].
      constructor; assumption.
    + exists []. split; [reflexivity | constructor].
Qed.

Lemma without_leading_head (l : list Z) c rest :
  Spec.without_leading l = c :: rest -> Unicode.white_space c = false.
Proof.
  induction l as [|d l IH]; simpl; [discriminate|].
  destruct (Unicode.white_space d) eqn:Ed; [exact IH|].
  intros E. inversion E; subst. exact Ed.
Qed.

Lemma without_leading_last (l : list Z) rest c :
  (forall r d, l = (r ++ [d])%list -> Unicode.white_space d = false) ->
  Spec.without_leading l = (rest ++ [c])%list -> Unicode.white_space c = false.
Proof.
  intros Hl E. destruct (without_leading_split l) as (p & El & _).
  apply (Hl (p ++ rest)%list c). rewrite E in El. rewrite El.
  apply app_assoc.
Qed.

(** The two say the same of every text: [strip] gives the text less the
    white space at its two ends, and nothing else is that. *)
Lemma strip_stripped (l : list Z) : stripped l (Spec.strip l).
Proof.
  unfold Spec.strip.
  destruct (without_leading_split l) as (p & El & Hp).
  destruct (without_leading_split (List.rev (Spec.without_leading l)))
    as (q & Er & Hq).
  set (m := Spec.without_leading (List.rev (Spec.without_leading l))) in *.
  assert (Em : Spec.without_leading l = (List.rev m ++ List.rev q)%list).
  { rewrite <- rev_app_distr, <- Er. symmetry. apply rev_involutive. }
  exists p, (List.rev q). split; [rewrite <- Em; exact El|].
  split; [exact Hp|]. split; [apply white_rev; exact Hq|]. split.
  - intros c rest E.
    destruct m as [|d m] using rev_ind.
    + discriminate E.
    + rewrite rev_app_distr in E. simpl in E. inversion E; subst c.
      rewrite rev_app_distr in Em. simpl in Em.
      apply (without_leading_head l d _ Em).
  - intros rest c E.
    assert (E' : m = c :: List.rev rest).
    { rewrite <- (rev_involutive m), E, rev_app_distr. reflexivity. }
    apply (without_leading_head (List.rev (Spec.without_leading l)) c _ E').
Qed.

Lemma without_leading_all_white (l : list Z) :
  white l -> Spec.without_leading l = [].
Proof.
  intros H. induction H as [|c l Hc Hl IH]; simpl; [reflexivity|].
  rewrite Hc. exact IH.
Qed.

Lemma stripped_strip (l n : list Z) : stripped l n -> n = Spec.strip l.
Proof.
  intros (p & q & -> & Hp & Hq & Hhead & Hlast). unfold Spec.strip.
  destruct n as [|d n].
  - rewrite (without_leading_all_white (p ++ [] ++ q)); [reflexivity|].
    apply Forall_app. split; assumption.
  - rewrite (without_leading_white p ((d :: n) ++ q)); [|exact Hp|].
    + rewrite rev_app_distr.
      rewrite (without_leading_white (List.rev q) (List.rev (d :: n))).
      * symmetry. apply rev_involutive.
      * apply white_rev. exact Hq.
      * intros c rest E. apply (Hlast (List.rev rest) c).
        rewrite <- (rev_involutive (d :: n)), E. reflexivity.
    + intros c rest E. simpl in E. inversion E; subst.
      apply (Hhead c n eq_refl).
Qed.

Lemma of_Z_nonempty (n : Z) : JsString.of_Z n <> "".
Proof.
  unfold JsString.of_Z, NilZero.string_of_int.
  destruct (Z.to_int n) as [d|d]; [|discriminate].
  unfold NilZero.string_of_uint. destruct d; discriminate.
Qed.

Lemma identity_id_text (x : option ident) :
  match x with
  | Some i => if Ident.truthy i then Some [Spec.digest (Ident.toString i)] else None
  | None => None
  end
  = Spec.identity (id_text x).
Proof.
  destruct x as [[n|s]|]; simpl; [| |reflexivity].
  - destruct (n =? 0); simpl; [reflexivity|].
    pose proof (of_Z_nonempty n) as H.
    destruct (JsString.of_Z n); [congruence | reflexivity].
  - destruct s; reflexivity.
Qed.

Section Frames.

Variable A : Type.
Variable proj : UserData -> A.

(** An assignment to another field does not change this one. *)
Lemma when_string_frame x assign u :
  (forall s u', proj (assign s u') = proj u') ->
  proj (CAPIService.when_string x assign u) = proj u.
Proof.
  intros H. unfold CAPIService.when_string.
  destruct x as [s|]; [|reflexivity].
  destruct (JsString.truthy s); [apply H | reflexivity].
Qed.

Lemma when_ident_frame x assign u :
  (forall i u', proj (assign i u') = proj u') ->
  proj (CAPIService.when_ident x assign u) = proj u.
Proof.
  intros H. unfold CAPIService.when_ident.
  destruct x as [i|]; [|reflexivity].
  destruct (Ident.truthy i); [apply H | reflexivity].
Qed.

End Frames.

Section Hits.

Variable proj : UserData -> option (list string).

(** The assignment to this field, when the value is there. *)
Lemma when_string_hit x assign u :
  (forall s u', proj (assign s u') = Some [CAPIService.hashPII s]) ->
  proj u = None ->
  proj (CAPIService.when_string x assign u) = Spec.identity x.
Proof.
  intros H Hu. unfold CAPIService.when_string.
  destruct x as [[|c s]|]; [exact Hu | | exact Hu].
  simpl. rewrite H, hashPII_digest. reflexivity.
Qed.

Lemma when_ident_hit x assign u :
  (forall i u', proj (assign i u')
                = Some [CAPIService.hashPII (Ident.toString i)]) ->
  proj u = None ->
  proj (CAPIService.when_ident x assign u) = Spec.identity (id_text x).
Proof.
  intros H Hu. rewrite <- (identity_id_text x).
  unfold CAPIService.when_ident.
  destruct x as [i|]; [|exact Hu].
  destruct (Ident.truthy i); [|exact Hu].
  rewrite H, hashPII_digest. reflexivity.
Qed.

End Hits.

Ltac frames proj :=
  repeat first
    [ rewrite (when_string_frame _ proj) by (intros; reflexivity)
    | rewrite (when_ident_frame _ proj) by (intros; reflexivity) ].

Ltac field_of proj :=
  unfold CAPIService.createUserData; cbv zeta;
  frames proj;
  first [ rewrite (when_string_hit proj) | rewrite (when_ident_hit proj) ];
  [ reflexivity | intros; reflexivity | frames proj; reflexivity ].

Section CreateUserData.

Variable customer : option Customer.
Variables clientIp userAgent fbc fbp : option string.

Let u := CAPIService.createUserData customer clientIp userAgent fbc fbp.

Lemma createUserData_em :
  ud_em u = Spec.identity (CAPIService.field customer cust_email).
Proof. subst u. field_of ud_em. Qed.

Lemma createUserData_ph :
  ud_ph u = Spec.identity (CAPIService.field customer cust_phone).
Proof. subst u. field_of ud_ph. Qed.

Lemma createUserData_fn :
  ud_fn u = Spec.identity (CAPIService.field customer cust_first_name).
Proof. subst u. field_of ud_fn. Qed.

Lemma createUserData_ln :
  ud_ln u = Spec.identity (CAPIService.field customer cust_last_name).
Proof. subst u. field_of ud_ln. Qed.

Lemma createUserData_ct :
  ud_ct u = Spec.identity (CAPIService.address_field customer addr_city).
Proof. subst u. field_of ud_ct. Qed.

Lemma createUserData_st :
  ud_st u = Spec.identity (CAPIService.address_field customer addr_province).
Proof. subst u. field_of ud_st. Qed.

Lemma createUserData_zp :
  ud_zp u = Spec.identity (CAPIService.address_field customer addr_zip).
Proof. subst u. field_of ud_zp. Qed.

Lemma createUserData_country :
  ud_country u = Spec.identity (CAPIService.address_field customer addr_country).
Proof. subst u. field_of ud_country. Qed.

Lemma createUserData_external_id :
  ud_external_id u = Spec.identity (id_text (CAPIService.field customer cust_id)).
Proof. subst u. field_of ud_external_id. Qed.

(** The client context is passed through as it is. *)
Lemma createUserData_client :
  ud_client_ip_address u = JsString.opt_truthy clientIp /\
  ud_client_user_agent u = JsString.opt_truthy userAgent /\
  ud_fbc u = JsString.opt_truthy fbc /\
  ud_fbp u = JsString.opt_truthy fbp.
Proof.
  subst u. unfold CAPIService.createUserData; cbv zeta.
  repeat split.
  - frames ud_client_ip_address.
    unfold CAPIService.when_string at 1. destruct clientIp as [[|c s]|]; simpl;
      frames ud_client_ip_address; reflexivity.
  - frames ud_client_user_agent.
    unfold CAPIService.when_string at 1. destruct userAgent as [[|c s]|]; simpl;
      frames ud_client_user_agent; reflexivity.
  - frames ud_fbc.
    unfold CAPIService.when_string at 1. destruct fbc as [[|c s]|]; simpl;
      frames ud_fbc; reflexivity.
  - unfold CAPIService.when_string at 1. destruct fbp as [[|c s]|]; simpl;
      frames ud_fbp; reflexivity.
Qed.

Lemma createUserData_identity : identity_hashed customer u.
Proof.
  assert (H : identity_fields u = List.map Spec.identity (upstream_identity customer)).
  { unfold identity_fields.
    rewrite createUserData_em, createUserData_ph, createUserData_fn,
      createUserData_ln, createUserData_ct, createUserData_st, createUserData_zp,
      createUserData_country, createUserData_external_id.
    unfold upstream_identity, CAPIService.address_field, CAPIService.field.
    destruct customer as [c|]; [|reflexivity].
    destruct (cust_default_address c); reflexivity. }
  split; [exact H|]. rewrite H. apply identity_list_digests.
Qed.

End CreateUserData.

Lemma customers_hashed (x : option string) : CustomersCreate.hashed x = Spec.identity x.
Proof.
  destruct x as [[|c s]|]; try reflexivity.
  simpl. rewrite customers_hashPII_digest. reflexivity.
Qed.

Lemma customEvent_identity customer eventId w :
  exists event,
    result (CustomersCreate.customEvent customer eventId) w = Ok event /\
    identity_hashed (Some customer) (user_data event).
Proof.
  destruct (customEvent_built customer eventId w)
    as (event & w' & E & _ & _ & _ & Hem & Hph & Hfn & Hln & Hct & Hst & Hzp
        & Hcountry & Hid).
  exists event. unfold result. rewrite E. split; [reflexivity|].
  assert (H : identity_fields (user_data event)
              = List.map Spec.identity (upstream_identity (Some customer))).
  { unfold identity_fields.
    rewrite Hem, Hph, Hfn, Hln, Hct, Hst, Hzp, Hcountry, Hid.
    rewrite !customers_hashed.
    replace (match cust_id customer with
             | Some i =>
                 if Ident.truthy i
                 then Some [CustomersCreate.hashPII (Ident.toString i)]
                 else None
             | None => None
             end)
      with (Spec.identity (id_text (cust_id customer)))
      by (rewrite <- identity_id_text; destruct (cust_id customer) as [i|];
          [destruct (Ident.truthy i); [rewrite customers_hashPII_digest|] |];
          reflexivity).
    unfold upstream_identity, CustomersCreate.address.
    destruct (cust_default_address customer); reflexivity. }
  split; [exact H|]. rewrite H. apply identity_list_digests.
Qed.

(** C1.  In the event of each of [trackPurchase], [trackInitiateCheckout],
    [trackAddToCart], [trackPageView] and [trackViewContent], and in the
    CompleteRegistration event of the customer adapter, each of em, ph,
    fn, ln, ct, st, zp, country and external_id is omitted when its
    upstream value is absent or empty, and is otherwise the one-element
    list of the SHA-256 hex digest of the lower-cased, trimmed upstream
    value; whatever is present is a 64-character hexadecimal digest, and a
    value that is not itself one is never sent as it is.  Every one of
    these events is built.  The trimmed text is the text less the white
    space at its two ends, and nothing else: it lies between two
    stretches of white space and neither begins nor ends with white space.
    The digest is that of SHA-256 on the vectors of FIPS 180-4; the
    e-mail address ["A@B.com"] is digested as ["a@b.com"], the first name
    ["ÉMILE"] as ["émile"], and ["Zoë"] between a no-break space and an
    ideographic space as ["zoë"].  The customer with e-mail ["A@B.com"]
    yields the digest of ["a@b.com"]. *)
Theorem identity_attributes_are_hashed :
  (forall order customer eventId clientData w,
      exists event,
        result (CAPIService.purchaseEvent order customer eventId clientData) w
        = Ok event /\
        identity_hashed customer (user_data event)) /\
  (forall value currency contentIds numItems customer eventId clientData w,
      exists event,
        result (CAPIService.initiateCheckoutEvent value currency contentIds numItems
                  customer eventId clientData) w = Ok event /\
        identity_hashed customer (user_data event)) /\
  (forall productId variantId quantity price currency customer eventId clientData w,
      exists event,
        result (CAPIService.addToCartEvent productId variantId quantity price currency
                  customer eventId clientData) w = Ok event /\
        identity_hashed customer (user_data event)) /\
  (forall url customer eventId clientData w,
      exists event,
        result (CAPIService.pageViewEvent url customer eventId clientData) w = Ok event /\
        identity_hashed customer (user_data event)) /\
  (forall productId contentName contentCategory value currency customer eventId
          clientData w,
      exists event,
        result (CAPIService.viewContentEvent productId contentName contentCategory
                  value currency customer eventId clientData) w = Ok event /\
        identity_hashed customer (user_data event)) /\
  (forall customer eventId w,
      exists event,
        result (CustomersCreate.customEvent customer eventId) w = Ok event /\
        identity_hashed (Some customer) (user_data event)) /\
  (forall raw, ~ Spec.is_hex_digest raw -> Spec.digest raw <> raw) /\
  (forall raw,
      CAPIService.hashPII raw = Spec.digest raw /\
      CustomersCreate.hashPII raw = Spec.digest raw) /\
  (forall l n, stripped l n <-> n = Spec.strip l) /\
  (SHA256.hexdigest "abc"
   = "ba7816bf8f01cfea414140de5dae2223b00361a396177a9cb410ff61f20015ad" /\
   SHA256.hexdigest ""
   = "e3b0c44298fc1c149afbf4c8996fb92427ae41e4649b934ca495991b7852b855" /\
   SHA256.hexdigest "abcdbcdecdefdefgefghfghighijhijkijkljklmklmnlmnomnopnopq"
   = "248d6a61d20638b8e5c026930c3e6039a33ce45964ff2167f6ecedd419db06c1") /\
  (Spec.digest " A@B.com  " = SHA256.hexdigest "a@b.com" /\
   SHA256.hexdigest "a@b.com"
   = "fb98d44ad7501a959f3f4f4a3f004fe2d9e581ea6207e218c4b02c08a4d75adf" /\
   Spec.digest "ÉMILE" = SHA256.hexdigest "émile" /\
   SHA256.hexdigest "émile"
   = "a56b363ca23dd9db9bd117840f28aab076b474f8cbea85416f715281dc809d56" /\
   Spec.digest (JsString.encode [0xA0; 0x5A; 0x6F; 0xEB; 0x3000])
   = SHA256.hexdigest "zoë" /\
   SHA256.hexdigest "zoë"
   = "2752b88686847fa5c86f47b94ce652b7b3f22a91c37617d451a4db9afa431450") /\
  (exists event,
      result (CustomersCreate.customEvent sample_customer
                (CustomersCreate.eventId sample_customer 1700000000000))
        sample_world = Ok event /\
      ud_em (user_data event)
      = Some ["fb98d44ad7501a959f3f4f4a3f004fe2d9e581ea6207e218c4b02c08a4d75adf"]).
Proof.
  repeat match goal with |- _ /\ _ => split end.
  - intros order customer eventId clientData w.
    destruct (purchaseEvent_built order customer eventId clientData w)
      as (event & w' & E & _ & Hu & _).
    exists event. unfold result. rewrite E. split; [reflexivity|].
    rewrite Hu. apply createUserData_identity.
  - intros value currency contentIds numItems customer eventId clientData w.
    destruct (initiateCheckoutEvent_built value currency contentIds numItems
                customer eventId clientData w)
      as (event & w' & E & _ & Hu & _).
    exists event. unfold result. rewrite E. split; [reflexivity|].
    rewrite Hu. apply createUserData_identity.
  - intros productId variantId quantity price currency customer eventId clientData w.
    destruct (addToCartEvent_built productId variantId quantity price currency
                customer eventId clientData w)
      as (event & w' & E & _ & Hu & _).
    exists event. unfold result. rewrite E. split; [reflexivity|].
    rewrite Hu. apply createUserData_identity.
  - intros url customer eventId clientData w.
    destruct (pageViewEvent_built url customer eventId clientData w)
      as (event & w' & E & _ & Hu & _).
    exists event. unfold result. rewrite E. split; [reflexivity|].
    rewrite Hu. apply createUserData_identity.
  - intros productId contentName contentCategory value currency customer eventId
      clientData w.
    destruct (viewContentEvent_built productId contentName contentCategory value
                currency customer eventId clientData w)
      as (event & w' & E & _ & Hu & _).
    exists event. unfold result. rewrite E. split; [reflexivity|].
    rewrite Hu. apply createUserData_identity.
  - apply customEvent_identity.
  - apply digest_is_not_plaintext.
  - intros raw. split; [apply hashPII_digest | apply customers_hashPII_digest].
  - intros l n. split; [apply stripped_strip | intros ->; apply strip_stripped].
  - vm_compute. reflexivity.
  - vm_compute. reflexivity.
  - vm_compute. reflexivity.
  - vm_compute. reflexivity.
  - vm_compute. reflexivity.
  - vm_compute. reflexivity.
  - vm_compute. reflexivity.
  - vm_compute. reflexivity.
  - vm_compute. reflexivity.
  - eexists. split; [reflexivity|]. vm_compute. reflexivity.
Qed.

(** The purchase of the customer with e-mail ["A@B.com"] and id 42, who
    has neither a phone number nor a name; and that e-mail address is not
    sent as it is. *)
Lemma identity_attributes_are_hashed_witness :
  (exists event,
      result (CAPIService.purchaseEvent sample_order (Some sample_customer) None None)
        sample_world = Ok event /\
      identity_fields (user_data event)
      = [Some ["fb98d44ad7501a959f3f4f4a3f004fe2d9e581ea6207e218c4b02c08a4d75adf"];
         None; None; None; None; None; None; None;
         Some ["73475cb40a568e8da8a045ced110137e159f890ac4da883b6b17dc651b3a8049"]]) /\
  ~ Spec.is_hex_digest "A@B.com" /\
  CAPIService.hashPII "A@B.com" <> "A@B.com".
Proof.
  destruct identity_attributes_are_hashed
    as (Hpurchase & _ & _ & _ & _ & _ & Hplain & Hsame & _).
  split.
  - destruct (Hpurchase sample_order (Some sample_customer) None None sample_world)
      as (event & Hres & Hfields & _).
    exists event. split; [exact Hres|].
    rewrite Hfields. vm_compute. reflexivity.
  - assert (H : ~ Spec.is_hex_digest "A@B.com").
    { intros [Hlen _]. discriminate Hlen. }
    split; [exact H|].
    rewrite (proj1 (Hsame "A@B.com")). apply Hplain, H.
Defined.

(** * Further properties *)

(** ** [hashPII]: what the normalisation forgets *)

Ltac each_ascii c :=
  destruct c as [b0 b1 b2 b3 b4 b5 b6 b7];
  destruct b0, b1, b2, b3, b4, b5, b6, b7; reflexivity.

Lemma lower_char_idempotent c :
  AsciiText.lower_char (AsciiText.lower_char c) = AsciiText.lower_char c.
Proof. each_ascii c. Qed.

Lemma is_space_lower_char c :
  AsciiText.is_space (AsciiText.lower_char c) = AsciiText.is_space c.
Proof. each_ascii c. Qed.

Lemma lower_idempotent s :
  AsciiText.lower (AsciiText.lower s) = AsciiText.lower s.
Proof.
  induction s as [|c s IH]; simpl; [reflexivity|].
  rewrite lower_char_idempotent, IH. reflexivity.
Qed.

Lemma lower_append s t :
  AsciiText.lower (s ++ t) = AsciiText.lower s ++ AsciiText.lower t.
Proof. induction s as [|c s IH]; simpl; [reflexivity | rewrite IH; reflexivity]. Qed.

Lemma blank_lower s : blank (AsciiText.lower s) = blank s.
Proof.
  induction s as [|c s IH]; simpl; [reflexivity|].
  rewrite is_space_lower_char, IH. reflexivity.
Qed.

Lemma trimStart_blank s : blank s = true -> AsciiText.trimStart s = "".
Proof.
  induction s as [|c s IH]; simpl; [reflexivity|].
  destruct (AsciiText.is_space c); simpl; [exact IH | discriminate].
Qed.

Lemma trimEnd_blank s : blank s = true -> AsciiText.trimEnd s = "".
Proof.
  induction s as [|c s IH]; simpl; [reflexivity|].
  destruct (AsciiText.is_space c) eqn:E; simpl; [|discriminate].
  intros H. rewrite (IH H). reflexivity.
Qed.

Lemma trimStart_blank_append p s :
  blank p = true -> AsciiText.trimStart (p ++ s) = AsciiText.trimStart s.
Proof.
  induction p as [|c p IH]; simpl; [reflexivity|].
  destruct (AsciiText.is_space c); simpl; [exact IH | discriminate].
Qed.

Lemma trimEnd_append_blank s p :
  blank p = true -> AsciiText.trimEnd (s ++ p) = AsciiText.trimEnd s.
Proof.
  intros Hp. induction s as [|c s IH]; simpl.
  - apply trimEnd_blank, Hp.
  - rewrite IH. reflexivity.
Qed.

Lemma trim_append_blank s p :
  blank p = true -> AsciiText.trim (s ++ p) = AsciiText.trim s.
Proof.
  intros Hp. unfold AsciiText.trim.
  induction s as [|c s IH]; simpl.
  - rewrite (trimStart_blank p Hp). reflexivity.
  - destruct (AsciiText.is_space c); [exact IH|].
    apply (trimEnd_append_blank (String c s) p Hp).
Qed.

(** White space around a value does not survive [trim]. *)
Lemma trim_padding p q s :
  blank p = true -> blank q = true -> AsciiText.trim (p ++ s ++ q) = AsciiText.trim s.
Proof.
  intros Hp Hq. unfold AsciiText.trim at 1.
  rewrite (trimStart_blank_append p (s ++ q) Hp).
  apply (trim_append_blank s q Hq).
Qed.

Lemma trimEnd_idempotent s :
  AsciiText.trimEnd (AsciiText.trimEnd s) = AsciiText.trimEnd s.
Proof.
  induction s as [|c s IH]; simpl; [reflexivity|].
  destruct (AsciiText.trimEnd s) as [|d r] eqn:E.
  - destruct (AsciiText.is_space c) eqn:Ec; simpl; [reflexivity|].
    rewrite Ec. reflexivity.
  - change (match AsciiText.trimEnd (String d r) with
            | EmptyString =>
                if AsciiText.is_space c then EmptyString else String c EmptyString
            | r' => String c r'
            end = String c (String d r)).
    rewrite IH. reflexivity.
Qed.

Lemma trimStart_clean s :
  match AsciiText.trimStart s with
  | String c _ => AsciiText.is_space c = false
  | EmptyString => True
  end.
Proof.
  induction s as [|c s IH]; simpl; [exact I|].
  destruct (AsciiText.is_space c) eqn:E; [exact IH | exact E].
Qed.

Lemma trimStart_trimEnd_clean s :
  match s with
  | String c _ => AsciiText.is_space c = false
  | EmptyString => True
  end ->
  AsciiText.trimStart (AsciiText.trimEnd s) = AsciiText.trimEnd s.
Proof.
  destruct s as [|c s]; [reflexivity|]. intros Hc.
  simpl. destruct (AsciiText.trimEnd s); try rewrite Hc; simpl; try rewrite Hc;
    reflexivity.
Qed.

Lemma trim_idempotent s : AsciiText.trim (AsciiText.trim s) = AsciiText.trim s.
Proof.
  unfold AsciiText.trim.
  rewrite (trimStart_trimEnd_clean _ (trimStart_clean s)).
  apply trimEnd_idempotent.
Qed.

Lemma trimStart_lower s :
  AsciiText.trimStart (AsciiText.lower s) = AsciiText.lower (AsciiText.trimStart s).
Proof.
  induction s as [|c s IH]; simpl; [reflexivity|].
  rewrite is_space_lower_char. destruct (AsciiText.is_space c); [exact IH | reflexivity].
Qed.

Lemma trimEnd_lower s :
  AsciiText.trimEnd (AsciiText.lower s) = AsciiText.lower (AsciiText.trimEnd s).
Proof.
  induction s as [|c s IH]; simpl; [reflexivity|].
  rewrite IH, is_space_lower_char.
  destruct (AsciiText.trimEnd s); simpl; [|reflexivity].
  destruct (AsciiText.is_space c); reflexivity.
Qed.

Lemma trim_lower s :
  AsciiText.trim (AsciiText.lower s) = AsciiText.lower (AsciiText.trim s).
Proof.
  unfold AsciiText.trim. rewrite trimStart_lower. apply trimEnd_lower.
Qed.

(** *** Within ASCII the engine's functions work character by character *)

Ltac each_guarded c :=
  destruct c as [b0 b1 b2 b3 b4 b5 b6 b7];
  destruct b0, b1, b2, b3, b4, b5, b6, b7;
  vm_compute; intros H; first [discriminate H | repeat split].

Lemma white_space_ascii c :
  (JsString.code c <? 0x80) = true ->
  Unicode.white_space (JsString.code c) = AsciiText.is_space c.
Proof. each_guarded c. Qed.

Lemma lower_ascii c :
  (JsString.code c <? 0x80) = true ->
  Unicode.full_lower (JsString.code c) = [JsString.code (AsciiText.lower_char c)] /\
  (JsString.code c =? 0x3A3) = false /\
  (JsString.code (AsciiText.lower_char c) <? 0x80) = true.
Proof. each_guarded c. Qed.

Lemma of_code_code c : JsString.of_code (JsString.code c) = c.
Proof.
  unfold JsString.of_code, JsString.code. rewrite N2Z.id. apply ascii_N_embedding.
Qed.

Lemma decode_ascii_cons c s :
  (JsString.code c <? 0x80) = true ->
  JsString.decode (String c s) = JsString.code c :: JsString.decode s.
Proof. intros H. simpl. rewrite H. reflexivity. Qed.

Lemma encode_ascii_cons c l :
  (JsString.code c <? 0x80) = true ->
  JsString.encode (JsString.code c :: l) = String c (JsString.encode l).
Proof.
  intros H. simpl. unfold JsString.encode_point. rewrite H.
  assert (H0 : (JsString.code c <? 0) = false).
  { apply Z.ltb_ge. unfold JsString.code. apply N2Z.is_nonneg. }
  rewrite H0, of_code_code. reflexivity.
Qed.

Lemma encode_decode_ascii s :
  is_ascii s = true -> JsString.encode (JsString.decode s) = s.
Proof.
  induction s as [|c s IH]; [reflexivity|].
  simpl is_ascii. intros H. apply andb_prop in H as [Hc Hs].
  rewrite (decode_ascii_cons c s Hc), (encode_ascii_cons c _ Hc), (IH Hs).
  reflexivity.
Qed.

Lemma is_ascii_lower s : is_ascii s = true -> is_ascii (AsciiText.lower s) = true.
Proof.
  induction s as [|c s IH]; [reflexivity|].
  simpl. intros H. apply andb_prop in H as [Hc Hs].
  rewrite (proj2 (proj2 (lower_ascii c Hc))), (IH Hs). reflexivity.
Qed.

Lemma is_ascii_append s t :
  is_ascii (s ++ t) = is_ascii s && is_ascii t.
Proof.
  induction s as [|c s IH]; [reflexivity|].
  simpl. rewrite IH. apply andb_assoc.
Qed.

Lemma blank_is_ascii p : blank p = true -> is_ascii p = true.
Proof.
  induction p as [|c p IH]; [reflexivity|].
  simpl. intros H. apply andb_prop in H as [Hc Hp]. rewrite (IH Hp), andb_true_r.
  revert Hc. clear.
  destruct c as [b0 b1 b2 b3 b4 b5 b6 b7];
    destruct b0, b1, b2, b3, b4, b5, b6, b7; vm_compute; intros H;
    first [discriminate H | reflexivity].
Qed.

Lemma is_ascii_trimStart s : is_ascii s = true -> is_ascii (AsciiText.trimStart s) = true.
Proof.
  induction s as [|c s IH]; [reflexivity|].
  intros H. simpl. destruct (AsciiText.is_space c); [|exact H].
  simpl in H. apply andb_prop in H as [_ Hs]. exact (IH Hs).
Qed.

Lemma is_ascii_trimEnd s : is_ascii s = true -> is_ascii (AsciiText.trimEnd s) = true.
Proof.
  induction s as [|c s IH]; [reflexivity|].
  intros H. simpl in H. apply andb_prop in H as [Hc Hs]. specialize (IH Hs).
  simpl. destruct (AsciiText.trimEnd s) as [|d r].
  - destruct (AsciiText.is_space c); [reflexivity|]. simpl. rewrite Hc. reflexivity.
  - simpl. rewrite Hc. exact IH.
Qed.

Lemma toLowercase_ascii s (after_cased : bool) :
  is_ascii s = true ->
  JsString.encode (Unicode.lower_from after_cased (JsString.decode s))
  = AsciiText.lower s.
Proof.
  revert after_cased. induction s as [|c s IH]; intros after_cased; [reflexivity|].
  simpl is_ascii. intros H. apply andb_prop in H as [Hc Hs].
  rewrite (decode_ascii_cons c s Hc).
  destruct (lower_ascii c Hc) as (Hfull & Hsigma & Hlow).
  cbn [Unicode.lower_from]. rewrite Hsigma, Hfull.
  cbn [app]. rewrite (encode_ascii_cons _ _ Hlow), (IH _ Hs). reflexivity.
Qed.

Lemma toLowerCase_ascii s :
  is_ascii s = true -> JsString.toLowerCase s = AsciiText.lower s.
Proof. apply toLowercase_ascii. Qed.

Lemma dropStart_ascii s :
  is_ascii s = true ->
  JsString.dropStart (JsString.decode s) = JsString.decode (AsciiText.trimStart s).
Proof.
  induction s as [|c s IH]; [reflexivity|].
  intros H. pose proof H as H'. simpl in H'. apply andb_prop in H' as [Hc Hs].
  rewrite (decode_ascii_cons c s Hc). cbn [JsString.dropStart AsciiText.trimStart].
  rewrite (white_space_ascii c Hc).
  destruct (AsciiText.is_space c); [exact (IH Hs)|].
  rewrite (decode_ascii_cons c s Hc). reflexivity.
Qed.

Lemma decode_empty s : JsString.decode s = [] -> s = "".
Proof.
  destruct s as [|a0 [|a1 [|a2 [|a3 r]]]]; [reflexivity| | | |]; simpl;
    repeat match goal with
           | |- context [if ?b then _ else _] => destruct b
           | |- context [match ?o with Some _ => _ | None => _ end] => destruct o
           end; discriminate.
Qed.

Lemma dropEnd_ascii s :
  is_ascii s = true ->
  JsString.dropEnd (JsString.decode s) = JsString.decode (AsciiText.trimEnd s).
Proof.
  induction s as [|c s IH]; [reflexivity|].
  intros H. simpl in H. apply andb_prop in H as [Hc Hs]. specialize (IH Hs).
  rewrite (decode_ascii_cons c s Hc). cbn [JsString.dropEnd AsciiText.trimEnd].
  rewrite IH, (white_space_ascii c Hc).
  destruct (AsciiText.trimEnd s) as [|d r] eqn:E.
  - simpl. destruct (AsciiText.is_space c); [reflexivity|].
    rewrite (decode_ascii_cons c "" Hc). reflexivity.
  - destruct (JsString.decode (String d r)) eqn:Ed.
    + apply decode_empty in Ed. discriminate Ed.
    + rewrite (decode_ascii_cons c (String d r) Hc), Ed. reflexivity.
Qed.

Lemma trim_ascii s : is_ascii s = true -> JsString.trim s = AsciiText.trim s.
Proof.
  intros H. unfold JsString.trim, AsciiText.trim.
  rewrite (dropStart_ascii s H), (dropEnd_ascii _ (is_ascii_trimStart s H)).
  apply encode_decode_ascii, is_ascii_trimEnd, is_ascii_trimStart, H.
Qed.

Lemma hashPII_ascii s :
  is_ascii s = true ->
  CAPIService.hashPII s = SHA256.hexdigest (AsciiText.trim (AsciiText.lower s)).
Proof.
  intros H. unfold CAPIService.hashPII.
  rewrite (toLowerCase_ascii s H), (trim_ascii _ (is_ascii_lower s H)). reflexivity.
Qed.

(** X1.  For a value of ASCII characters, [hashPII] does not tell apart
    two values that differ only in letter case or in white space around
    them: padding the value with ASCII white space on either side,
    lower-casing it or trimming it beforehand all leave the digest
    unchanged, and the local [hashPII] of the customer adapter is the same
    function.  Beyond ASCII: ["ÉMILE"] and ["émile"] have the same digest,
    and so have ["ΟΔΥΣΣΕΥΣ"] and ["οδυσσευς"] (with its final sigma), and
    ["Zoë"] between a no-break space and an ideographic space and
    ["zoë"]. *)
Theorem hashPII_ignores_case_and_padding :
  (forall p q s : string,
      is_ascii s = true ->
      blank p = true ->
      blank q = true ->
      CAPIService.hashPII (p ++ s ++ q) = CAPIService.hashPII s /\
      CAPIService.hashPII (JsString.toLowerCase s) = CAPIService.hashPII s /\
      CAPIService.hashPII (JsString.trim s) = CAPIService.hashPII s /\
      CustomersCreate.hashPII (p ++ s ++ q) = CAPIService.hashPII s) /\
  CAPIService.hashPII "ÉMILE" = CAPIService.hashPII "émile" /\
  CAPIService.hashPII "ΟΔΥΣΣΕΥΣ" = CAPIService.hashPII "οδυσσευς" /\
  CAPIService.hashPII (JsString.encode [0xA0; 0x5A; 0x6F; 0xEB; 0x3000])
  = CAPIService.hashPII "zoë".
Proof.
  split; [|split; [|split]; vm_compute; reflexivity].
  intros p q s Hs Hp Hq.
  assert (Hpsq : is_ascii (p ++ s ++ q) = true).
  { rewrite !is_ascii_append, Hs, (blank_is_ascii p Hp), (blank_is_ascii q Hq).
    reflexivity. }
  assert (Hpad : CAPIService.hashPII (p ++ s ++ q) = CAPIService.hashPII s).
  { rewrite (hashPII_ascii _ Hpsq), (hashPII_ascii s Hs). f_equal.
    rewrite !lower_append.
    apply trim_padding; rewrite blank_lower; assumption. }
  split; [exact Hpad|]. split; [|split].
  - rewrite (toLowerCase_ascii s Hs), (hashPII_ascii _ (is_ascii_lower s Hs)),
      (hashPII_ascii s Hs), lower_idempotent. reflexivity.
  - rewrite (trim_ascii s Hs).
    assert (Ht : is_ascii (AsciiText.trim s) = true).
    { apply is_ascii_trimEnd, is_ascii_trimStart, Hs. }
    rewrite (hashPII_ascii _ Ht), (hashPII_ascii s Hs).
    rewrite <- trim_lower, trim_idempotent. reflexivity.
  - rewrite <- Hpad. rewrite customers_hashPII_digest, hashPII_digest. reflexivity.
Qed.

(** ["  A@B.com "] and ["A@B.com"]. *)
Lemma hashPII_ignores_case_and_padding_witness :
  CAPIService.hashPII ("  " ++ "A@B.com" ++ " ") = CAPIService.hashPII "A@B.com".
Proof.
  apply (proj1 hashPII_ignores_case_and_padding "  " " " "A@B.com"); reflexivity.
Defined.

(** ** The [track...] methods: one request each, for one event *)

Lemma quiet_addToCartEvent productId variantId quantity price currency customer
  eventId clientData :
  quiet (CAPIService.addToCartEvent productId variantId quantity price currency
           customer eventId clientData).
Proof.
  unfold CAPIService.addToCartEvent.
  apply quiet_bind; [apply quiet_now_seconds | intro].
  apply quiet_bind; [apply quiet_event_id_or; quiet_steps | intro].
  apply quiet_ret.
Qed.

Lemma quiet_pageViewEvent url customer eventId clientData :
  quiet (CAPIService.pageViewEvent url customer eventId clientData).
Proof.
  unfold CAPIService.pageViewEvent.
  apply quiet_bind; [apply quiet_now_seconds | intro].
  apply quiet_bind; [apply quiet_event_id_or; quiet_steps | intro].
  apply quiet_ret.
Qed.

Lemma quiet_viewContentEvent productId contentName contentCategory value currency
  customer eventId clientData :
  quiet (CAPIService.viewContentEvent productId contentName contentCategory value
           currency customer eventId clientData).
Proof.
  unfold CAPIService.viewContentEvent.
  apply quiet_bind; [apply quiet_now_seconds | intro].
  apply quiet_bind; [apply quiet_event_id_or; quiet_steps | intro].
  apply quiet_ret.
Qed.

(** What the endpoint's answer to [rq] becomes in the hands of
    [sendEvents]. *)
Lemma track_run (build : M CAPIEvent) (this : CAPIService.t) (w : World) :
  quiet build ->
  exists event,
    result build w = Ok event /\
    submits_one (bind build (fun e => CAPIService.sendEvents this [e])) this w event /\
    result (bind build (fun e => CAPIService.sendEvents this [e])) w
    = match w_endpoint w (request_for this [event]) with
      | inl resp => Ok resp
      | inr e =>
          Throw (JsError ("CAPI request failed: "
                          ++ JsString.opt_or (error_response_detail (AxiosFailure e))
                                             (ax_message e)))
      end.
Proof.
  intros Hq. destruct (Hq w) as (event & w' & E & Hsame).
  exists event. unfold result. rewrite E. split; [reflexivity|].
  assert (Hrun : bind build (fun e => CAPIService.sendEvents this [e]) w
                 = (match w_endpoint w (request_for this [event]) with
                    | inl resp => Ok resp
                    | inr e =>
                        Throw (JsError ("CAPI request failed: "
                                 ++ JsString.opt_or
                                      (error_response_detail (AxiosFailure e))
                                      (ax_message e)))
                    end,
                    log_request (request_for this [event]) w')).
  { unfold bind. rewrite E, sendEvents_run.
    destruct Hsame as (_ & Hend & _). rewrite Hend. reflexivity. }
  split.
  - split; [eapply calls_one; eauto|]. split; reflexivity.
  - rewrite Hrun. reflexivity.
Qed.

(** X2.  Each of [trackPurchase], [trackAddToCart], [trackPageView],
    [trackInitiateCheckout] and [trackViewContent] builds its event and
    issues exactly one request, to
    [https://graph.facebook.com/v18.0/{pixelId}/events], whose batch is
    that one event; the method returns the answer of the endpoint when the
    request is accepted, and throws the ["CAPI request failed: ..."] error
    of [sendEvents] when it is rejected. *)
Theorem track_methods_submit_one (this : CAPIService.t) (w : World) :
  (forall order customer eventId clientData,
      exists event,
        result (CAPIService.purchaseEvent order customer eventId clientData) w
        = Ok event /\
        submits_one (CAPIService.trackPurchase this order customer eventId clientData)
          this w event /\
        forall resp,
          w_endpoint w (request_for this [event]) = inl resp ->
          result (CAPIService.trackPurchase this order customer eventId clientData) w
          = Ok resp) /\
  (forall productId variantId quantity price currency customer eventId clientData,
      exists event,
        result (CAPIService.addToCartEvent productId variantId quantity price currency
                  customer eventId clientData) w = Ok event /\
        submits_one (CAPIService.trackAddToCart this productId variantId quantity price
                       currency customer eventId clientData) this w event /\
        forall resp,
          w_endpoint w (request_for this [event]) = inl resp ->
          result (CAPIService.trackAddToCart this productId variantId quantity price
                    currency customer eventId clientData) w = Ok resp) /\
  (forall url customer eventId clientData,
      exists event,
        result (CAPIService.pageViewEvent url customer eventId clientData) w = Ok event /\
        submits_one (CAPIService.trackPageView this url customer eventId clientData)
          this w event /\
        forall resp,
          w_endpoint w (request_for this [event]) = inl resp ->
          result (CAPIService.trackPageView this url customer eventId clientData) w
          = Ok resp) /\
  (forall value currency contentIds numItems customer eventId clientData,
      exists event,
        result (CAPIService.initiateCheckoutEvent value currency contentIds numItems
                  customer eventId clientData) w = Ok event /\
        submits_one (CAPIService.trackInitiateCheckout this value currency contentIds
                       numItems customer eventId clientData) this w event /\
        forall resp,
          w_endpoint w (request_for this [event]) = inl resp ->
          result (CAPIService.trackInitiateCheckout this value currency contentIds
                    numItems customer eventId clientData) w = Ok resp) /\
  (forall productId contentName contentCategory value currency customer eventId
          clientData,
      exists event,
        result (CAPIService.viewContentEvent productId contentName contentCategory
                  value currency customer eventId clientData) w = Ok event /\
        submits_one (CAPIService.trackViewContent this productId contentName
                       contentCategory value currency customer eventId clientData)
          this w event /\
        forall resp,
          w_endpoint w (request_for this [event]) = inl resp ->
          result (CAPIService.trackViewContent this productId contentName
                    contentCategory value currency customer eventId clientData) w
          = Ok resp).
Proof.
  assert (Hgen : forall build, quiet build ->
             exists event,
               result build w = Ok event /\
               submits_one (bind build (fun e => CAPIService.sendEvents this [e]))
                 this w event /\
               forall resp,
                 w_endpoint w (request_for this [event]) = inl resp ->
                 result (bind build (fun e => CAPIService.sendEvents this [e])) w
                 = Ok resp).
  { intros build Hq. destruct (track_run build this w Hq) as (event & Hb & Hs & Hr).
    exists event. split; [exact Hb|]. split; [exact Hs|].
    intros resp Hresp. rewrite Hr, Hresp. reflexivity. }
  split; [|split; [|split; [|split]]]; intros.
  - apply (Hgen _ (quiet_purchaseEvent _ _ _ _)).
  - apply (Hgen _ (quiet_addToCartEvent _ _ _ _ _ _ _ _)).
  - apply (Hgen _ (quiet_pageViewEvent _ _ _ _)).
  - apply (Hgen _ (quiet_initiateCheckoutEvent _ _ _ _ _ _ _)).
  - apply (Hgen _ (quiet_viewContentEvent _ _ _ _ _ _ _ _)).
Qed.

(** A page view tracked against an endpoint that accepts it. *)
Lemma track_methods_submit_one_witness :
  exists event,
    submits_one (CAPIService.trackPageView (CAPIService.new "px" "token" None)
                   "https://shop.example/" None None None)
      (CAPIService.new "px" "token" None) accepting_world event /\
    result (CAPIService.trackPageView (CAPIService.new "px" "token" None)
              "https://shop.example/" None None None) accepting_world
    = Ok {| events_received := JsNumber.of_Z 1; messages := []; fbtrace_id := "trace" |}.
Proof.
  destruct (proj1 (proj2 (proj2 (track_methods_submit_one
                                   (CAPIService.new "px" "token" None) accepting_world)))
              "https://shop.example/" None None None)
    as (event & _ & Hsub & Hok).
  exists event. split; [exact Hsub|]. apply Hok. reflexivity.
Defined.

(** ** Event ids and the dedup key override *)

Lemma opt_truthy_nonempty (x : option string) (s : string) :
  JsString.opt_truthy x = Some s -> s <> "".
Proof.
  destruct x as [[|c r]|]; simpl; try discriminate.
  intros H. inversion H. discriminate.
Qed.

Lemma append_nonempty (s t : string) : t <> "" -> s ++ t <> "".
Proof.
  intros Ht H. apply (f_equal String.length) in H.
  rewrite string_length_append in H. destruct t; [congruence|].
  simpl in H. lia.
Qed.

Ltac identified_by E :=
  eexists; split; [reflexivity|]; split;
  [ split; [reflexivity|]; eexists; split; [reflexivity|];
    first [ exact (opt_truthy_nonempty _ _ E)
          | repeat (apply append_nonempty); discriminate ]
  | intros key Hkey Hne; subst; rewrite (opt_truthy_some _ Hne) in E;
    first [ inversion E; reflexivity | discriminate E ] ].

(** X3.  Every event built by a [track...] method names the website as
    its channel and carries a non-empty [event_id]: the [eventId] argument
    when it is a non-empty string, and a generated key otherwise (an empty
    string counts as no argument). *)
Theorem built_events_are_identified :
  (forall order customer eventId clientData w,
      exists event,
        result (CAPIService.purchaseEvent order customer eventId clientData) w
        = Ok event /\
        identified event /\
        (forall key, eventId = Some key -> key <> "" -> event_id event = Some key)) /\
  (forall productId variantId quantity price currency customer eventId clientData w,
      exists event,
        result (CAPIService.addToCartEvent productId variantId quantity price currency
                  customer eventId clientData) w = Ok event /\
        identified event /\
        (forall key, eventId = Some key -> key <> "" -> event_id event = Some key)) /\
  (forall url customer eventId clientData w,
      exists event,
        result (CAPIService.pageViewEvent url customer eventId clientData) w = Ok event /\
        identified event /\
        (forall key, eventId = Some key -> key <> "" -> event_id event = Some key)) /\
  (forall value currency contentIds numItems customer eventId clientData w,
      exists event,
        result (CAPIService.initiateCheckoutEvent value currency contentIds numItems
                  customer eventId clientData) w = Ok event /\
        identified event /\
        (forall key, eventId = Some key -> key <> "" -> event_id event = Some key)) /\
  (forall productId contentName contentCategory value currency customer eventId
          clientData w,
      exists event,
        result (CAPIService.viewContentEvent productId contentName contentCategory
                  value currency customer eventId clientData) w = Ok event /\
        identified event /\
        (forall key, eventId = Some key -> key <> "" -> event_id event = Some key)).
Proof.
  split; [|split; [|split; [|split]]]; intros.
  - unfold result, CAPIService.purchaseEvent, CAPIService.created_seconds,
      CAPIService.event_id_or, bind, ret, Date_now.
    destruct (JsString.opt_truthy (ord_created_at order));
      destruct (JsString.opt_truthy eventId) eqn:E; simpl; identified_by E.
  - unfold result, CAPIService.addToCartEvent, CAPIService.now_seconds,
      CAPIService.event_id_or, bind, ret, Date_now.
    destruct (JsString.opt_truthy eventId) eqn:E; simpl; identified_by E.
  - unfold result, CAPIService.pageViewEvent, CAPIService.now_seconds,
      CAPIService.event_id_or, bind, ret, Date_now, Math_random_base36.
    destruct (JsString.opt_truthy eventId) eqn:E; simpl; identified_by E.
  - unfold result, CAPIService.initiateCheckoutEvent, CAPIService.now_seconds,
      CAPIService.event_id_or, bind, ret, Date_now.
    destruct (JsString.opt_truthy eventId) eqn:E; simpl; identified_by E.
  - unfold result, CAPIService.viewContentEvent, CAPIService.now_seconds,
      CAPIService.event_id_or, bind, ret, Date_now.
    destruct (JsString.opt_truthy eventId) eqn:E; simpl; identified_by E.
Qed.

(** A purchase tracked with the override ["order-1001"]. *)
Lemma built_events_are_identified_witness :
  exists event,
    result (CAPIService.purchaseEvent sample_order None (Some "order-1001") None)
      sample_world = Ok event /\
    event_id event = Some "order-1001".
Proof.
  destruct (proj1 built_events_are_identified sample_order None (Some "order-1001")
              None sample_world) as (event & Hres & _ & Hkey).
  exists event. split; [exact Hres|].
  apply Hkey; [reflexivity | discriminate].
Defined.

(** ** [testConnection] *)

Lemma quiet_testEvent : quiet CAPIServiceTest.testEvent.
Proof.
  unfold CAPIServiceTest.testEvent.
  apply quiet_bind; [apply quiet_now_seconds | intro].
  apply quiet_bind; [apply quiet_Date_now | intro].
  apply quiet_ret.
Qed.

Lemma testEvent_built w :
  exists event w',
    CAPIServiceTest.testEvent w = (Ok event, w') /\
    same_outside w w' /\
    event_name event = "PageView" /\
    user_data event = test_subject /\
    event_id event = Some ("test_" ++ JsString.of_Z (w_clock w (S (w_ticks w)))).
Proof.
  unfold CAPIServiceTest.testEvent, CAPIService.now_seconds, bind, ret, Date_now.
  eexists; eexists. split; [reflexivity|]. repeat split.
Qed.

(** X4.  [testConnection] never throws.  It submits exactly one request
    with one PageView event.  The only attribute of the [user_data] of that
    event is [em], the one-element list of the digest of
    ["test@example.com"]: no other identity attribute (ph, fn, ln, ct, st,
    zp, country, external_id) and no client context (IP address, user
    agent, fbc, fbp) is there.  [testConnection] answers [true] exactly
    when the endpoint accepts the request and reports a positive number of
    received events; a rejection, whatever its cause, gives [false]. *)
Theorem testConnection_reports (this : CAPIService.t) (w : World) :
  exists event answer,
    result (CAPIServiceTest.testConnection this) w = Ok answer /\
    calls (CAPIServiceTest.testConnection this) w = [request_for this [event]] /\
    event_name event = "PageView" /\
    user_data event = test_subject /\
    identity_fields (user_data event)
    = [Some ["973dfe463ec85785f5f95af5ba3906eedb2d931c24e69824a89ea65dba4e813b"];
       None; None; None; None; None; None; None; None] /\
    (answer = true <->
     exists resp,
       w_endpoint w (request_for this [event]) = inl resp /\
       greater_than_zero (events_received resp) = true).
Proof.
  destruct (testEvent_built w) as (event & w' & E & Hsame & Hname & Hem & _).
  exists event.
  assert (Hrun : CAPIServiceTest.testConnection this w
                 = (Ok match w_endpoint w (request_for this [event]) with
                       | inl resp => greater_than_zero (events_received resp)
                       | inr _ => false
                       end,
                    log_request (request_for this [event]) w')).
  { unfold CAPIServiceTest.testConnection, try_catch, bind.
    rewrite E, sendEvents_run.
    destruct Hsame as (_ & Hend & _). rewrite Hend.
    destruct (w_endpoint w (request_for this [event])); reflexivity. }
  eexists. unfold result. rewrite Hrun. split; [reflexivity|].
  split; [eapply calls_one; eauto|].
  split; [exact Hname|]. split; [exact Hem|].
  split; [rewrite Hem; vm_compute; reflexivity|].
  simpl. destruct (w_endpoint w (request_for this [event])) as [resp|e]; split.
  - intros H. exists resp. split; [reflexivity | exact H].
  - intros (resp' & Hr & Hpos). inversion Hr; subst. exact Hpos.
  - discriminate.
  - intros (resp' & Hr & _). discriminate.
Qed.

(** Against the endpoint that answers HTTP 400 the test says [false];
    against the one that accepts the event it says [true]. *)
Lemma testConnection_reports_witness :
  result (CAPIServiceTest.testConnection (CAPIService.new "px" "token" None))
    sample_world = Ok false /\
  result (CAPIServiceTest.testConnection (CAPIService.new "px" "token" None))
    accepting_world = Ok true.
Proof.
  destruct (testConnection_reports (CAPIService.new "px" "token" None) accepting_world)
    as (event & answer & Hres & _ & _ & _ & _ & Hiff).
  split; [reflexivity|].
  rewrite Hres. f_equal. apply Hiff. eexists. split; reflexivity.
Defined.

(** ** [trackAddToCart] and the defaults of [trackPurchase] *)

(** X5.  An AddToCart event is valued at price times quantity, the
    product rounded to binary64 as the engine's multiplication rounds it;
    its one content id is the variant id, or the product id when the
    variant id is the empty string, and the same id names its one line
    item, which carries the quantity and the unit price as given. *)
Theorem addToCart_contents productId variantId quantity price currency customer
  eventId clientData w :
  exists event data content,
    result (CAPIService.addToCartEvent productId variantId quantity price currency
              customer eventId clientData) w = Ok event /\
    custom_data event = Some data /\
    cd_value data = Some (JsNumber.mul price quantity) /\
    cd_currency data = Some currency /\
    cd_content_ids data = Some [ct_id content] /\
    cd_contents data = Some [content] /\
    ct_quantity content = quantity /\
    ct_item_price content = Some price /\
    (variantId <> "" -> ct_id content = variantId) /\
    (variantId = "" -> ct_id content = productId).
Proof.
  destruct (addToCartEvent_built productId variantId quantity price currency customer
              eventId clientData w)
    as (event & w' & E & _ & _ & _ & _ & Hdata).
  exists event. eexists.
  exists {| ct_id := JsString.or_else variantId productId;
            ct_quantity := quantity;
            ct_item_price := Some price |}.
  unfold result. rewrite E.
  split; [reflexivity|]. split; [exact Hdata|]. simpl.
  do 6 (split; [reflexivity|]). split.
  - intros H. unfold JsString.or_else. rewrite (truthy_nonempty _ H). reflexivity.
  - intros ->. reflexivity.
Qed.

(** Three units of variant ["V9"] of product ["P9"] at 0.1 (the binary64
    value [3602879701896397 / 2^55]): the value is 0.30000000000000004 (the
    binary64 value [1351079888211149 / 2^52]). *)
Lemma addToCart_contents_witness :
  exists event data,
    result (CAPIService.addToCartEvent "P9" "V9" (JsNumber.of_Z 3)
              (Fin (3602879701896397 # 36028797018963968)) "USD"
              None None None) sample_world = Ok event /\
    custom_data event = Some data /\
    cd_value data = Some (Fin (1351079888211149 # 4503599627370496)) /\
    cd_content_ids data = Some ["V9"].
Proof.
  destruct (addToCart_contents "P9" "V9" (JsNumber.of_Z 3)
              (Fin (3602879701896397 # 36028797018963968)) "USD"
              None None None sample_world)
    as (event & data & content & Hres & Hdata & Hval & _ & Hids & _ & _ & _ & Hv & _).
  exists event, data. split; [exact Hres|]. split; [exact Hdata|].
  split; [rewrite Hval; vm_compute; reflexivity|].
  rewrite Hids, Hv; [reflexivity | discriminate].
Defined.

(** X6.  The commerce data of a Purchase event never lacks a currency, an
    order id or an item price: the currency is ["USD"] when the order has
    none (or an empty one); the order id is the id of the order in string
    form, else its name, else the empty string; the price of each line item
    is what [parseFloat] makes of the upstream price, and 0 when the item
    has none; and the source URL of the event is the [landing_site_ref] of
    the order when that is a non-empty string, and is omitted otherwise. *)
Theorem purchase_defaults order customer eventId clientData w :
  exists event data,
    result (CAPIService.purchaseEvent order customer eventId clientData) w = Ok event /\
    custom_data event = Some data /\
    (ord_currency order = None \/ ord_currency order = Some "" ->
     cd_currency data = Some "USD") /\
    (forall c, ord_currency order = Some c -> c <> "" -> cd_currency data = Some c) /\
    (forall i, ord_id order = Some i -> Ident.toString i <> "" ->
               cd_order_id data = Some (Ident.toString i)) /\
    (forall name, ord_id order = None -> ord_name order = Some name -> name <> "" ->
                  cd_order_id data = Some name) /\
    (ord_id order = None -> ord_name order = None \/ ord_name order = Some "" ->
     cd_order_id data = Some "") /\
    (forall items, ord_line_items order = Some items ->
                   exists contents,
                     cd_contents data = Some contents /\
                     Forall2 priced items contents) /\
    (ord_line_items order = None -> cd_contents data = Some []) /\
    event_source_url event = JsString.opt_truthy (ord_landing_site_ref order).
Proof.
  destruct (purchaseEvent_built order customer eventId clientData w)
    as (event & w' & E & _ & _ & _ & _ & Hdata).
  exists event. eexists. unfold result. rewrite E.
  split; [reflexivity|]. split; [exact Hdata|]. simpl.
  split; [intros [-> | ->]; reflexivity|].
  split.
  { intros c -> Hc. simpl. unfold JsString.or_else.
    rewrite (truthy_nonempty _ Hc). reflexivity. }
  split.
  { intros i -> Hi. simpl. unfold JsString.or_else at 1.
    rewrite (truthy_nonempty _ Hi). reflexivity. }
  split.
  { intros name -> -> Hn. simpl. unfold JsString.or_else.
    rewrite (truthy_nonempty _ Hn). reflexivity. }
  split; [intros -> [-> | ->]; reflexivity|].
  split.
  { intros items Hitems. eexists. split; [reflexivity|].
    unfold CAPIService.purchase_contents. rewrite Hitems.
    clear. induction items as [|item items IH]; simpl; constructor; auto.
    split; [reflexivity|].
    intros [H | H]; unfold CAPIService.purchase_content; simpl; rewrite H;
      reflexivity. }
  split.
  { intros Hnone. unfold CAPIService.purchase_contents. rewrite Hnone. reflexivity. }
  revert E. unfold CAPIService.purchaseEvent, CAPIService.created_seconds,
    CAPIService.event_id_or, bind, ret, Date_now.
  destruct (JsString.opt_truthy (ord_created_at order));
    destruct (JsString.opt_truthy eventId); intros E; inversion E; reflexivity.
Qed.

(** The order without a currency. *)
Lemma purchase_defaults_witness :
  exists event data,
    result (CAPIService.purchaseEvent guest_order None None None) sample_world
    = Ok event /\
    custom_data event = Some data /\
    cd_currency data = Some "USD" /\
    cd_order_id data = Some "1002".
Proof.
  destruct (purchase_defaults guest_order None None None sample_world)
    as (event & data & Hres & Hdata & Hcur & _ & Hid & _).
  exists event, data. split; [exact Hres|]. split; [exact Hdata|]. split.
  - apply Hcur. left. reflexivity.
  - apply (Hid (IdNum 1002)); [reflexivity | discriminate].
Defined.

(** ** The adapters: what is acknowledged, what is sent *)

(** X7.  Once [authenticate.webhook] has resolved (it is awaited before
    the [try]; [ctx] is what it resolved to), whatever that delivery and
    the world are (the lookup of the connection may fail, the payload may
    be missing or odd, the endpoint may accept or reject), each of the
    three adapters ends, without throwing, with a fresh [Response]: status
    200 and no body. *)
Theorem every_delivery_is_acknowledged (w : World) :
  (forall ctx, result (OrdersCreate.action ctx) w = Ok new_Response) /\
  (forall ctx, result (CheckoutsCreate.action ctx) w = Ok new_Response) /\
  (forall ctx, result (CustomersCreate.action ctx) w = Ok new_Response) /\
  resp_status new_Response = 200 /\ resp_body new_Response = None.
Proof.
  split; [intros; apply orders_always_acknowledges|].
  split; [intros; apply checkouts_always_acknowledges|].
  split; [intros; apply customers_always_acknowledges|].
  split; reflexivity.
Qed.

(** X8.  A delivery for which [authenticate.webhook] found no session is
    acknowledged with a fresh [Response] whatever the [Meta] table holds,
    also when looking the connection up would fail: the clock is not read,
    nothing is sent, and the world is left as it was. *)
Theorem no_session_is_noop (w : World) :
  (forall ctx : Webhook Order,
      wh_session ctx = None -> OrdersCreate.action ctx w = (Ok new_Response, w)) /\
  (forall ctx : Webhook Checkout,
      wh_session ctx = None -> CheckoutsCreate.action ctx w = (Ok new_Response, w)) /\
  (forall ctx : Webhook Customer,
      wh_session ctx = None -> CustomersCreate.action ctx w = (Ok new_Response, w)).
Proof.
  split; [|split]; intros ctx H; apply guarded_no_session; exact H.
Qed.

(** An order delivered without a session, in the world whose lookups
    fail. *)
Lemma no_session_is_noop_witness :
  OrdersCreate.action
    {| wh_shop := "shop.example"; wh_session := None; wh_topic := "orders/create";
       wh_payload := Some sample_order |} broken_db_world
  = (Ok new_Response, broken_db_world).
Proof.
  apply (proj1 (no_session_is_noop broken_db_world)). reflexivity.
Defined.

(** X9.  When the lookup of the connection itself fails (the database
    call of [prisma.meta.findUnique] rejects), the error is swallowed like
    a transport failure: the delivery is acknowledged, nothing is built
    and nothing is sent. *)
Theorem lookup_failure_is_swallowed (w : World) (session : Session) (msg : string) :
  w_meta w (session_id session) = inr msg ->
  (forall ctx : Webhook Order,
      wh_session ctx = Some session ->
      OrdersCreate.action ctx w = (Ok new_Response, w)) /\
  (forall ctx : Webhook Checkout,
      wh_session ctx = Some session ->
      CheckoutsCreate.action ctx w = (Ok new_Response, w)) /\
  (forall ctx : Webhook Customer,
      wh_session ctx = Some session ->
      CustomersCreate.action ctx w = (Ok new_Response, w)).
Proof.
  intros Hdb.
  split; [|split]; intros ctx Hs;
    [ unfold OrdersCreate.action, OrdersCreate.body
    | unfold CheckoutsCreate.action, CheckoutsCreate.body
    | unfold CustomersCreate.action, CustomersCreate.body ];
    unfold guarded, bind, try_catch, prisma_meta_findUnique, ret;
    rewrite Hs, Hdb; reflexivity.
Qed.

Lemma lookup_failure_is_swallowed_witness :
  OrdersCreate.action (delivery "orders/create" (Some sample_order)) broken_db_world
  = (Ok new_Response, broken_db_world).
Proof.
  apply (proj1 (lookup_failure_is_swallowed broken_db_world {| session_id := "s1" |}
                  "connection refused" eq_refl)).
  reflexivity.
Defined.

(** X10.  With a resolved connection but no payload, the order adapter
    and the customer adapter acknowledge the delivery without building an
    event: no [CAPIService] call is made, the clock is not read and
    nothing is sent. *)
Theorem missing_payload_is_noop (w : World) :
  (forall ctx : Webhook Order,
      resolved ctx w -> wh_payload ctx = None ->
      OrdersCreate.action ctx w = (Ok new_Response, w)) /\
  (forall ctx : Webhook Customer,
      resolved ctx w -> wh_payload ctx = None ->
      CustomersCreate.action ctx w = (Ok new_Response, w)).
Proof.
  split; intros ctx (session & connection & Hs & Hm & Hp) Hpay;
    [ unfold OrdersCreate.action, OrdersCreate.body
    | unfold CustomersCreate.action, CustomersCreate.body ];
    unfold guarded, bind, try_catch, prisma_meta_findUnique, ret;
    rewrite Hs, Hm, (truthy_nonempty _ Hp), Hpay; reflexivity.
Qed.

Lemma missing_payload_is_noop_witness :
  OrdersCreate.action (delivery "orders/create" None) accepting_world
  = (Ok new_Response, accepting_world).
Proof.
  apply (proj1 (missing_payload_is_noop accepting_world)).
  - exists {| session_id := "s1" |},
      {| meta_pixelId := "px"; meta_accessToken := "token" |}.
    repeat split. discriminate.
  - reflexivity.
Defined.

(** X11.  The one request of a delivery goes to the events endpoint of
    the pixel of the shop's connection, with the access token of that
    connection, with exactly one event, with a JSON content type and a
    timeout of 10000 ms, and never with a test event code (the adapters
    construct the service without one). *)
Theorem delivery_uses_the_connection (w : World) (session : Session) (connection : Meta) :
  w_meta w (session_id session) = inl (Some connection) ->
  meta_pixelId connection <> "" ->
  (forall (ctx : Webhook Order) order,
      wh_session ctx = Some session -> wh_payload ctx = Some order ->
      exists rq, calls (OrdersCreate.action ctx) w = [rq] /\ addressed_to connection rq) /\
  (forall (ctx : Webhook Checkout) checkout items,
      wh_session ctx = Some session ->
      CheckoutsCreate.valid_line_items (wh_payload ctx) = Some (checkout, items) ->
      exists rq, calls (CheckoutsCreate.action ctx) w = [rq] /\
                 addressed_to connection rq) /\
  (forall (ctx : Webhook Customer) customer,
      wh_session ctx = Some session -> wh_payload ctx = Some customer ->
      exists rq, calls (CustomersCreate.action ctx) w = [rq] /\
                 addressed_to connection rq).
Proof.
  intros Hm Hp. split; [|split].
  - intros ctx order Hs Ho.
    destruct (orders_delivery ctx session connection order w Hs Hm Hp Ho)
      as (event & w' & _ & Hsame & Hrun).
    eexists. split; [eapply calls_one; eauto|]. repeat split.
  - intros ctx checkout items Hs Hv.
    destruct (checkouts_delivery ctx session connection checkout items w Hs Hm Hp Hv)
      as (event & w' & _ & Hsame & Hrun).
    eexists. split; [eapply calls_one; eauto|]. repeat split.
  - intros ctx customer Hs Hc.
    destruct (customers_delivery ctx session connection customer w Hs Hm Hp Hc)
      as (event & w' & _ & Hsame & Hrun).
    eexists. split; [eapply calls_one; eauto|]. repeat split.
Qed.

Lemma delivery_uses_the_connection_witness :
  exists rq,
    calls (CustomersCreate.action (delivery "customers/create" (Some sample_customer)))
      accepting_world = [rq] /\
    rq_url rq = "https://graph.facebook.com/v18.0/px/events" /\
    pl_access_token (rq_payload rq) = "token".
Proof.
  destruct (delivery_uses_the_connection accepting_world {| session_id := "s1" |}
              {| meta_pixelId := "px"; meta_accessToken := "token" |} eq_refl)
    as (_ & _ & Hcust).
  { discriminate. }
  destruct (Hcust (delivery "customers/create" (Some sample_customer)) sample_customer
              eq_refl eq_refl) as (rq & Hcalls & Hurl & Htoken & _).
  exists rq. split; [exact Hcalls|]. split; [exact Hurl | exact Htoken].
Defined.

(** ** Client context *)

Lemma opt_truthy_idempotent (x : option string) :
  JsString.opt_truthy (JsString.opt_truthy x) = JsString.opt_truthy x.
Proof. destruct x as [[|c s]|]; reflexivity. Qed.

Lemma createUserData_anonymous clientIp userAgent fbc fbp :
  anonymous (CAPIService.createUserData None clientIp userAgent fbc fbp).
Proof.
  unfold anonymous.
  rewrite (proj1 (createUserData_identity None clientIp userAgent fbc fbp)).
  reflexivity.
Qed.

(** X12.  The client context of an event is passed through unhashed and
    only from the upstream record: in the event of an order or checkout
    delivery, [client_ip_address] is the [browser_ip] of the record and
    [client_user_agent] the [user_agent] of its [client_details], each
    omitted when absent or empty, and [fbc] and [fbp] are never sent; and
    when the record has no customer, none of the nine identity attributes
    is sent. *)
Theorem delivery_client_context (w : World) :
  (forall (ctx : Webhook Order) order,
      resolved ctx w -> wh_payload ctx = Some order ->
      exists rq event,
        calls (OrdersCreate.action ctx) w = [rq] /\
        pl_data (rq_payload rq) = [event] /\
        ud_client_ip_address (user_data event)
        = JsString.opt_truthy (ord_browser_ip order) /\
        ud_client_user_agent (user_data event)
        = JsString.opt_truthy
            (match ord_client_details order with
             | Some d => cd_user_agent d
             | None => None
             end) /\
        ud_fbc (user_data event) = None /\
        ud_fbp (user_data event) = None /\
        (ord_customer order = None -> anonymous (user_data event))) /\
  (forall (ctx : Webhook Checkout) checkout items,
      resolved ctx w ->
      CheckoutsCreate.valid_line_items (wh_payload ctx) = Some (checkout, items) ->
      exists rq event,
        calls (CheckoutsCreate.action ctx) w = [rq] /\
        pl_data (rq_payload rq) = [event] /\
        ud_client_ip_address (user_data event)
        = JsString.opt_truthy (chk_browser_ip checkout) /\
        ud_client_user_agent (user_data event)
        = JsString.opt_truthy
            (match chk_client_details checkout with
             | Some d => cd_user_agent d
             | None => None
             end) /\
        ud_fbc (user_data event) = None /\
        ud_fbp (user_data event) = None /\
        (chk_customer checkout = None -> anonymous (user_data event))).
Proof.
  split.
  - intros ctx order (session & connection & Hs & Hm & Hp) Ho.
    destruct (orders_delivery ctx session connection order w Hs Hm Hp Ho)
      as (event & w' & E & Hsame & Hrun).
    destruct (purchaseEvent_built order (ord_customer order)
                (Some (OrdersCreate.eventId order (w_clock w (w_ticks w))))
                (Some (OrdersCreate.clientData order)) (tick w))
      as (event' & w'' & E' & _ & Hu & _).
    rewrite E in E'. inversion E'; subst event' w''.
    eexists; exists event. split; [eapply calls_one; eauto|].
    split; [reflexivity|]. rewrite Hu.
    unfold CAPIService.userDataFor, CAPIService.client, OrdersCreate.clientData.
    cbn [cl_ip cl_userAgent cl_fbc cl_fbp].
    match goal with
    | |- context [CAPIService.createUserData ?c ?ip ?ua ?fbc ?fbp] =>
        pose proof (createUserData_client c ip ua fbc fbp) as (Hip & Hua & Hfbc & Hfbp)
    end.
    rewrite Hip, Hua, Hfbc, Hfbp, !opt_truthy_idempotent.
    do 4 (split; [reflexivity|]).
    intros ->. apply createUserData_anonymous.
  - intros ctx checkout items (session & connection & Hs & Hm & Hp) Hv.
    destruct (checkouts_delivery ctx session connection checkout items w Hs Hm Hp Hv)
      as (event & w' & E & Hsame & Hrun).
    destruct (initiateCheckoutEvent_built
                (JsNumber.parseFloat (JsString.opt_or (chk_total_price checkout) "0"))
                (JsString.opt_or (chk_currency checkout) "USD")
                (CheckoutsCreate.contentIds items) (CheckoutsCreate.numItems items)
                (chk_customer checkout)
                (Some (CheckoutsCreate.eventId checkout (w_clock w (w_ticks w))))
                (Some (CheckoutsCreate.clientData checkout)) (tick w))
      as (event' & w'' & E' & _ & Hu & _).
    rewrite E in E'. inversion E'; subst event' w''.
    eexists; exists event. split; [eapply calls_one; eauto|].
    split; [reflexivity|]. rewrite Hu.
    unfold CAPIService.userDataFor, CAPIService.client, CheckoutsCreate.clientData.
    cbn [cl_ip cl_userAgent cl_fbc cl_fbp].
    match goal with
    | |- context [CAPIService.createUserData ?c ?ip ?ua ?fbc ?fbp] =>
        pose proof (createUserData_client c ip ua fbc fbp) as (Hip & Hua & Hfbc & Hfbp)
    end.
    rewrite Hip, Hua, Hfbc, Hfbp, !opt_truthy_idempotent.
    do 4 (split; [reflexivity|]).
    intros ->. apply createUserData_anonymous.
Qed.

(** The guest order, placed from 203.0.113.7. *)
Lemma delivery_client_context_witness :
  exists rq event,
    calls (OrdersCreate.action (delivery "orders/create" (Some guest_order)))
      accepting_world = [rq] /\
    pl_data (rq_payload rq) = [event] /\
    ud_client_ip_address (user_data event) = Some "203.0.113.7" /\
    anonymous (user_data event).
Proof.
  destruct (proj1 (delivery_client_context accepting_world)
              (delivery "orders/create" (Some guest_order)) guest_order)
    as (rq & event & Hcalls & Hdata & Hip & _ & _ & _ & Hanon).
  - exists {| session_id := "s1" |},
      {| meta_pixelId := "px"; meta_accessToken := "token" |}.
    repeat split. discriminate.
  - reflexivity.
  - exists rq, event. split; [exact Hcalls|]. split; [exact Hdata|].
    split; [exact Hip | apply Hanon; reflexivity].
Defined.

(** ** Bounds on what a checkout delivery reports *)

Lemma filter_Boolean_length xs :
  (List.length (filter_Boolean xs) <= List.length xs)%nat.
Proof.
  induction xs as [|[s|] xs IH]; simpl; [lia | | lia].
  destruct (JsString.truthy s); simpl; lia.
Qed.

Lemma counted_natural (quantities : list (option Z)) :
  Forall natural_quantity quantities ->
  Z.of_nat (List.length quantities) <= Spec.total (List.map counted quantities).
Proof.
  induction 1 as [|q quantities Hq _ IH]; [simpl; lia|].
  cbn [List.length List.map Spec.total List.fold_right].
  unfold Spec.total in IH.
  assert (1 <= counted q).
  { destruct q as [[|p|p]|]; simpl in *; lia. }
  lia.
Qed.

(** X13.  A checkout delivery reports at most one content id per line
    item, and, when the quantities of the line items are natural numbers
    or missing, an item count that is a whole number no smaller than the
    number of line items (a line item never counts for less than one). *)
Theorem checkout_counts_are_bounded (items : list LineItem) :
  (List.length (CheckoutsCreate.contentIds items) <= List.length items)%nat /\
  (forall quantities,
      List.map li_quantity items = List.map (option_map JsNumber.of_Z) quantities ->
      Forall natural_quantity quantities ->
      exists n,
        CheckoutsCreate.numItems items = JsNumber.of_Z n /\
        Z.of_nat (List.length items) <= n).
Proof.
  split.
  - unfold CheckoutsCreate.contentIds.
    rewrite <- (List.length_map CheckoutsCreate.content_id items).
    apply filter_Boolean_length.
  - intros quantities Hq Hnat.
    exists (Spec.total (List.map counted quantities)). split.
    + unfold CheckoutsCreate.numItems.
      rewrite (numItems_from items quantities 0 Hq). reflexivity.
    + assert (Hlen : List.length items = List.length quantities).
      { rewrite <- (List.length_map li_quantity items), Hq. apply List.length_map. }
      rewrite Hlen. apply counted_natural, Hnat.
Qed.

(** The two line items of quantity 0 and of no stated quantity count for
    at least two. *)
Lemma checkout_counts_are_bounded_witness :
  exists n, CheckoutsCreate.numItems unquantified_items = JsNumber.of_Z n /\ 2 <= n.
Proof.
  destruct (proj2 (checkout_counts_are_bounded unquantified_items) [Some 0; None])
    as (n & Hn & Hle).
  - reflexivity.
  - repeat constructor. simpl. lia.
  - exists n. split; [exact Hn | exact Hle].
Defined.

(** ** [MetaApiService]: duplicate pixels *)

Section UniquePixels.

Let ids (l : list MetaPixel) : list string := List.map px_id l.

Lemma find_same_id_none acc pixel :
  List.find (fun p => String.eqb (px_id p) (px_id pixel)) acc = None <->
  ~ In (px_id pixel) (ids acc).
Proof.
  induction acc as [|a acc IH]; simpl; [tauto|].
  destruct (String.eqb_spec (px_id a) (px_id pixel)) as [E|E]; split.
  - discriminate.
  - intros H. exfalso. apply H. left. exact E.
  - intros H [Ha|Hin]; [contradiction | apply IH in H; contradiction].
  - intros H. apply IH. intros Hin. apply H. right. exact Hin.
Qed.

Lemma ids_app l l' : ids (l ++ l') = (ids l ++ ids l')%list.
Proof. apply List.map_app. Qed.

(** The fold keeps the ids of the accumulator distinct. *)
Lemma fold_unique_NoDup pixels :
  forall acc, NoDup (ids acc) ->
              NoDup (ids (List.fold_left MetaApiService.push_unique pixels acc)).
Proof.
  induction pixels as [|x pixels IH]; intros acc Hacc; simpl; [exact Hacc|].
  apply IH. unfold MetaApiService.push_unique.
  destruct (List.find _ acc) eqn:E; [exact Hacc|].
  apply find_same_id_none in E.
  rewrite ids_app. simpl.
  apply NoDup_app; [exact Hacc | repeat constructor; simpl; tauto |].
  intros id Hin [<- | []]. contradiction.
Qed.

(** The ids of the result are those of the accumulator and of the input. *)
Lemma fold_unique_ids pixels :
  forall acc id,
    In id (ids (List.fold_left MetaApiService.push_unique pixels acc)) <->
    In id (ids acc) \/ In id (ids pixels).
Proof.
  induction pixels as [|x pixels IH]; intros acc id; simpl; [tauto|].
  rewrite IH. unfold MetaApiService.push_unique.
  destruct (List.find _ acc) eqn:E.
  - assert (Hx : In (px_id x) (ids acc)).
    { destruct (in_dec string_dec (px_id x) (ids acc)) as [H|H]; [exact H|].
      apply find_same_id_none in H. congruence. }
    split; [tauto|]. intros [H|[<-|H]]; tauto.
  - rewrite ids_app, in_app_iff. simpl. tauto.
Qed.

(** A pixel of the result that was not in the accumulator is the first
    pixel of the input with its id. *)
Lemma fold_unique_first pixels :
  forall acc p,
    In p (List.fold_left MetaApiService.push_unique pixels acc) ->
    In p acc \/
    (List.find (fun x => String.eqb (px_id x) (px_id p)) pixels = Some p /\
     ~ In (px_id p) (ids acc)).
Proof.
  induction pixels as [|x pixels IH]; intros acc p Hin; simpl in *; [tauto|].
  apply IH in Hin. unfold MetaApiService.push_unique in Hin.
  destruct (List.find _ acc) eqn:E.
  - destruct Hin as [Hin | [Hfind Hnot]]; [tauto|]. right.
    assert (Hx : In (px_id x) (ids acc)).
    { destruct (in_dec string_dec (px_id x) (ids acc)) as [H|H]; [exact H|].
      apply find_same_id_none in H. congruence. }
    destruct (String.eqb_spec (px_id x) (px_id p)) as [Exp|Exp].
    + rewrite <- Exp in Hnot. contradiction.
    + tauto.
  - apply find_same_id_none in E.
    destruct Hin as [Hin | [Hfind Hnot]].
    + apply in_app_iff in Hin. destruct Hin as [Hin | [<- | []]]; [tauto|].
      right. rewrite String.eqb_refl. tauto.
    + right. rewrite ids_app, in_app_iff in Hnot. simpl in Hnot.
      destruct (String.eqb_spec (px_id x) (px_id p)) as [Exp|Exp]; [tauto|].
      tauto.
Qed.

(** A list whose ids are distinct is left as it is. *)
Lemma fold_unique_fixed pixels :
  forall acc, NoDup (ids (acc ++ pixels)) ->
              List.fold_left MetaApiService.push_unique pixels acc
              = (acc ++ pixels)%list.
Proof.
  induction pixels as [|x pixels IH]; intros acc H; simpl.
  - symmetry. apply List.app_nil_r.
  - assert (Hx : ~ In (px_id x) (ids acc)).
    { rewrite ids_app in H. simpl in H. apply NoDup_remove_2 in H.
      intros Hin. apply H. apply in_app_iff. left. exact Hin. }
    apply find_same_id_none in Hx.
    unfold MetaApiService.push_unique at 2. rewrite Hx.
    rewrite IH; rewrite <- List.app_assoc; [reflexivity | exact H].
Qed.

Lemma fold_unique_length pixels :
  forall acc,
    (List.length (List.fold_left MetaApiService.push_unique pixels acc)
     <= List.length acc + List.length pixels)%nat.
Proof.
  induction pixels as [|x pixels IH]; intros acc; simpl; [lia|].
  eapply Nat.le_trans; [apply IH|].
  unfold MetaApiService.push_unique.
  destruct (List.find _ acc); [lia|].
  rewrite List.length_app. simpl. lia.
Qed.

(** X14.  Removing duplicate pixels keeps, for each pixel id of the input,
    exactly the first pixel that has it: the ids of the result are distinct
    and are those of the input, every pixel of the result is the first
    pixel of the input with its id, the result is no longer than the
    input, and removing duplicates a second time changes nothing. *)
Theorem uniquePixels_keeps_first (pixels : list MetaPixel) :
  NoDup (List.map px_id (MetaApiService.uniquePixels pixels)) /\
  (forall id,
      In id (List.map px_id (MetaApiService.uniquePixels pixels)) <->
      In id (List.map px_id pixels)) /\
  (forall p,
      In p (MetaApiService.uniquePixels pixels) ->
      List.find (fun x => String.eqb (px_id x) (px_id p)) pixels = Some p) /\
  (List.length (MetaApiService.uniquePixels pixels) <= List.length pixels)%nat /\
  MetaApiService.uniquePixels (MetaApiService.uniquePixels pixels)
  = MetaApiService.uniquePixels pixels.
Proof.
  assert (Hnd : NoDup (ids (MetaApiService.uniquePixels pixels))).
  { apply fold_unique_NoDup. constructor. }
  split; [exact Hnd|]. split; [|split; [|split]].
  - intros id. apply (iff_trans (fold_unique_ids pixels [] id)). simpl. tauto.
  - intros p Hin. apply fold_unique_first in Hin.
    destruct Hin as [[] | [H _]]. exact H.
  - apply (fold_unique_length pixels []).
  - unfold MetaApiService.uniquePixels at 1.
    apply (fold_unique_fixed _ []). exact Hnd.
Qed.

End UniquePixels.

(** ** [MetaApiService]: which pixels are found, and what a failure costs *)

Lemma fold_add_account_in accounts :
  forall acc p,
    In p (List.fold_left MetaApiService.add_account accounts acc) <->
    In p acc \/ exists account, In account accounts /\ lists_pixel account p.
Proof.
  induction accounts as [|a accounts IH]; intros acc p; simpl.
  - split; [tauto|]. intros [H | (account & [] & _)]. exact H.
  - rewrite IH. unfold MetaApiService.add_account at 1.
    split.
    + intros [Hin | (account & Hacc & Hp)].
      * destruct (oa_adspixels a) as [adspixels|] eqn:Ea; [|tauto].
        destruct (ap_data adspixels) as [data|] eqn:Ed; [|tauto].
        apply in_app_iff in Hin. destruct Hin as [Hin|Hin]; [tauto|].
        right. exists a. split; [tauto|]. exists adspixels, data. tauto.
      * right. exists account. tauto.
    + intros [Hin | (account & [<- | Hacc] & Hp)].
      * left. destruct (oa_adspixels a) as [adspixels|]; [|exact Hin].
        destruct (ap_data adspixels); [|exact Hin].
        apply in_app_iff. tauto.
      * left. destruct Hp as (adspixels & data & -> & -> & Hin).
        apply in_app_iff. tauto.
      * right. exists account. tauto.
Qed.

Lemma business_pixels_in api accessToken business p :
  In p (MetaApiService.business_pixels api accessToken business) <->
  exists accounts account,
    get_owned_ad_accounts api (biz_id business) accessToken = inl accounts /\
    In account (MetaApiService.or_empty accounts) /\
    lists_pixel account p.
Proof.
  unfold MetaApiService.business_pixels.
  destruct (get_owned_ad_accounts api (biz_id business) accessToken)
    as [accounts|e].
  - unfold MetaApiService.account_pixels. rewrite fold_add_account_in. simpl.
    split.
    + intros [[] | (account & Hacc & Hp)]. exists accounts, account. tauto.
    + intros (accounts' & account & E & Hacc & Hp). inversion E; subst.
      right. exists account. tauto.
  - split; [intros [] | intros (accounts & account & E & _); discriminate].
Qed.

Lemma all_business_pixels_in api accessToken businesses p :
  In p (List.concat (List.map (MetaApiService.business_pixels api accessToken)
                       businesses)) <->
  reachable api accessToken businesses p.
Proof.
  rewrite in_concat. unfold reachable. split.
  - intros (l & Hl & Hp). apply in_map_iff in Hl.
    destruct Hl as (business & <- & Hb).
    apply business_pixels_in in Hp. destruct Hp as (accounts & account & H).
    exists business, accounts, account. tauto.
  - intros (business & accounts & account & Hb & H).
    exists (MetaApiService.business_pixels api accessToken business). split.
    + apply in_map. exact Hb.
    + apply business_pixels_in. exists accounts, account. exact H.
Qed.

(** X15.  [getUserPixelsAndAccounts] fails, with the fixed message
    ["Failed to fetch Meta data"], exactly when the request for the ad
    accounts fails.  Otherwise it returns the ad accounts as received (none
    when the answer has no list), whatever happens to the later requests:
    a failed request for the businesses leaves the businesses and the
    pixels empty. *)
Theorem getUserPixelsAndAccounts_failures (api : GraphApi) (accessToken : string) :
  (forall e,
      get_adaccounts api accessToken = inr e ->
      MetaApiService.getUserPixelsAndAccounts api accessToken
      = Throw (JsError "Failed to fetch Meta data")) /\
  (forall data,
      get_adaccounts api accessToken = inl data ->
      exists r,
        MetaApiService.getUserPixelsAndAccounts api accessToken = Ok r /\
        upr_adAccounts r = MetaApiService.or_empty data /\
        (forall e, get_businesses api accessToken = inr e ->
                   upr_businesses r = [] /\ upr_pixels r = []) /\
        (forall b, get_businesses api accessToken = inl b ->
                   upr_businesses r = MetaApiService.or_empty b)).
Proof.
  unfold MetaApiService.getUserPixelsAndAccounts. split.
  - intros e ->. reflexivity.
  - intros data ->. eexists. split; [reflexivity|]. simpl.
    split; [reflexivity|]. split.
    + intros e ->. split; reflexivity.
    + intros b ->. reflexivity.
Qed.

Lemma getUserPixelsAndAccounts_failures_witness :
  MetaApiService.getUserPixelsAndAccounts failing_api "token"
  = Throw (JsError "Failed to fetch Meta data") /\
  exists r,
    MetaApiService.getUserPixelsAndAccounts sample_api "token" = Ok r /\
    List.length (upr_adAccounts r) = 1%nat.
Proof.
  destruct (getUserPixelsAndAccounts_failures failing_api "token") as (Hfail & _).
  destruct (getUserPixelsAndAccounts_failures sample_api "token") as (_ & Hok).
  split; [apply (Hfail timeout_error); reflexivity|].
  destruct (Hok _ eq_refl) as (r & Hr & Hacc & _).
  exists r. split; [exact Hr|]. rewrite Hacc. reflexivity.
Defined.

(** X16.  The pixels [getUserPixelsAndAccounts] returns have distinct
    ids, and a pixel id is among them exactly when some owned ad account
    of some returned business, whose request succeeded, lists a pixel with
    that id: a business whose request fails costs only its own pixels. *)
Theorem getUserPixelsAndAccounts_pixels (api : GraphApi) (accessToken : string)
  (r : UserPixelsResponse) :
  MetaApiService.getUserPixelsAndAccounts api accessToken = Ok r ->
  NoDup (List.map px_id (upr_pixels r)) /\
  (forall id,
      In id (List.map px_id (upr_pixels r)) <->
      exists p, reachable api accessToken (upr_businesses r) p /\ px_id p = id) /\
  (forall p,
      In p (upr_pixels r) -> reachable api accessToken (upr_businesses r) p).
Proof.
  unfold MetaApiService.getUserPixelsAndAccounts.
  destruct (get_adaccounts api accessToken) as [data|e]; [|discriminate].
  intros H. inversion H; subst r; clear H. simpl.
  set (businesses := match get_businesses api accessToken with
                     | inl b => MetaApiService.or_empty b
                     | inr _ => []
                     end).
  set (pixels := match businesses with
                 | [] => []
                 | _ :: _ =>
                     List.concat
                       (List.map (MetaApiService.business_pixels api accessToken)
                          businesses)
                 end).
  assert (Hpix : forall p, In p pixels <-> reachable api accessToken businesses p).
  { intros p. subst pixels. destruct businesses as [|b bs] eqn:Eb.
    - split; [intros [] | intros (business & _ & _ & [] & _)].
    - apply all_business_pixels_in. }
  destruct (uniquePixels_keeps_first pixels) as (Hnd & Hids & Hfirst & _).
  split; [exact Hnd|]. split.
  - intros id. rewrite Hids, in_map_iff. split.
    + intros (p & Hid & Hin). exists p. split; [apply Hpix, Hin | exact Hid].
    + intros (p & Hreach & Hid). exists p. split; [exact Hid | apply Hpix, Hreach].
  - intros p Hin. apply Hpix. apply Hfirst in Hin.
    apply List.find_some in Hin. tauto.
Qed.

(** Business ["b1"] lists pixel 1 twice and pixel 2 once; the request for
    business ["b2"] fails. *)
Lemma getUserPixelsAndAccounts_pixels_witness :
  exists r,
    MetaApiService.getUserPixelsAndAccounts sample_api "token" = Ok r /\
    List.map px_id (upr_pixels r) = ["1"; "2"] /\
    NoDup (List.map px_id (upr_pixels r)).
Proof.
  eexists. split; [reflexivity|]. split; [reflexivity|].
  apply (getUserPixelsAndAccounts_pixels sample_api "token"). reflexivity.
Defined.



(** ** [ShopifyMarketingService] *)

(** X18.  [createMarketingActivity] returns the activity exactly when the
    request resolves without user errors.  Every failure is thrown as an
    [Error] whose message starts with
    ["Failed to create marketing activity: "]: followed, for user errors,
    by ["Marketing activity creation failed: "] and the messages of all
    the user errors in their order, separated by [", "]; and, for a
    rejected request, by the message of the rejection.  The request
    carries the status of the input, and ["ACTIVE"] when the input has
    none. *)
Theorem createMarketingActivity_outcomes (Activity : Type)
  (client : ActivityVariables -> ShopifyMarketingService.CreateResponse Activity + ClientError)
  (input : CreateMarketingActivityInput) :
  let run := ShopifyMarketingService.createMarketingActivity Activity client input in
  let variables := ShopifyMarketingService.variables_of input in
  (forall activity,
      run = Ok activity <->
      exists response,
        client variables = inl response /\
        ShopifyMarketingService.cr_userErrors Activity response = [] /\
        ShopifyMarketingService.cr_marketingActivity Activity response = activity) /\
  (forall response,
      client variables = inl response ->
      ShopifyMarketingService.cr_userErrors Activity response <> [] ->
      run = Throw (JsError
                     ("Failed to create marketing activity: "
                      ++ "Marketing activity creation failed: "
                      ++ String.concat ", "
                           (List.map ue_message
                              (ShopifyMarketingService.cr_userErrors Activity response))))) /\
  (forall e,
      client variables = inr e ->
      run = Throw (JsError ("Failed to create marketing activity: "
                            ++ (if ce_is_Error e then ce_message e else "Unknown error")))) /\
  (forall err,
      run = Throw err ->
      exists message,
        err = JsError ("Failed to create marketing activity: " ++ message)) /\
  (in_status input = None \/ in_status input = Some "" -> var_status variables = "ACTIVE") /\
  (forall status, in_status input = Some status -> status <> "" ->
                  var_status variables = status).
Proof.
  cbv zeta. unfold ShopifyMarketingService.createMarketingActivity.
  set (variables := ShopifyMarketingService.variables_of input).
  split; [|split; [|split; [|split; [|split]]]].
  - intros activity.
    destruct (client variables) as [response|e].
    + destruct (ShopifyMarketingService.cr_userErrors Activity response) eqn:Eu; split.
      * intros H. inversion H. exists response. auto.
      * intros (r & Hr & _ & Ha). inversion Hr; subst. reflexivity.
      * discriminate.
      * intros (r & Hr & He & _). inversion Hr; subst. congruence.
    + split; [discriminate | intros (r & Hr & _); discriminate].
  - intros response -> Hne.
    destruct (ShopifyMarketingService.cr_userErrors Activity response);
      [congruence | reflexivity].
  - intros e ->. reflexivity.
  - intros err.
    destruct (client variables) as [response|e].
    + destruct (ShopifyMarketingService.cr_userErrors Activity response);
        [discriminate|].
      intros H. inversion H. eexists. reflexivity.
    + intros H. inversion H. eexists. reflexivity.
  - subst variables. simpl. intros [-> | ->]; reflexivity.
  - subst variables. simpl. intros status -> Hne. simpl.
    unfold JsString.or_else. rewrite (truthy_nonempty _ Hne). reflexivity.
Qed.

(** Two user errors. *)
Lemma createMarketingActivity_outcomes_witness :
  ShopifyMarketingService.createMarketingActivity string complaining_client sample_input
  = Throw (JsError "Failed to create marketing activity: Marketing activity creation failed: Title is too long, Start is invalid") /\
  var_status (ShopifyMarketingService.variables_of sample_input) = "ACTIVE".
Proof.
  destruct (createMarketingActivity_outcomes string complaining_client sample_input)
    as (_ & Hue & _ & _ & Hstatus & _).
  split.
  - apply (Hue _ eq_refl). discriminate.
  - apply Hstatus. left. reflexivity.
Defined.

(** X19.  [validateMarketingScopes] never throws: it reports the scope
    exactly when the probing query resolves; when the query is rejected
    and one of the errors of the response has the code ["ACCESS_DENIED"],
    it reports the fixed message about the missing
    [write_marketing_events] scope, and otherwise the message of the
    rejection. *)
Theorem validateMarketingScopes_reports (client : unit -> unit + ClientError) :
  let check := ShopifyMarketingService.validateMarketingScopes client in
  (hasScope check = true <-> exists u, client tt = inl u) /\
  (hasScope check = true -> scope_error check = None) /\
  (forall e errors,
      client tt = inr e ->
      ce_errors e = Some errors ->
      In (Some "ACCESS_DENIED") errors ->
      scope_error check
      = Some "Missing write_marketing_events scope. Please reinstall the app with marketing permissions.") /\
  (forall e,
      client tt = inr e ->
      (forall errors, ce_errors e = Some errors -> ~ In (Some "ACCESS_DENIED") errors) ->
      scope_error check = Some (ce_message e)).
Proof.
  cbv zeta. unfold ShopifyMarketingService.validateMarketingScopes.
  assert (Hex : forall errors,
             List.existsb
               (fun code => match code with
                            | Some c => String.eqb c "ACCESS_DENIED"
                            | None => false
                            end) errors = true <->
             In (Some "ACCESS_DENIED") errors).
  { intros errors. rewrite existsb_exists. split.
    - intros ([c|] & Hin & Hc); [|discriminate].
      apply String.eqb_eq in Hc. subst. exact Hin.
    - intros Hin. exists (Some "ACCESS_DENIED"). split; [exact Hin | reflexivity]. }
  destruct (client tt) as [u|e]; simpl.
  - split; [split; eauto|]. split; [reflexivity|].
    split; [intros e errors H; discriminate | intros e H; discriminate].
  - assert (Hno : forall b : bool,
               hasScope (if b
                         then {| hasScope := false;
                                 scope_error := Some "Missing write_marketing_events scope. Please reinstall the app with marketing permissions." |}
                         else {| hasScope := false; scope_error := Some (ce_message e) |})
               = false).
    { intros []; reflexivity. }
    split; [split; [rewrite Hno; discriminate | intros (u & H); discriminate]|].
    split; [rewrite Hno; discriminate|]. split.
    + intros e' errors He Herr Hin. inversion He; subst e'.
      rewrite Herr. apply Hex in Hin. rewrite Hin. reflexivity.
    + intros e' He Hnone. inversion He; subst e'.
      destruct (ce_errors e) as [errors|]; [|reflexivity].
      destruct (List.existsb _ errors) eqn:Eb; [|reflexivity].
      apply Hex in Eb. exfalso. exact (Hnone errors eq_refl Eb).
Qed.

Lemma validateMarketingScopes_reports_witness :
  scope_error (ShopifyMarketingService.validateMarketingScopes denied_client)
  = Some "Missing write_marketing_events scope. Please reinstall the app with marketing permissions.".
Proof.
  destruct (validateMarketingScopes_reports denied_client) as (_ & _ & Hdenied & _).
  apply (Hdenied _ [None; Some "ACCESS_DENIED"] eq_refl eq_refl).
  right. left. reflexivity.
Defined.

(** ** Dedup keys tell deliveries apart *)

Lemma to_int_not_nil (n : Z) :
  Z.to_int n <> Decimal.Pos Decimal.Nil /\ Z.to_int n <> Decimal.Neg Decimal.Nil.
Proof.
  destruct n as [|p|p]; simpl; split; try discriminate;
    intros H; inversion H as [Hp]; exact (DecimalPos.Unsigned.to_uint_nonnil p Hp).
Qed.

(** The decimal rendering of an integer determines it. *)
Lemma of_Z_injective (n m : Z) : JsString.of_Z n = JsString.of_Z m -> n = m.
Proof.
  unfold JsString.of_Z. intros H.
  apply (f_equal NilZero.int_of_string) in H.
  destruct (to_int_not_nil n) as [Hn1 Hn2], (to_int_not_nil m) as [Hm1 Hm2].
  rewrite !NilZero.isi in H by assumption.
  inversion H as [E]. apply DecimalZ.to_int_inj, E.
Qed.

Lemma uint_underscore_free (d : Decimal.uint) :
  underscore_free (NilEmpty.string_of_uint d) = true.
Proof. induction d; simpl; auto. Qed.

Lemma of_Z_underscore_free (n : Z) : underscore_free (JsString.of_Z n) = true.
Proof.
  unfold JsString.of_Z, NilZero.string_of_int, NilZero.string_of_uint.
  destruct (Z.to_int n) as [d|d]; destruct d; simpl;
    try reflexivity; apply uint_underscore_free.
Qed.

(** Two texts without underscores, each followed by an underscore and
    more, agree only when they are equal and are followed by the same. *)
Lemma split_at_underscore (a b r1 r2 : string) :
  underscore_free a = true -> underscore_free b = true ->
  a ++ String "_" r1 = b ++ String "_" r2 -> a = b /\ r1 = r2.
Proof.
  revert b. induction a as [|c a IH]; intros [|d b]; simpl; intros Ha Hb H.
  - inversion H. auto.
  - inversion H; subst d. discriminate Hb.
  - inversion H; subst c. discriminate Ha.
  - inversion H; subst d.
    apply andb_true_iff in Ha, Hb.
    destruct (IH b (proj2 Ha) (proj2 Hb) H2) as [-> ->]. auto.
Qed.

(** X20.  The dedup key of an adapter determines the record and the
    moment it was built for: two keys of the order adapter (of the
    checkout adapter, of the customer adapter) for records with numeric
    ids are equal only when the ids are equal and the clock readings are
    equal.  So two different orders delivered in the same millisecond get
    different keys, and so does one order delivered again at a later
    millisecond. *)
Theorem dedup_keys_are_injective :
  (forall o1 o2 a b t1 t2,
      ord_id o1 = Some (IdNum a) -> ord_id o2 = Some (IdNum b) ->
      OrdersCreate.eventId o1 t1 = OrdersCreate.eventId o2 t2 ->
      a = b /\ t1 = t2) /\
  (forall c1 c2 a b t1 t2,
      chk_id c1 = Some (IdNum a) -> chk_id c2 = Some (IdNum b) ->
      CheckoutsCreate.eventId c1 t1 = CheckoutsCreate.eventId c2 t2 ->
      a = b /\ t1 = t2) /\
  (forall c1 c2 a b t1 t2,
      cust_id c1 = Some (IdNum a) -> cust_id c2 = Some (IdNum b) ->
      CustomersCreate.eventId c1 t1 = CustomersCreate.eventId c2 t2 ->
      a = b /\ t1 = t2).
Proof.
  split; [|split]; intros x1 x2 a b t1 t2 H1 H2 H.
  - unfold OrdersCreate.eventId in H. rewrite H1, H2 in H. simpl in H.
    inversion H as [H']. clear H.
    apply split_at_underscore in H'; try apply of_Z_underscore_free.
    destruct H' as [Ha Ht]. split; apply of_Z_injective; assumption.
  - unfold CheckoutsCreate.eventId in H. rewrite H1, H2 in H. simpl in H.
    inversion H as [H']. clear H.
    apply split_at_underscore in H'; try apply of_Z_underscore_free.
    destruct H' as [Ha Ht]. split; apply of_Z_injective; assumption.
  - unfold CustomersCreate.eventId in H. rewrite H1, H2 in H. simpl in H.
    inversion H as [H']. clear H.
    apply split_at_underscore in H'; try apply of_Z_underscore_free.
    destruct H' as [Ha Ht]. inversion Ht as [Ht'].
    split; apply of_Z_injective; assumption.
Qed.

(** The order 1001 delivered at two different milliseconds. *)
Lemma dedup_keys_are_injective_witness :
  OrdersCreate.eventId sample_order 1700000000000
  <> OrdersCreate.eventId sample_order 1700000000001.
Proof.
  intros H.
  destruct (proj1 dedup_keys_are_injective sample_order sample_order 1001 1001
              1700000000000 1700000000001 eq_refl eq_refl H) as [_ Ht].
  discriminate Ht.
Defined.
